(** * Data modules of the Fourier diffusion experiments

    A shallow embedding of [src/fdiff/dataloaders/datamodules.py]:
    the sample-serving [DiffusionDataset], the [Datamodule] base class with
    its three loaders and [prepare_data], and the six dataset adapters
    (ECG, synthetic, MIMIC-III, NASDAQ, NASA, US droughts).

    Scalars are real numbers: the file states what the code computes in exact
    arithmetic.  Where PyTorch yields NaN (a division by zero in [mean] or
    [std]) the model yields whatever [Rdiv] gives; every statement that
    depends on such a value carries the hypothesis that excludes it. *)

From Stdlib Require Import ZArith Reals Lra Lia.
From stdpp Require Import base list strings gmap sorting.

(** ** Exceptions *)

Inductive exn :=
  | IndexError
  | AssertionError (msg : string)
  | ValueError
  | RuntimeError
  | FileNotFoundError
  | NotADirectoryError
  | TypeError
  | EmptyDataError
  | NotModelled.

Inductive result (A : Type) :=
  | Ok (a : A)
  | Raise (e : exn).
Arguments Ok {A} a.
Arguments Raise {A} e.

Definition rbind {A B} (m : result A) (k : A → result B) : result B :=
  match m with
  | Ok a => k a
  | Raise e => Raise e
  end.

Notation "'let?' x := m 'in' k" := (rbind m (fun x => k))
  (at level 10, x name, m at level 100, k at level 200, only parsing).

Definition assert (b : bool) (msg : string) : result unit :=
  if b then Ok tt else Raise (AssertionError msg).

(** ** Tensors

    A tensor is its shape and its elements in row-major order, as a
    contiguous [torch.Tensor] stores them.  The shape is kept next to the
    data, so that a tensor with no rows still has a sequence length and a
    channel count. *)

Record tensor (A : Type) := Tensor { shape : list nat; data : list A }.
Arguments Tensor {A} shape data.
Arguments shape {A} t.
Arguments data {A} t.

Definition numel (sh : list nat) : nat := foldr Nat.mul 1 sh.

Definition wf {A} (t : tensor A) : Prop := length (data t) = numel (shape t).

(** [torch.Tensor()]: the empty one-dimensional tensor. *)
Definition empty_tensor {A} : tensor A := Tensor [0] [].

(** [chunks n m l]: the first [n] consecutive blocks of [m] elements of [l]. *)
Fixpoint chunks {A} (n m : nat) (l : list A) : list (list A) :=
  match n with
  | 0 => []
  | S n' => take m l :: chunks n' m (drop m l)
  end.

(** Python's reading of an integer index into a dimension of length [len]:
    [-len <= i < len], negative values count from the end. *)
Definition norm_index (len : nat) (i : Z) : result nat :=
  if ((0 <=? i) && (i <? Z.of_nat len))%Z then Ok (Z.to_nat i)
  else if ((- Z.of_nat len <=? i) && (i <? 0))%Z then Ok (Z.to_nat (i + Z.of_nat len))
  else Raise IndexError.

(** [t[i]] for an integer [i]: the [i]-th block along dimension 0. *)
Definition select0 {A} (t : tensor A) (i : Z) : result (tensor A) :=
  match shape t with
  | [] => Raise IndexError
  | n :: rest =>
      let? k := norm_index n i in
      Ok (Tensor rest (take (numel rest) (drop (k * numel rest) (data t))))
  end.

(** [len(t)] *)
Definition len {A} (t : tensor A) : nat := default 0 (head (shape t)).

(** [t.size(k)] *)
Definition size {A} (t : tensor A) (k : nat) : result nat :=
  match shape t !! k with
  | Some n => Ok n
  | None => Raise IndexError
  end.

Definition pick {A} (idx : list nat) (l : list A) : list A :=
  omap (fun k => l !! k) idx.

(** Indexing one dimension with a list of non-negative positions and every
    other dimension with [:], as in [t[:, :, idx]] ([axis = 2]) or [t[idx]]
    ([axis = 0]).  A position outside the dimension raises [IndexError]. *)
Definition gather_axis {A} (axis : nat) (idx : list nat) (t : tensor A)
  : result (tensor A) :=
  match shape t !! axis with
  | None => Raise IndexError
  | Some c =>
      if forallb (fun k => k <? c) idx then
        let outer := numel (take axis (shape t)) in
        let inner := numel (drop (S axis) (shape t)) in
        Ok (Tensor
              (take axis (shape t) ++ length idx :: drop (S axis) (shape t))
              (concat (map (fun blk => concat (pick idx (chunks c inner blk)))
                           (chunks outer (c * inner) (data t)))))
      else Raise IndexError
  end.

(** Python slices.  [slice_bound len b] clamps a bound to the dimension;
    [py_slice start stop len] lists the positions of [start:stop]. *)
Definition slice_bound (len : nat) (b : Z) : nat :=
  if (b <? 0)%Z then Z.to_nat (Z.of_nat len + b) else Nat.min (Z.to_nat b) len.

Definition py_slice (start stop : option Z) (len : nat) : list nat :=
  let lo := from_option (slice_bound len) 0 start in
  let hi := from_option (slice_bound len) len stop in
  seq lo (hi - lo).

(** [::2] *)
Definition py_every_other (len : nat) : list nat :=
  map (Nat.mul 2) (seq 0 (Nat.div2 (S len))).

(** [l[:stop]] on a one-dimensional value *)
Definition slice_to {A} (stop : Z) (l : list A) : list A :=
  take (slice_bound (length l) stop) l.

(** [t.unsqueeze(2)] *)
Definition unsqueeze2 {A} (t : tensor A) : result (tensor A) :=
  if decide (2 ≤ length (shape t))
  then Ok (Tensor (take 2 (shape t) ++ 1 :: drop 2 (shape t)) (data t))
  else Raise IndexError.

(** *** Broadcasting binary operations *)

Fixpoint broadcast_rev (s t : list nat) : option (list nat) :=
  match s, t with
  | [], _ => Some t
  | _, [] => Some s
  | a :: s', b :: t' =>
      if a =? b then cons a <$> broadcast_rev s' t'
      else if a =? 1 then cons b <$> broadcast_rev s' t'
      else if b =? 1 then cons a <$> broadcast_rev s' t'
      else None
  end.

Definition broadcast_shapes (s t : list nat) : option (list nat) :=
  reverse <$> broadcast_rev (reverse s) (reverse t).

Definition pad_shape (rank : nat) (s : list nat) : list nat :=
  replicate (rank - length s) 1 ++ s.

(** [expand s t d]: the elements of a tensor of shape [s] seen at shape [t]
    (same rank; a dimension of [s] is the one of [t] or 1). *)
Fixpoint expand {A} (s t : list nat) (d : list A) : list A :=
  match s, t with
  | a :: s', b :: t' =>
      if a =? b
      then concat (map (expand s' t') (chunks a (numel s') d))
      else concat (replicate b (expand s' t' d))
  | _, _ => d
  end.

Definition binop {A B C} (f : A → B → C) (x : tensor A) (y : tensor B)
  : result (tensor C) :=
  match broadcast_shapes (shape x) (shape y) with
  | None => Raise RuntimeError
  | Some sh =>
      let r := length sh in
      Ok (Tensor sh (zip_with f
                       (expand (pad_shape r (shape x)) sh (data x))
                       (expand (pad_shape r (shape y)) sh (data y))))
  end.

Definition tsub : tensor R → tensor R → result (tensor R) := binop Rminus.
Definition tdiv : tensor R → tensor R → result (tensor R) := binop Rdiv.

(** *** Reductions along dimension 0 *)

Definition Rsum (l : list R) : R := foldr Rplus 0%R l.

Definition mean (l : list R) : R := (Rsum l / INR (length l))%R.

(** [torch.std] uses Bessel's correction by default. *)
Definition std (l : list R) : R :=
  sqrt (Rsum (map (fun x => Rsqr (x - mean l)) l) / (INR (length l) - 1)).

Definition column (j : nat) (rows : list (list R)) : list R :=
  map (fun row => nth j row 0%R) rows.

(** A reduction over dimension 0; a 0-dimensional tensor is its own only
    block. *)
Definition reduce_dim0 (f : list R → R) (t : tensor R) : tensor R :=
  let '(n, rest) := match shape t with
                    | [] => (1, [])
                    | n :: rest => (n, rest)
                    end in
  let rows := chunks n (numel rest) (data t) in
  Tensor rest (map (fun j => f (column j rows)) (seq 0 (numel rest))).

Definition mean_dim0 : tensor R → tensor R := reduce_dim0 mean.
Definition std_dim0 : tensor R → tensor R := reduce_dim0 std.

(** *** Sorting positions by key

    [torch.argsort] on a one-dimensional tensor.  PyTorch leaves the order of
    equal keys open; the model is the stable sort, and the theorems below use
    only what every such order shares. *)

Definition Rleb (x y : R) : bool := if Rle_dec x y then true else false.
Definition Rltb (x y : R) : bool := if Rlt_dec x y then true else false.

Fixpoint insert_by (le : nat → nat → bool) (i : nat) (l : list nat) : list nat :=
  match l with
  | [] => [i]
  | j :: l' => if le i j then i :: l else j :: insert_by le i l'
  end.

Definition argsort (v : list R) (descending : bool) : list nat :=
  let key i := nth i v 0%R in
  let le i j := if descending then Rleb (key j) (key i) else Rleb (key i) (key j) in
  foldr (insert_by le) [] (seq 0 (length v)).

(** [argsort] of a tensor; only the one-dimensional case is modelled. *)
Definition targsort (t : tensor R) (descending : bool) : result (list nat) :=
  match shape t with
  | [_] => Ok (argsort (data t) descending)
  | _ => Raise NotModelled
  end.

Definition tmap {A B} (f : A → B) (t : tensor A) : tensor B :=
  Tensor (shape t) (map f (data t)).

(** [t[:, ..., start:stop]] on dimension [axis] *)
Definition slice_axis {A} (axis : nat) (start stop : option Z) (t : tensor A)
  : result (tensor A) :=
  let? c := size t axis in gather_axis axis (py_slice start stop c) t.

(** [t[:, ..., ::2]] on dimension [axis] *)
Definition every_other_axis {A} (axis : nat) (t : tensor A) : result (tensor A) :=
  let? c := size t axis in gather_axis axis (py_every_other c) t.

(** ** The collaborators imported from [src.fdiff.utils.fourier]

    Their code is outside this file; they are parameters of the model. *)
Class Fourier := {
  dft : tensor R → tensor R;
  localization_metrics : tensor R → tensor R * tensor R;
  smooth_frequency : tensor R → R → tensor R;
}.

(** ** DiffusionDataset *)

(** The values of a sample dictionary. *)
Inductive value :=
  | FloatTensor (t : tensor R)
  | LongTensor (t : tensor Z).

Module DiffusionDataset.

Record t := make {
  X : tensor R;
  y : option (tensor Z);
  standardize : bool;
  feature_mean : tensor R;
  feature_std : tensor R;
}.

(** [__init__(X, y, fourier_transform, standardize, X_ref)] *)
Definition init `{Fourier} (X : tensor R) (y : option (tensor Z))
    (fourier_transform standardize : bool) (X_ref : option (tensor R)) : t :=
  let X := if fourier_transform then dft X else X in
  let X_ref :=
    match X_ref with
    | None => X
    | Some r => if fourier_transform then dft r else r
    end in
  {| X := X; y := y; standardize := standardize;
     feature_mean := mean_dim0 X_ref;
     feature_std := std_dim0 X_ref |}.

(** [__len__] *)
Definition len (ds : t) : nat := len (X ds).

(** [__getitem__]: the dictionary of a sample, by value. *)
Definition getitem (ds : t) (index : Z) : result (gmap string value) :=
  let? x := select0 (X ds) index in
  let? x := if standardize ds
            then let? d := tsub x (feature_mean ds) in tdiv d (feature_std ds)
            else Ok x in
  let data : gmap string value := <["X" := FloatTensor x]> ∅ in
  match y ds with
  | Some labels =>
      let? l := select0 labels index in
      Ok (<["y" := LongTensor l]> data)
  | None => Ok data
  end.

End DiffusionDataset.

(** ** Files, effects and the outside world *)

Abbreviation path := (list string).

Inductive file :=
  | Directory
  | RawFile
  | CsvFile (lines : list (list R))
  | TensorFile (t : tensor R).

Abbreviation fsys := (gmap path file).

(** The preprocessing routines of [src.fdiff.utils.preprocessing]. *)
Inductive routine :=
  | droughts_preprocess
  | mimic_preprocess
  | nasa_preprocess (subdataset : string)
  | nasdaq_preprocess.

(** What a run invoked, in order: a record kept beside the files.  The
    statements about what is invoked read the outcome of a run first, and
    this record with it. *)
Inductive call :=
  | DownloadData (dataset_name : string)
  | Preprocess (r : routine) (data_dir : path) (random_seed : Z).

Record world := World { fs : fsys; calls : list call }.

(** The routines outside this file act on the files only. *)
Class Outside := {
  preprocess : routine → path → Z → fsys → result unit * fsys;
  kaggle_download : string → path → fsys → result unit * fsys;
  normal_draw : nat → R;
  beta_draw : R → R → nat → R;
}.

(** Effects: a state threaded through the calls, and exceptions. *)
Definition St (S A : Type) : Type := S → result A * S.

Definition ret {S A} (a : A) : St S A := fun s => (Ok a, s).

Definition bind {S A B} (m : St S A) (k : A → St S B) : St S B :=
  fun s => match m s with
           | (Ok a, s') => k a s'
           | (Raise e, s') => (Raise e, s')
           end.

Definition lift {S A} (r : result A) : St S A := fun s => (r, s).

Abbreviation M := (St world).

Notation "'let!' x := m 'in' k" := (bind m (fun x => k))
  (at level 10, x name, m at level 100, k at level 200, only parsing).
Notation "m1 ;;; m2" := (bind m1 (fun _ => m2))
  (at level 100, m2 at level 200, right associativity, only parsing).

Definition record (c : call) : M unit :=
  fun w => (Ok tt, World (fs w) (calls w ++ [c])).

Definition on_files (f : fsys → result unit * fsys) : M unit :=
  fun w => let '(r, fs') := f (fs w) in (r, World fs' (calls w)).

(** [Path.exists()] *)
Definition path_exists (p : path) : M bool :=
  fun w => (Ok (bool_decide (is_Some (fs w !! p))), w).

Definition prefixes (p : path) : list path :=
  map (fun n => take n p) (seq 1 (length p)).

(** A directory can be made at [p] when every component of [p] that is
    there is a directory. *)
Definition creatable (p : path) (f : fsys) : bool :=
  forallb (fun q => match f !! q with
                    | Some Directory | None => true
                    | Some _ => false
                    end) (prefixes p).

(** [os.makedirs(p)]: the directory and its missing parents.  Under a
    component that is a regular file nothing is made and
    [NotADirectoryError] is raised. *)
Definition makedirs (p : path) : M unit :=
  fun w =>
    match fs w !! p with
    | Some _ => (Raise RuntimeError, w)
    | None =>
        if creatable p (fs w) then
          (Ok tt,
           World (<[p := Directory]>
                    (foldr (fun q m => match m !! q with
                                       | Some _ => m
                                       | None => <[q := Directory]> m
                                       end) (fs w) (prefixes p)))
                 (calls w))
        else (Raise NotADirectoryError, w)
    end.

(** [torch.load(p)] *)
Definition torch_load (p : path) : M (tensor R) :=
  fun w =>
    match fs w !! p with
    | Some (TensorFile t) => (Ok t, w)
    | Some _ => (Raise RuntimeError, w)
    | None => (Raise FileNotFoundError, w)
    end.

(** [pd.read_csv(p)] and [pd.read_csv(p, header=None)], then [.values]: with
    the default header the first line names the columns and is no data.
    A line longer than the first is a parser error; a shorter one would be
    filled with NaN, which the model has not. *)
Definition parse_csv (header_infer : bool) (lines : list (list R))
  : result (tensor R) :=
  match lines with
  | [] => Raise EmptyDataError
  | first :: rest =>
      let w := length first in
      if decide (w = 0) then Raise EmptyDataError
      else if existsb (fun l => w <? length l) lines then Raise ValueError
      else if existsb (fun l => length l <? w) lines then Raise NotModelled
      else
        let rows := if header_infer then rest else lines in
        Ok (Tensor [length rows; w] (concat rows))
  end.

Definition read_csv (p : path) (header_infer : bool) : M (tensor R) :=
  fun w =>
    match fs w !! p with
    | Some (CsvFile lines) => (parse_csv header_infer lines, w)
    | Some _ => (Raise RuntimeError, w)
    | None => (Raise FileNotFoundError, w)
    end.

(** [pd.DataFrame(t).to_csv(p, index=False, header=False)] for a
    two-dimensional [t]; the directory of [p] has to exist. *)
Definition to_csv (t : tensor R) (p : path) : M unit :=
  fun w =>
    match shape t with
    | [n; m] =>
        match fs w !! removelast p, fs w !! p with
        | Some Directory, (None | Some (CsvFile _ | RawFile | TensorFile _)) =>
            (Ok tt, World (<[p := CsvFile (chunks n m (data t))]> (fs w)) (calls w))
        | _, _ => (Raise RuntimeError, w)
        end
    | _ => (Raise ValueError, w)
    end.

(** [df.iloc[:, :k].values] and [df.iloc[:, k].values] *)
Definition iloc_cols_to (k : Z) (df : tensor R) : result (tensor R) :=
  slice_axis 1 None (Some k) df.

Definition iloc_col (k : nat) (df : tensor R) : result (tensor R) :=
  let? c := gather_axis 1 [k] df in
  Ok (Tensor (take 1 (shape c)) (data c)).

(** The results of a list of computations, or the first error. *)
Fixpoint collect {A} (l : list (result A)) : result (list A) :=
  match l with
  | [] => Ok []
  | r :: l' => let? a := r in let? l'' := collect l' in Ok (a :: l'')
  end.

(** Truncation towards zero. *)
Definition trunc (x : R) : Z :=
  if Rle_dec 0 x then Int_part x else (- Int_part (- x))%Z.

(** The conversion of a float to [torch.long], a 64-bit integer; what it
    gives outside the range of those is not modelled. *)
Definition to_long (x : R) : result Z :=
  let z := trunc x in
  if ((- 2 ^ 63 <=? z) && (z <? 2 ^ 63))%Z then Ok z else Raise NotModelled.

(** [torch.tensor(v, dtype=torch.float32)] and
    [torch.tensor(v, dtype=torch.long)] on the values of a frame read with a
    header line.  A frame without rows has columns of dtype object, and
    PyTorch makes no tensor of those. *)
Definition float_tensor (v : tensor R) : result (tensor R) :=
  if len v =? 0 then Raise TypeError else Ok v.

Definition long_tensor (v : tensor R) : result (tensor Z) :=
  if len v =? 0 then Raise TypeError
  else let? d := collect (map to_long (data v)) in Ok (Tensor (shape v) d).

(** ** Datamodule *)

Inductive adapter :=
  | ECG (subsample_localization smooth_freq : bool) (smoother_width : R)
  | Synthetic (max_len num_samples : Z)
  | MIMICIII (n_feats : Z)
  | NASDAQ
  | NASA (subdataset : string) (remove_outlier_feature : bool)
  | USDroughts.

Inductive collate := collate_batch.

Record DataLoader := {
  dataset : DiffusionDataset.t;
  dl_batch_size : Z;
  shuffle : bool;
  collate_fn : collate;
}.

(** [len(DataLoader(...))] is PyTorch's; it is a parameter of the model. *)
Class Loading := { loader_len : DataLoader → result nat }.

Module Datamodule.

Record t := make {
  kind : adapter;
  data_dir : path;
  random_seed : Z;
  batch_size : Z;
  fourier_transform : bool;
  standardize : bool;
  X_train : tensor R;
  y_train : option (tensor Z);
  X_test : tensor R;
  y_test : option (tensor Z);
}.

Definition dataset_name (k : adapter) : string :=
  match k with
  | ECG _ _ _ => "ecg"
  | Synthetic _ _ => "synthetic"
  | MIMICIII _ => "mimiciii"
  | NASDAQ => "nasdaq"
  | NASA _ _ => "nasa"
  | USDroughts => "droughts"
  end.

(** [__init__]: the storage of a dataset is the directory of its name. *)
Definition init (k : adapter) (data_dir : path) (random_seed batch_size : Z)
    (fourier_transform standardize : bool) : t :=
  {| kind := k;
     data_dir := data_dir ++ [dataset_name k];
     random_seed := random_seed;
     batch_size := batch_size;
     fourier_transform := fourier_transform;
     standardize := standardize;
     X_train := empty_tensor; y_train := None;
     X_test := empty_tensor; y_test := None |}.

(** The assignments of [setup] to the four tensors of [self]. *)
Definition with_tensors (dm : t) (X_train : tensor R) (y_train : option (tensor Z))
    (X_test : tensor R) (y_test : option (tensor Z)) : t :=
  {| kind := kind dm; data_dir := data_dir dm; random_seed := random_seed dm;
     batch_size := batch_size dm; fourier_transform := fourier_transform dm;
     standardize := standardize dm;
     X_train := X_train; y_train := y_train;
     X_test := X_test; y_test := y_test |}.

Definition with_X (dm : t) (X_train X_test : tensor R) : t :=
  with_tensors dm X_train (y_train dm) X_test (y_test dm).

Section Loaders.
Context `{Fourier}.

Definition train_dataloader (dm : t) : DataLoader :=
  let train_set :=
    DiffusionDataset.init (X_train dm) (y_train dm)
      (fourier_transform dm) (standardize dm) None in
  {| dataset := train_set; dl_batch_size := batch_size dm;
     shuffle := true; collate_fn := collate_batch |}.

Definition test_dataloader (dm : t) : DataLoader :=
  let test_set :=
    DiffusionDataset.init (X_test dm) (y_test dm)
      (fourier_transform dm) false None in
  {| dataset := test_set; dl_batch_size := batch_size dm;
     shuffle := false; collate_fn := collate_batch |}.

Definition val_dataloader (dm : t) : DataLoader :=
  let test_set :=
    DiffusionDataset.init (X_test dm) (y_test dm)
      (fourier_transform dm) (standardize dm) (Some (X_train dm)) in
  {| dataset := test_set; dl_batch_size := batch_size dm;
     shuffle := false; collate_fn := collate_batch |}.

Definition feature_mean_and_std (dm : t) : tensor R * tensor R :=
  let train_set :=
    DiffusionDataset.init (X_train dm) (y_train dm)
      (fourier_transform dm) (standardize dm) None in
  (DiffusionDataset.feature_mean train_set,
   DiffusionDataset.feature_std train_set).

(** The property [dataset_parameters]; the values of the dictionary are
    computed in the order they are written. *)
Definition dataset_parameters `{Loading} (dm : t) : result (gmap string nat) :=
  let? n_channels := size (X_train dm) 2 in
  let? max_len := size (X_train dm) 1 in
  let? num_training_steps := loader_len (train_dataloader dm) in
  Ok (<["n_channels" := n_channels]>
        (<["max_len" := max_len]>
           (<["num_training_steps" := num_training_steps]> ∅))).
End Loaders.

Section Adapters.
Context `{Fourier} `{Outside}.

(** The guard shared by the four adapters with cached tensors:
    preprocess unless both files are there, then load them. *)
Definition load_cached (r : routine) (dir : path) (dm : t)
  : M (tensor R * tensor R) :=
  let! has_train := path_exists (dir ++ ["X_train.pt"]) in
  let! has_test := path_exists (dir ++ ["X_test.pt"]) in
  (if negb has_train || negb has_test
   then record (Preprocess r (data_dir dm) (random_seed dm)) ;;;
        on_files (preprocess r (data_dir dm) (random_seed dm))
   else ret tt) ;;;
  let! X_train := torch_load (dir ++ ["X_train.pt"]) in
  let! X_test := torch_load (dir ++ ["X_test.pt"]) in
  ret (X_train, X_test).

Definition ecg_setup (dm : t) (subsample smooth : bool) (width : R) : M t :=
  let! df_train := read_csv (data_dir dm ++ ["mitbih_train.csv"]) true in
  let! X_train := lift (iloc_cols_to 187 df_train) in
  let! y_train := lift (iloc_col 187 df_train) in
  let! df_test := read_csv (data_dir dm ++ ["mitbih_test.csv"]) true in
  let! X_test := lift (iloc_cols_to 187 df_test) in
  let! y_test := lift (iloc_col 187 df_test) in
  let! X_train := lift (let? a := float_tensor X_train in unsqueeze2 a) in
  let! y_train := lift (long_tensor y_train) in
  let! X_test := lift (let? a := float_tensor X_test in unsqueeze2 a) in
  let! y_test := lift (long_tensor y_test) in
  let! sub :=
    (if subsample then
       let (X_loc, X_spec_loc) := localization_metrics X_train in
       let! loc_score := lift (tdiv X_loc X_spec_loc) in
       let! idx_ranking := lift (targsort loc_score false) in
       let! X_sub := lift (gather_axis 0 (slice_to 1000 idx_ranking) X_train) in
       let! y_sub := lift (gather_axis 0 (slice_to 1000 idx_ranking) y_train) in
       ret (X_sub, y_sub)
     else ret (X_train, y_train)) in
  let (X_train, y_train) := sub : tensor R * tensor Z in
  let (X_train, X_test) :=
    (if smooth && Rltb 0 width
     then (smooth_frequency X_train width, smooth_frequency X_test width)
     else (X_train, X_test)) : tensor R * tensor R in
  ret (with_tensors dm X_train (Some y_train) X_test (Some y_test)).

Definition synthetic_setup (dm : t) : M t :=
  let! X_train := read_csv (data_dir dm ++ ["train.csv"]) false in
  let! X_test := read_csv (data_dir dm ++ ["test.csv"]) false in
  let! X_train := lift (unsqueeze2 X_train) in
  let! X_test := lift (unsqueeze2 X_test) in
  ret (with_tensors dm X_train None X_test None).

(** The channels of highest standard deviation over the rows, averaged
    over the time steps: the selection of [MIMICIIIDatamodule.setup]. *)
Definition mimic_select (n_feats : Z) (X_train X_test : tensor R)
  : result (list nat * (tensor R * tensor R)) :=
  let? ranking := targsort (mean_dim0 (std_dim0 X_train)) true in
  let top_feats := slice_to n_feats ranking in
  let? X_train := gather_axis 2 top_feats X_train in
  let? X_test := gather_axis 2 top_feats X_test in
  Ok (top_feats, (X_train, X_test)).

Definition mimic_setup (dm : t) (n_feats : Z) : M t :=
  let! loaded := load_cached mimic_preprocess (data_dir dm) dm in
  let (X_train, X_test) := loaded : tensor R * tensor R in
  let! selected := lift (mimic_select n_feats X_train X_test) in
  let (X_train, X_test) := selected.2 in
  ret (with_X dm X_train X_test).

Definition nasdaq_setup (dm : t) : M t :=
  let! loaded := load_cached nasdaq_preprocess (data_dir dm) dm in
  let (X_train, X_test) := loaded : tensor R * tensor R in
  lift (assert (bool_decide (drop 1 (shape X_train) = drop 1 (shape X_test))
                && bool_decide (drop 1 (shape X_test) = [252; 6])) "") ;;;
  let! X_train := lift (slice_axis 2 None (Some (-1)%Z) X_train) in
  let! X_test := lift (slice_axis 2 None (Some (-1)%Z) X_test) in
  ret (with_X dm X_train X_test).

Definition nasa_setup (dm : t) (subdataset : string) (remove_outlier : bool)
  : M t :=
  let! loaded := load_cached (nasa_preprocess subdataset)
                   (data_dir dm ++ [subdataset]) dm in
  let (X_train, X_test) := loaded : tensor R * tensor R in
  if remove_outlier && bool_decide (subdataset = "charge") then
    let! X_train := lift (let? a := every_other_axis 1 X_train in
                          gather_axis 2 [0; 1; 3; 4] a) in
    let! X_test := lift (let? a := every_other_axis 1 X_test in
                         gather_axis 2 [0; 1; 3; 4] a) in
    let! c_train := lift (size X_train 2) in
    let! c_test := lift (size X_test 2) in
    lift (assert ((c_train =? c_test) && (c_test =? 4)) "") ;;;
    let! l_train := lift (size X_train 1) in
    lift (assert (l_train =? 251) "") ;;;
    let! l_test := lift (size X_test 1) in
    lift (assert (l_test =? 251) "") ;;;
    ret (with_X dm X_train X_test)
  else ret (with_X dm X_train X_test).

(** The features of high correlation with T2M. *)
Definition droughts_dropped : gset nat := {[4; 5; 6; 7; 9]}.

(** The pruning of [USDroughtsDatamodule.setup]. *)
Definition droughts_prune (X_train X_test : tensor R)
  : result (list nat * (tensor R * tensor R)) :=
  let? c := size X_train 2 in
  let feats := filter (fun i => i ∉ droughts_dropped) (seq 0 c) in
  let? X_train := gather_axis 2 feats X_train in
  let? X_test := gather_axis 2 feats X_test in
  Ok (feats, (X_train, X_test)).

Definition droughts_setup (dm : t) : M t :=
  let! loaded := load_cached droughts_preprocess (data_dir dm) dm in
  let (X_train, X_test) := loaded : tensor R * tensor R in
  let! pruned := lift (droughts_prune X_train X_test) in
  let feats := pruned.1 in
  let (X_train, X_test) := pruned.2 in
  let! l_train := lift (size X_train 1) in
  let! l_test := lift (size X_test 1) in
  lift (assert ((l_train mod 365 =? l_test mod 365)
                && (l_test mod 365 =? 0)) "") ;;;
  let! c_train := lift (size X_train 2) in
  let! c_test := lift (size X_test 2) in
  lift (assert ((c_train =? c_test) && (c_test =? length feats)) "") ;;;
  ret (with_X dm X_train X_test).

(** [np.random.normal(size=n)], [np.random.beta(a, b, size=n)],
    [v.reshape(-1, 1)] and [np.arange(n)] *)
Definition random_normal (n : Z) : result (tensor R) :=
  if (n <? 0)%Z then Raise ValueError
  else Ok (Tensor [Z.to_nat n] (map normal_draw (seq 0 (Z.to_nat n)))).

Definition random_beta (a b : R) (n : Z) : result (tensor R) :=
  if (n <? 0)%Z then Raise ValueError
  else Ok (Tensor [Z.to_nat n] (map (beta_draw a b) (seq 0 (Z.to_nat n)))).

Definition reshape_column {A} (v : tensor A) : tensor A :=
  Tensor [length (data v); 1] (data v).

Definition arange (n : Z) : tensor R :=
  Tensor [Z.to_nat n] (map INR (seq 0 (Z.to_nat n))).

Definition synthetic_download_data (dm : t) (max_len num_samples : Z) : M unit :=
  let n_generated := (2 * num_samples)%Z in
  let! phase := lift (random_normal n_generated) in
  let phase := reshape_column phase in
  let! frequency := lift (random_beta 2 2 n_generated) in
  let frequency := reshape_column frequency in
  let timesteps := arange max_len in
  let! X := lift (let? a := binop Rmult timesteps frequency in
                  let? b := binop Rplus a phase in
                  Ok (tmap sin b)) in
  let! X_train := lift (slice_axis 0 None (Some num_samples) X) in
  let! X_test := lift (slice_axis 0 (Some num_samples) None X) in
  to_csv X_train (data_dir dm ++ ["train.csv"]) ;;;
  to_csv X_test (data_dir dm ++ ["test.csv"]).

Definition path_string (p : path) : string := String.concat "/" p.

Definition mimic_instructions : string :=
  "Because MIMIC-III is a restricted dataset, you need to download it yourself. "
  +:+ "Our implementation relies on the default MIMIC-Extract preprocessed version of the dataset. "
  +:+ "Please follow the instruction on https://github.com/MLforHealth/MIMIC_Extract/tree/master.".

Definition mimic_message (dataset_path : path) : string :=
  "Dataset " +:+ path_string dataset_path +:+ " does not exist. "
  +:+ mimic_instructions.

Definition mimic_download_data (dm : t) : M unit :=
  let dataset_path := data_dir dm ++ ["all_hourly_data.h5"] in
  let! present := path_exists dataset_path in
  lift (assert present (mimic_message dataset_path)).

Definition download_data (dm : t) : M unit :=
  match kind dm with
  | ECG _ _ _ =>
      on_files (kaggle_download "shayanfazeli/heartbeat" (data_dir dm))
  | Synthetic max_len num_samples =>
      synthetic_download_data dm max_len num_samples
  | MIMICIII _ => mimic_download_data dm
  | NASDAQ =>
      on_files (kaggle_download "jacksoncrow/stock-market-dataset" (data_dir dm))
  | NASA _ _ =>
      on_files (kaggle_download "patrickfleith/nasa-battery-dataset" (data_dir dm))
  | USDroughts =>
      on_files (kaggle_download "cdminix/us-drought-meteorological-data" (data_dir dm))
  end.

Definition prepare_data (dm : t) : M unit :=
  let! present := path_exists (data_dir dm) in
  if present then ret tt
  else makedirs (data_dir dm) ;;;
       record (DownloadData (dataset_name (kind dm))) ;;;
       download_data dm.

Definition setup (dm : t) : M t :=
  match kind dm with
  | ECG subsample smooth width => ecg_setup dm subsample smooth width
  | Synthetic _ _ => synthetic_setup dm
  | MIMICIII n_feats => mimic_setup dm n_feats
  | NASDAQ => nasdaq_setup dm
  | NASA subdataset remove_outlier => nasa_setup dm subdataset remove_outlier
  | USDroughts => droughts_setup dm
  end.
End Adapters.

End Datamodule.


(** ** The standardized set as a whole

    [torch.stack([ds[i]["X"] for i in range(len(ds))])], and the statistics
    the statements about it read. *)

Definition stack (ts : list (tensor R)) : result (tensor R) :=
  match ts with
  | [] => Raise RuntimeError
  | t0 :: _ =>
      if forallb (fun t => bool_decide (shape t = shape t0)) ts
      then Ok (Tensor (length ts :: shape t0) (concat (map data ts)))
      else Raise RuntimeError
  end.

Definition sample_X (ds : DiffusionDataset.t) (i : nat) : result (tensor R) :=
  let? s := DiffusionDataset.getitem ds (Z.of_nat i) in
  match s !! "X" with
  | Some (FloatTensor x) => Ok x
  | _ => Raise RuntimeError
  end.

Definition standardized_set (ds : DiffusionDataset.t) : result (tensor R) :=
  let? xs := collect (map (sample_X ds) (seq 0 (DiffusionDataset.len ds))) in
  stack xs.

(** The statistics of one channel taken over every sample and every time
    step, which is how "per channel, over the whole set" reads for a tensor
    of shape (samples, sequence length, channels). *)
Definition channel_values (t : tensor R) (c : nat) : list R :=
  match shape t with
  | [n; l; k] => column c (chunks (n * l) k (data t))
  | _ => []
  end.

Definition per_channel_mean (t : tensor R) : list R :=
  map (fun c => mean (channel_values t c)) (seq 0 (default 0 (shape t !! 2))).

Definition per_channel_std (t : tensor R) : list R :=
  map (fun c => std (channel_values t c)) (seq 0 (default 0 (shape t !! 2))).

(** ** Tensors as objects: storages and views

    [self.X[index]] does not copy: the tensor it returns is a view of the
    storage of [self.X].  An arithmetic operation returns a tensor with a
    storage of its own.  A tensor object is here a view (storage, offset,
    shape), and the heap maps storages to their elements. *)

Module Storage.

Abbreviation loc := nat.

Record view := View { base : loc; offset : nat; vshape : list nat }.

Record heap := Heap { floats : gmap loc (list R); longs : gmap loc (list Z) }.

Inductive ref :=
  | FloatRef (v : view)
  | LongRef (v : view).

Definition read {A} (m : gmap loc (list A)) (v : view) : option (tensor A) :=
  match m !! base v with
  | Some l => Some (Tensor (vshape v) (take (numel (vshape v)) (drop (offset v) l)))
  | None => None
  end.

(** A tensor with a storage of its own. *)
Definition alloc (t : tensor R) : St heap view :=
  fun h =>
    let l := fresh (dom (floats h)) in
    (Ok (View l 0 (shape t)), Heap (<[l := data t]> (floats h)) (longs h)).

(** An in-place write through a view ([v.copy_(d)], [v[...] = d]). *)
Definition write {A} (v : view) (d : list A) (m : gmap loc (list A))
  : gmap loc (list A) :=
  alter (fun l => take (offset v) l ++ d ++ drop (offset v + length d) l) (base v) m.

(** [v.fill_(c)] *)
Definition fill_ (v : view) (c : R) (h : heap) : heap :=
  Heap (write v (replicate (numel (vshape v)) c) (floats h)) (longs h).

Definition load (v : view) : St heap (tensor R) :=
  fun h => match read (floats h) v with
           | Some t => (Ok t, h)
           | None => (Raise NotModelled, h)
           end.

(** [v[i]] *)
Definition select0 (v : view) (i : Z) : result view :=
  match vshape v with
  | [] => Raise IndexError
  | n :: rest =>
      let? k := norm_index n i in
      Ok (View (base v) (offset v + k * numel rest) rest)
  end.

(** [a - b] and [a / b] *)
Definition arith (f : tensor R → tensor R → result (tensor R)) (a b : view)
  : St heap view :=
  let! ta := load a in
  let! tb := load b in
  let! r := lift (f ta tb) in
  alloc r.

Record dataset := {
  X : view;
  y : option view;
  standardize : bool;
  feature_mean : view;
  feature_std : view;
}.

(** [DiffusionDataset.__getitem__] on objects. *)
Definition getitem (ds : dataset) (index : Z) : St heap (gmap string ref) :=
  let! x := lift (select0 (X ds) index) in
  let! x := (if standardize ds
             then let! d := arith tsub x (feature_mean ds) in
                  arith tdiv d (feature_std ds)
             else ret x) in
  let data : gmap string ref := <["X" := FloatRef x]> ∅ in
  match y ds with
  | Some labels =>
      let! l := lift (select0 labels index) in
      ret (<["y" := LongRef l]> data)
  | None => ret data
  end.

(** What the objects hold, by value. *)
Definition deref (h : heap) (r : ref) : option value :=
  match r with
  | FloatRef v => FloatTensor <$> read (floats h) v
  | LongRef v => LongTensor <$> read (longs h) v
  end.

Definition read_sample (h : heap) (d : gmap string ref) : gmap string value :=
  omap (deref h) d.

Definition read_dataset (h : heap) (ds : dataset) : option DiffusionDataset.t :=
  match read (floats h) (X ds), read (floats h) (feature_mean ds),
        read (floats h) (feature_std ds) with
  | Some x, Some m, Some s =>
      match y ds with
      | None => Some (DiffusionDataset.make x None (standardize ds) m s)
      | Some vy =>
          match read (longs h) vy with
          | Some l => Some (DiffusionDataset.make x (Some l) (standardize ds) m s)
          | None => None
          end
      end
  | _, _, _ => None
  end.

End Storage.

(** ** Instances and inputs used by the examples below *)

(** Collaborators that leave their argument as it is. *)
Definition plain_fourier : Fourier :=
  {| dft := fun X => X;
     localization_metrics := fun X => (Tensor [len X] [], Tensor [len X] []);
     smooth_frequency := fun X _ => X |}.

(** An outside world whose downloads and preprocessing write the two cached
    tensors they are given. *)
Definition writing_outside (X_train X_test : tensor R) : Outside :=
  {| preprocess := fun r dir _ f =>
       let dir := match r with
                  | nasa_preprocess sub => dir ++ [sub]
                  | _ => dir
                  end in
       (Ok tt, <[dir ++ ["X_train.pt"] := TensorFile X_train]>
                 (<[dir ++ ["X_test.pt"] := TensorFile X_test]> f));
     kaggle_download := fun _ dir f => (Ok tt, <[dir ++ ["archive.csv"] := RawFile]> f);
     normal_draw := fun _ => 0%R;
     beta_draw := fun _ _ _ => (1 / 2)%R |}.

(** A module asked to standardize, with two test rows [1] and [3]. *)
Definition dm_standardized : Datamodule.t :=
  Datamodule.with_tensors
    (Datamodule.init NASDAQ ["data"] 42 32 false true)
    (Tensor [2; 1; 1] [0; 2]%R) None
    (Tensor [2; 1; 1] [1; 3]%R) None.

(** Three rows of two time steps and one channel: at either time step the
    values over the rows are -1, 0, 1. *)
Definition three_rows : tensor R := Tensor [3; 2; 1] [-1; -1; 0; 0; 1; 1]%R.

(** The MIMIC-III and the NASDAQ module of the default configuration, and
    a machine with no file. *)
Definition mimic_dm : Datamodule.t :=
  Datamodule.init (MIMICIII 40) ["data"] 42 32 false false.

Definition nasdaq_dm : Datamodule.t :=
  Datamodule.init NASDAQ ["data"] 42 32 false false.

Definition empty_world : world := World ∅ [].

(** The synthetic module of the default configuration, and a machine with
    the fresh directory of its dataset. *)
Definition synthetic_dm : Datamodule.t :=
  Datamodule.init (Synthetic 100 1000) ["data"] 42 32 false false.

Definition fresh_synthetic_world : world :=
  World (<[["data"; "synthetic"] := Directory]> ∅) [].

(** A dataset object of three rows -1, 0, 1 (one time step, one channel)
    with its mean 0 and its standard deviation 1, each in a storage of its
    own. *)
Definition rows_heap : Storage.heap :=
  Storage.Heap (<[0 := [-1; 0; 1]%R]> (<[1 := [0%R]]> (<[2 := [1%R]]> ∅))) ∅.

Definition rows_object (standardize : bool) : Storage.dataset :=
  {| Storage.X := Storage.View 0 0 [3; 1; 1];
     Storage.y := None;
     Storage.standardize := standardize;
     Storage.feature_mean := Storage.View 1 0 [1; 1];
     Storage.feature_std := Storage.View 2 0 [1; 1] |}.

Definition rows_dataset (standardize : bool) : DiffusionDataset.t :=
  DiffusionDataset.make (Tensor [3; 1; 1] [-1; 0; 1]%R) None standardize
    (Tensor [1; 1] [0%R]) (Tensor [1; 1] [1%R]).

(** The droughts module of the default configuration, and a machine whose
    cache holds one training row of one year and one test row of two years,
    of ten channels each. *)
Definition droughts_dm : Datamodule.t :=
  Datamodule.init USDroughts ["data"] 42 32 false false.

Definition one_year : tensor R := Tensor [1; 365; 10] (replicate (365 * 10) 0%R).
Definition two_years : tensor R := Tensor [1; 730; 10] (replicate (730 * 10) 0%R).

Definition cached_droughts_world : world :=
  World (<[["data"; "droughts"; "X_train.pt"] := TensorFile one_year]>
           (<[["data"; "droughts"; "X_test.pt"] := TensorFile two_years]>
              (<[["data"; "droughts"] := Directory]> ∅))) [].

(** A loader length as PyTorch computes it without [drop_last]: the
    number of batches, the last one possibly short. *)
Definition ceil_loading : Loading :=
  {| loader_len := fun dl =>
       if (0 <? dl_batch_size dl)%Z
       then Ok (Nat.div (DiffusionDataset.len (dataset dl) + Z.to_nat (dl_batch_size dl) - 1)
                        (Z.to_nat (dl_batch_size dl)))
       else Raise ValueError |}.

(** A machine whose NASDAQ cache holds [three_rows] twice, which is not a
    year of six columns; and one whose NASA cache of the subdataset "charge"
    holds a row of 501 time steps and one of 502, of five channels. *)
Definition stale_nasdaq_world : world :=
  World (<[["data"; "nasdaq"; "X_train.pt"] := TensorFile three_rows]>
           (<[["data"; "nasdaq"; "X_test.pt"] := TensorFile three_rows]>
              (<[["data"; "nasdaq"] := Directory]> ∅))) [].

Definition nasa_dm : Datamodule.t :=
  Datamodule.init (NASA "charge" true) ["data"] 42 32 false false.

Definition charge_501 : tensor R := Tensor [1; 501; 5] (replicate (501 * 5) 0%R).
Definition charge_502 : tensor R := Tensor [1; 502; 5] (replicate (502 * 5) 0%R).

Definition cached_nasa_world : world :=
  World (<[["data"; "nasa"; "charge"; "X_train.pt"] := TensorFile charge_501]>
           (<[["data"; "nasa"; "charge"; "X_test.pt"] := TensorFile charge_502]> ∅)) [].

(** Collaborators whose localization metrics are 1 for every sample; the
    ECG module with subsampling; a line of a heartbeat file, 187 values and
    a label; and a machine with the two files of the ECG dataset, whose
    first line is a heartbeat like the others. *)
Definition flat_fourier : Fourier :=
  {| dft := fun X => X;
     localization_metrics := fun X =>
       (Tensor [len X] (replicate (len X) 1%R), Tensor [len X] (replicate (len X) 1%R));
     smooth_frequency := fun X _ => X |}.

Definition ecg_dm : Datamodule.t :=
  Datamodule.init (ECG true false 0) ["data"] 42 32 false false.

Definition heartbeat (label : R) : list R := replicate 187 0%R ++ [label].

Definition ecg_world : world :=
  World (<[["data"; "ecg"; "mitbih_train.csv"] := CsvFile [heartbeat 0; heartbeat 1]]>
           (<[["data"; "ecg"; "mitbih_test.csv"]
              := CsvFile [heartbeat 0; heartbeat 2; heartbeat 3]]> ∅)) [].

(** An outside world without a network: every download fails and writes
    nothing.  And the droughts module asked to standardize, holding a
    training tensor of one year and a test tensor of two. *)
Definition offline_outside : Outside :=
  {| preprocess := fun _ _ _ f => (Raise RuntimeError, f);
     kaggle_download := fun _ _ f => (Raise RuntimeError, f);
     normal_draw := fun _ => 0%R;
     beta_draw := fun _ _ _ => (1 / 2)%R |}.

Definition uneven_dm : Datamodule.t :=
  Datamodule.with_X (Datamodule.init USDroughts ["data"] 42 32 false true)
    (Tensor [1; 365; 5] (replicate (365 * 5) 0%R))
    (Tensor [1; 730; 5] (replicate (730 * 5) 0%R)).

(** A machine on which [data] is a regular file. *)
Definition blocked_world : world := World (<[["data"] := RawFile]> ∅) [].

(** ** Notions the statements use *)

(** The cache an adapter's [setup] looks for, and the routine that fills it;
    the ECG and the synthetic adapter read their CSV files every time. *)
Definition cache_of (dm : Datamodule.t) : option (routine * path) :=
  match Datamodule.kind dm with
  | ECG _ _ _ | Synthetic _ _ => None
  | MIMICIII _ => Some (mimic_preprocess, Datamodule.data_dir dm)
  | NASDAQ => Some (nasdaq_preprocess, Datamodule.data_dir dm)
  | NASA sub _ => Some (nasa_preprocess sub, Datamodule.data_dir dm ++ [sub])
  | USDroughts => Some (droughts_preprocess, Datamodule.data_dir dm)
  end.

Definition cached (dm : Datamodule.t) (w : world) : bool :=
  match cache_of dm with
  | Some (_, dir) =>
      bool_decide (is_Some (fs w !! (dir ++ ["X_train.pt"])))
      && bool_decide (is_Some (fs w !! (dir ++ ["X_test.pt"])))
  | None => true
  end.

(** A computation that reads no state and writes none. *)
Definition stateless {S A} (m : St S A) : Prop := ∃ r, ∀ s, m s = (r, s).

(** A computation that leaves the state as it is. *)
Definition readonly {S A} (m : St S A) : Prop := ∀ s, (m s).2 = s.

(** What a computation returns when it returns. *)
Definition returns {S A} (P : A → Prop) (m : St S A) : Prop :=
  ∀ s a s', m s = (Ok a, s') → P a.

(** Two modules of the same configuration; the labels count for the
    adapters whose [setup] keeps them. *)
Definition agree (dm dm' : Datamodule.t) : Prop :=
  Datamodule.kind dm' = Datamodule.kind dm
  ∧ Datamodule.data_dir dm' = Datamodule.data_dir dm
  ∧ Datamodule.random_seed dm' = Datamodule.random_seed dm
  ∧ Datamodule.batch_size dm' = Datamodule.batch_size dm
  ∧ Datamodule.fourier_transform dm' = Datamodule.fourier_transform dm
  ∧ Datamodule.standardize dm' = Datamodule.standardize dm
  ∧ (is_Some (cache_of dm) →
     Datamodule.y_train dm' = Datamodule.y_train dm
     ∧ Datamodule.y_test dm' = Datamodule.y_test dm).

(** A computation that invokes nothing. *)
Definition silent {A} (m : M A) : Prop := ∀ w, calls (m w).2 = calls w.

(** A computation that leaves an existing path in place. *)
Definition keeps (q : path) {A} (m : M A) : Prop :=
  ∀ w, is_Some (fs w !! q) → is_Some (fs (m w).2 !! q).

(** Two dimensions that broadcast: the first is the second, or 1. *)
Definition compatible (a b : nat) : Prop := a = b ∨ a = 1.

(** * Properties *)

(** ** Lists in blocks *)

Lemma chunks_length {A} (n m : nat) (l : list A) : length (chunks n m l) = n.
Proof. revert l. induction n as [|n IH]; intros l; simpl; [done|]. by rewrite IH. Qed.

Lemma chunks_Forall_length {A} (n m : nat) (l : list A) :
  n * m ≤ length l → Forall (fun c => length c = m) (chunks n m l).
Proof.
  revert l. induction n as [|n IH]; intros l Hl; simpl; constructor.
  - rewrite length_take. lia.
  - apply IH. rewrite length_drop. lia.
Qed.

Lemma concat_length_const {A} (m : nat) (ls : list (list A)) :
  Forall (fun c => length c = m) ls → length (concat ls) = length ls * m.
Proof.
  induction 1 as [|c ls Hc _ IH]; simpl; [done|].
  rewrite length_app, IH, Hc. lia.
Qed.

Lemma chunks_concat {A} (m : nat) (ls : list (list A)) :
  Forall (fun c => length c = m) ls → chunks (length ls) m (concat ls) = ls.
Proof.
  induction 1 as [|c ls Hc _ IH]; simpl; [done|].
  rewrite take_app_length', drop_app_length' by done. by rewrite IH.
Qed.

Lemma chunks_lookup {A} (n m i : nat) (l : list A) :
  i < n → chunks n m l !! i = Some (take m (drop (i * m) l)).
Proof.
  revert i l. induction n as [|n IH]; intros i l Hi; [lia|].
  destruct i as [|i]; simpl; [done|].
  rewrite IH by lia. by rewrite drop_drop.
Qed.

Lemma chunks_one {A} (m : nat) (l : list A) :
  length l = m → chunks 1 m l = [l].
Proof. intros <-. simpl. by rewrite firstn_all. Qed.

Lemma pick_length {A} (idx : list nat) (l : list A) :
  Forall (fun k => k < length l) idx → length (pick idx l) = length idx.
Proof.
  induction 1 as [|k idx Hk _ IH]; simpl; [done|].
  destruct (lookup_lt_is_Some_2 l k Hk) as [x Hx].
  unfold pick in *. simpl. rewrite Hx. simpl. by rewrite IH.
Qed.

Lemma pick_Forall {A} (P : A → Prop) (idx : list nat) (l : list A) :
  Forall P l → Forall P (pick idx l).
Proof.
  intros Hl. unfold pick. induction idx as [|k idx IH]; simpl; [constructor|].
  destruct (l !! k) as [x|] eqn:Hx; simpl; [|done].
  constructor; [|done]. by eapply (Forall_lookup_1 P l k x).
Qed.

Lemma forallb_lt (c : nat) (idx : list nat) :
  forallb (fun k => k <? c) idx = true ↔ Forall (fun k => k < c) idx.
Proof.
  rewrite forallb_forall, Forall_forall. split; intros Hx x Hin.
  - apply Nat.ltb_lt, Hx. by apply list_elem_of_In.
  - apply Nat.ltb_lt, Hx. by apply list_elem_of_In.
Qed.

Lemma numel_app (s t : list nat) : numel (s ++ t) = numel s * numel t.
Proof. induction s as [|a s IH]; simpl; [lia|]. rewrite IH. lia. Qed.

Lemma numel_take_drop (i c : nat) (s : list nat) :
  s !! i = Some c → numel s = numel (take i s) * (c * numel (drop (S i) s)).
Proof.
  intros Hi. rewrite <- (take_drop_middle s i c Hi) at 1.
  by rewrite numel_app.
Qed.

(** ** Shapes *)

Lemma gather_axis_Ok {A} (axis : nat) (idx : list nat) (t r : tensor A) :
  gather_axis axis idx t = Ok r →
  ∃ c, shape t !! axis = Some c ∧ Forall (fun k => k < c) idx ∧
       shape r = take axis (shape t) ++ length idx :: drop (S axis) (shape t).
Proof.
  unfold gather_axis. destruct (shape t !! axis) as [c|] eqn:Hc; [|done].
  destruct (forallb _ idx) eqn:Hidx; [|done].
  intros [= <-]. exists c. split; [done|]. split; [|done].
  by apply forallb_lt.
Qed.

Lemma gather_axis_wf {A} (axis : nat) (idx : list nat) (t r : tensor A) :
  wf t → gather_axis axis idx t = Ok r → wf r.
Proof.
  unfold wf, gather_axis. intros Hwf.
  destruct (shape t !! axis) as [c|] eqn:Hc; [|done].
  destruct (forallb _ idx) eqn:Hidx; [|done].
  apply forallb_lt in Hidx. intros [= <-]. simpl.
  rewrite (numel_take_drop axis c) in Hwf by done.
  set (outer := numel (take axis (shape t))) in *.
  set (inner := numel (drop (S axis) (shape t))) in *.
  rewrite numel_app. simpl. fold outer inner.
  rewrite (concat_length_const (length idx * inner)).
  - by rewrite length_map, chunks_length.
  - apply Forall_map.
    eapply Forall_impl; [apply (chunks_Forall_length outer (c * inner)); lia|].
    intros blk Hblk. simpl in *.
    rewrite (concat_length_const inner).
    + rewrite pick_length; [done|]. by rewrite chunks_length.
    + apply pick_Forall, chunks_Forall_length. lia.
Qed.

Lemma gather_axis_total {A} (axis c : nat) (idx : list nat) (t : tensor A) :
  shape t !! axis = Some c → Forall (fun k => k < c) idx →
  ∃ r, gather_axis axis idx t = Ok r.
Proof.
  intros Hc Hidx. unfold gather_axis. rewrite Hc.
  apply forallb_lt in Hidx. rewrite Hidx. eauto.
Qed.

Lemma concat_chunks {A} (n m : nat) (l : list A) :
  length l = n * m → concat (chunks n m l) = l.
Proof.
  revert l. induction n as [|n IH]; intros l Hl; simpl.
  - by destruct l.
  - rewrite IH; [apply take_drop|]. rewrite length_drop. lia.
Qed.

(** ** Broadcasting *)

Lemma numel_replicate_1 (k : nat) : numel (replicate k 1) = 1.
Proof. induction k as [|k IH]; simpl; lia. Qed.

Lemma numel_pad_shape (r : nat) (s : list nat) : numel (pad_shape r s) = numel s.
Proof. unfold pad_shape. rewrite numel_app, numel_replicate_1. lia. Qed.

Lemma pad_shape_same (s : list nat) : pad_shape (length s) s = s.
Proof. unfold pad_shape. by rewrite Nat.sub_diag. Qed.

Lemma broadcast_rev_refl (s : list nat) : broadcast_rev s s = Some s.
Proof.
  induction s as [|a s IH]; simpl; [done|].
  by rewrite Nat.eqb_refl, IH.
Qed.

Lemma broadcast_shapes_refl (s : list nat) : broadcast_shapes s s = Some s.
Proof.
  unfold broadcast_shapes. rewrite broadcast_rev_refl. simpl.
  by rewrite reverse_involutive.
Qed.

Lemma expand_same {A} (s : list nat) (d : list A) :
  length d = numel s → expand s s d = d.
Proof.
  revert d. induction s as [|a s IH]; intros d Hd; simpl; [done|].
  rewrite Nat.eqb_refl. simpl in Hd.
  rewrite <- (concat_chunks a (numel s) d) at 2 by done.
  f_equal. rewrite <- (map_id (chunks a (numel s) d)) at 2.
  apply map_ext_Forall.
  eapply Forall_impl; [apply chunks_Forall_length; lia|].
  intros c Hc. by apply IH.
Qed.

Lemma expand_length {A} (s t : list nat) (d : list A) :
  Forall2 compatible s t → length d = numel s → length (expand s t d) = numel t.
Proof.
  intros Hst. revert d. induction Hst as [|a b s t Hab _ IH]; intros d Hd; [done|].
  simpl in *. destruct (a =? b) eqn:Eab.
  - apply Nat.eqb_eq in Eab as ->.
    rewrite (concat_length_const (numel t)).
    + by rewrite length_map, chunks_length.
    + apply Forall_map.
      eapply Forall_impl; [apply chunks_Forall_length; lia|].
      intros c Hc. by apply IH.
  - destruct Hab as [->| ->]; [by rewrite Nat.eqb_refl in Eab|].
    rewrite (concat_length_const (numel t)).
    + by rewrite length_replicate.
    + apply Forall_replicate. apply IH. lia.
Qed.

Lemma broadcast_rev_compatible (s t u : list nat) :
  broadcast_rev s t = Some u →
  Forall2 compatible (s ++ replicate (length u - length s) 1) u
  ∧ Forall2 compatible (t ++ replicate (length u - length t) 1) u.
Proof.
  assert (Hrefl : ∀ l : list nat, Forall2 compatible l l).
  { intros l. apply Forall2_same_length_lookup_2; [done|].
    intros i x y Hx Hy. left. congruence. }
  assert (Hone : ∀ l : list nat, Forall2 compatible (replicate (length l) 1) l).
  { intros l. induction l; simpl; constructor; [by right|done]. }
  revert t u. induction s as [|a s IH]; intros t u; simpl.
  - intros [= <-]. rewrite Nat.sub_0_r, Nat.sub_diag, app_nil_r. by split.
  - destruct t as [|b t].
    + intros [= <-]. simpl. rewrite Nat.sub_diag, app_nil_r. split; [done|].
      apply (Hone (a :: s)).
    + destruct (a =? b) eqn:Eab; [|destruct (a =? 1) eqn:Ea; [|destruct (b =? 1) eqn:Eb]];
        try done;
        (destruct (broadcast_rev s t) as [u'|] eqn:Hu; [|done]);
        intros [= <-]; destruct (IH t u' Hu) as [H1 H2]; simpl; split;
        constructor; try done.
      * by left.
      * apply Nat.eqb_eq in Eab. by left.
      * apply Nat.eqb_eq in Ea. by right.
      * by left.
      * by left.
      * apply Nat.eqb_eq in Eb. by right.
Qed.

Lemma broadcast_shapes_compatible (s t sh : list nat) :
  broadcast_shapes s t = Some sh →
  Forall2 compatible (pad_shape (length sh) s) sh
  ∧ Forall2 compatible (pad_shape (length sh) t) sh.
Proof.
  unfold broadcast_shapes, pad_shape.
  destruct (broadcast_rev (reverse s) (reverse t)) as [u|] eqn:Hu; [|done].
  intros [= <-]. apply broadcast_rev_compatible in Hu as [H1 H2].
  rewrite !length_reverse in *.
  split.
  - apply Forall2_reverse in H1. by rewrite reverse_app, reverse_replicate, reverse_involutive in H1.
  - apply Forall2_reverse in H2. by rewrite reverse_app, reverse_replicate, reverse_involutive in H2.
Qed.

Lemma binop_wf {A B C} (f : A → B → C) (x : tensor A) (y : tensor B) (r : tensor C) :
  wf x → wf y → binop f x y = Ok r → wf r.
Proof.
  unfold wf, binop. intros Hx Hy.
  destruct (broadcast_shapes (shape x) (shape y)) as [sh|] eqn:Hsh; [|done].
  intros [= <-]. simpl.
  apply broadcast_shapes_compatible in Hsh as [H1 H2].
  rewrite length_zip_with, !expand_length; try done; [lia| |];
    by rewrite numel_pad_shape.
Qed.

Lemma binop_shape {A B C} (f : A → B → C) (x : tensor A) (y : tensor B) (r : tensor C) :
  binop f x y = Ok r → broadcast_shapes (shape x) (shape y) = Some (shape r).
Proof.
  unfold binop. destruct (broadcast_shapes _ _); [|done]. by intros [= <-].
Qed.

Lemma binop_same_shape {A B C} (f : A → B → C) (x : tensor A) (y : tensor B) :
  shape x = shape y → wf x → wf y →
  binop f x y = Ok (Tensor (shape x) (zip_with f (data x) (data y))).
Proof.
  unfold wf, binop. intros Hs Hx Hy.
  rewrite <- Hs, broadcast_shapes_refl, pad_shape_same.
  rewrite !expand_same; [done| |done]. by rewrite Hs.
Qed.

(** ** The loaders *)

(** C1: the statistics of the validation dataset are those of a dataset
    built from [X_train] alone with the same [fourier_transform] flag,
    whatever its labels and its [standardize] flag; they are the pair
    [feature_mean_and_std] returns, and no test tensor or test label has a
    part in them. *)
Theorem val_statistics_from_train `{Fourier} (dm : Datamodule.t)
    (y : option (tensor Z)) (standardize : bool)
    (X_test' : tensor R) (y_test' : option (tensor Z)) :
  let stats ds := (DiffusionDataset.feature_mean ds, DiffusionDataset.feature_std ds) in
  let val := dataset (Datamodule.val_dataloader dm) in
  stats val
  = stats (DiffusionDataset.init (Datamodule.X_train dm) y
             (Datamodule.fourier_transform dm) standardize None)
  ∧ stats val = Datamodule.feature_mean_and_std dm
  ∧ stats val
    = stats (dataset (Datamodule.val_dataloader
                        (Datamodule.with_tensors dm (Datamodule.X_train dm)
                           (Datamodule.y_train dm) X_test' y_test'))).
Proof.
  unfold Datamodule.val_dataloader, Datamodule.feature_mean_and_std,
    DiffusionDataset.init; simpl.
  by destruct (Datamodule.fourier_transform dm).
Qed.



(** ** Mean and standard deviation of a standardized list *)

Section Statistics.
Open Scope R_scope.

Lemma Rsum_affine (m s : R) (l : list R) :
  Rsum (map (fun x => (x - m) / s) l) = (Rsum l - INR (length l) * m) / s.
Proof.
  induction l as [|x l IH].
  - simpl. unfold Rdiv. ring.
  - change (Rsum (map (fun x => (x - m) / s) (x :: l)))
      with ((x - m) / s + Rsum (map (fun x => (x - m) / s) l)).
    rewrite IH. change (Rsum (x :: l)) with (x + Rsum l).
    change (length (x :: l)) with (S (length l)). rewrite S_INR.
    unfold Rdiv. ring.
Qed.

Lemma Rsum_sqr_scaled (m s : R) (l : list R) :
  Rsum (map (fun u => Rsqr (u - 0)) (map (fun x => (x - m) / s) l))
  = Rsum (map (fun x => Rsqr (x - m)) l) * (/ s * / s).
Proof.
  induction l as [|x l IH].
  - simpl. ring.
  - change (Rsum (map (fun u => Rsqr (u - 0)) (map (fun x => (x - m) / s) (x :: l))))
      with (Rsqr ((x - m) / s - 0)
            + Rsum (map (fun u => Rsqr (u - 0)) (map (fun x => (x - m) / s) l))).
    rewrite IH.
    change (Rsum (map (fun x => Rsqr (x - m)) (x :: l)))
      with (Rsqr (x - m) + Rsum (map (fun x => Rsqr (x - m)) l)).
    unfold Rsqr, Rdiv. ring.
Qed.

Lemma std_nonzero_variance (l : list R) :
  std l ≠ 0 →
  0 < Rsum (map (fun x => Rsqr (x - mean l)) l) / (INR (length l) - 1)
  ∧ l ≠ [].
Proof.
  unfold std. intros Hs. split.
  - destruct (Rlt_dec 0 (Rsum (map (fun x => Rsqr (x - mean l)) l) / (INR (length l) - 1)))
      as [Hpos|Hneg]; [done|].
    exfalso. apply Hs, sqrt_neg_0. lra.
  - intros ->. apply Hs. simpl. unfold Rdiv. rewrite Rmult_0_l. apply sqrt_0.
Qed.

Lemma mean_standardized (l : list R) :
  std l ≠ 0 → mean (map (fun x => (x - mean l) / std l) l) = 0.
Proof.
  intros Hs. destruct (std_nonzero_variance l Hs) as [_ Hl].
  assert (Hn : INR (length l) ≠ 0).
  { apply not_0_INR. by destruct l. }
  unfold mean at 1. rewrite Rsum_affine, length_map.
  unfold mean. field. by split.
Qed.

Lemma std_standardized (l : list R) :
  std l ≠ 0 → std (map (fun x => (x - mean l) / std l) l) = 1.
Proof.
  intros Hs. destruct (std_nonzero_variance l Hs) as [Hv Hl].
  pose proof (mean_standardized l Hs) as Hm.
  unfold std at 1. rewrite Hm, length_map, Rsum_sqr_scaled.
  set (V := Rsum (map (fun x => Rsqr (x - mean l)) l) / (INR (length l) - 1)) in *.
  assert (HV : std l * std l = V).
  { unfold std. fold V. apply sqrt_sqrt. lra. }
  assert (Hn1 : INR (length l) - 1 ≠ 0).
  { intros Hz. unfold V, Rdiv in Hv. rewrite Hz, Rinv_0, Rmult_0_r in Hv. lra. }
  replace (Rsum (map (fun x => Rsqr (x - mean l)) l) * (/ std l * / std l)
           / (INR (length l) - 1))
    with (V * / (std l * std l)).
  - rewrite HV. rewrite Rinv_r by lra. apply sqrt_1.
  - unfold V. field. by split.
Qed.

End Statistics.

(** ** Samples of a dataset *)

Lemma norm_index_nat (n i : nat) : i < n → norm_index n (Z.of_nat i) = Ok i.
Proof.
  intros Hi. unfold norm_index.
  destruct (Z.leb_spec 0 (Z.of_nat i)); [|lia].
  destruct (Z.ltb_spec (Z.of_nat i) (Z.of_nat n)); [|lia].
  simpl. by rewrite Nat2Z.id.
Qed.

Lemma select0_nat {A} (t : tensor A) (n i : nat) (rest : list nat) :
  shape t = n :: rest → i < n →
  select0 t (Z.of_nat i)
  = Ok (Tensor rest (take (numel rest) (drop (i * numel rest) (data t)))).
Proof.
  intros Hs Hi. unfold select0. rewrite Hs, (norm_index_nat n i Hi). done.
Qed.

Lemma collect_map_Ok {A B} (f : A → result B) (g : A → B) (l : list A) :
  Forall (fun a => f a = Ok (g a)) l → collect (map f l) = Ok (map g l).
Proof.
  induction 1 as [|a l Ha _ IH]; simpl; [done|].
  by rewrite Ha, IH.
Qed.

Lemma map_blocks {A B} (f : list A → B) (n m : nat) (l : list A) :
  map (fun i => f (take m (drop (i * m) l))) (seq 0 n) = map f (chunks n m l).
Proof.
  apply list_eq. intros i. rewrite !list_lookup_fmap.
  destruct (decide (i < n)) as [Hi|Hi].
  - rewrite lookup_seq_lt, chunks_lookup by done. done.
  - rewrite lookup_seq_ge by lia.
    rewrite (lookup_ge_None_2 (chunks n m l)); [done|].
    rewrite chunks_length. lia.
Qed.

Lemma nth_zip_with (f : R → R → R) (a b : list R) (j : nat) :
  j < length a → j < length b →
  nth j (zip_with f a b) 0%R = f (nth j a 0%R) (nth j b 0%R).
Proof.
  revert b j. induction a as [|x a IH]; intros [|y b] [|j]; simpl; try lia; [done|].
  intros ??. apply IH; lia.
Qed.

Lemma nth_map_seq (f : nat → R) (m j : nat) :
  j < m → nth j (map f (seq 0 m)) 0%R = f j.
Proof.
  intros Hj. rewrite (nth_indep _ 0%R (f 0)) by (rewrite length_map, length_seq; lia).
  rewrite (map_nth f (seq 0 m) 0 j), seq_nth; [done|lia].
Qed.

Lemma reduce_dim0_rows (f : list R → R) (t : tensor R) (n : nat) (rest : list nat) :
  shape t = n :: rest →
  reduce_dim0 f t
  = Tensor rest (map (fun j => f (column j (chunks n (numel rest) (data t))))
                     (seq 0 (numel rest))).
Proof. intros Hs. unfold reduce_dim0. by rewrite Hs. Qed.

Lemma map_seq_const (f : nat → R) (c : R) (m : nat) :
  (∀ j, j < m → f j = c) → map f (seq 0 m) = replicate m c.
Proof.
  intros Hf. apply list_eq. intros j. rewrite list_lookup_fmap.
  destruct (decide (j < m)) as [Hj|Hj].
  - rewrite lookup_seq_lt, lookup_replicate_2 by done. simpl. by rewrite Hf.
  - rewrite lookup_seq_ge by lia. symmetry. apply lookup_replicate_None. lia.
Qed.

(** The row served for a sample when the dataset standardizes. *)
Lemma column_standardized (j : nat) (ms ss : list R) (rows : list (list R)) :
  Forall (fun row => length row = length ms) rows →
  length ss = length ms → j < length ms →
  column j (map (fun row => zip_with Rdiv (zip_with Rminus row ms) ss) rows)
  = map (fun x => ((x - nth j ms 0) / nth j ss 0)%R) (column j rows).
Proof.
  intros Hrows Hss Hj. unfold column. rewrite !map_map.
  apply map_ext_Forall. eapply Forall_impl; [exact Hrows|].
  intros row Hrow. simpl in *.
  rewrite !nth_zip_with; [done|lia|lia|..].
  - rewrite length_zip_with. lia.
  - lia.
Qed.

Lemma sample_X_standardized (ds : DiffusionDataset.t) (n i : nat) (rest : list nat) :
  DiffusionDataset.standardize ds = true →
  shape (DiffusionDataset.X ds) = n :: rest → wf (DiffusionDataset.X ds) →
  shape (DiffusionDataset.feature_mean ds) = rest → wf (DiffusionDataset.feature_mean ds) →
  shape (DiffusionDataset.feature_std ds) = rest → wf (DiffusionDataset.feature_std ds) →
  from_option (fun l => ∃ r, shape l = n :: r) True (DiffusionDataset.y ds) →
  i < n →
  sample_X ds i
  = Ok (Tensor rest
          (zip_with Rdiv
             (zip_with Rminus
                (take (numel rest) (drop (i * numel rest) (data (DiffusionDataset.X ds))))
                (data (DiffusionDataset.feature_mean ds)))
             (data (DiffusionDataset.feature_std ds)))).
Proof.
  intros Hst HX HwX Hm Hwm Hs Hws Hy Hi.
  unfold sample_X, DiffusionDataset.getitem.
  rewrite (select0_nat _ n i rest HX Hi), Hst. simpl.
  assert (Hrow : length (take (numel rest)
                   (drop (i * numel rest) (data (DiffusionDataset.X ds)))) = numel rest).
  { unfold wf in HwX. rewrite HX in HwX. simpl in HwX.
    rewrite length_take, length_drop. nia. }
  unfold tsub. rewrite binop_same_shape; simpl; [|done|done|done].
  unfold tdiv. rewrite binop_same_shape; simpl; [|done| |done].
  2:{ unfold wf in *. simpl. rewrite length_zip_with. rewrite Hm in Hwm. lia. }
  destruct (DiffusionDataset.y ds) as [labels|]; simpl in *.
  - destruct Hy as [r Hr]. rewrite (select0_nat _ n i r Hr Hi). simpl.
    rewrite lookup_insert_ne by done. by rewrite lookup_insert_eq.
  - by rewrite lookup_insert_eq.
Qed.

Lemma reduce_dim0_wf (f : list R → R) (t : tensor R) : wf (reduce_dim0 f t).
Proof.
  unfold wf, reduce_dim0. destruct (shape t); simpl; [done|].
  by rewrite length_map, length_seq.
Qed.

Lemma reduce_dim0_shape (f : list R → R) (t : tensor R) (n : nat) (rest : list nat) :
  shape t = n :: rest → shape (reduce_dim0 f t) = rest.
Proof. intros Hs. by rewrite (reduce_dim0_rows f t n rest Hs). Qed.

Lemma stack_uniform (sh : list nat) (ds : list (list R)) :
  ds ≠ [] → stack (map (Tensor sh) ds) = Ok (Tensor (length ds :: sh) (concat ds)).
Proof.
  destruct ds as [|d ds]; [done|]. intros _. unfold stack. simpl.
  rewrite bool_decide_eq_true_2 by done. simpl.
  match goal with
  | |- context [forallb ?f ?l] => assert (forallb f l = true) as ->
  end.
  - apply forallb_forall. intros t Ht.
    apply in_map_iff in Ht as (row & <- & _). simpl.
    by rewrite bool_decide_eq_true_2.
  - rewrite map_map. simpl. by rewrite length_map, map_id.
Qed.

(** C8, as the code has it: the statistics are taken along the sample
    dimension, one mean and one standard deviation for each (time step,
    channel) position.  For a dataset that standardizes against itself,
    with at least one row and no zero among its standard deviations, every
    position of the standardized set has mean 0 and standard deviation 1
    along the sample dimension. *)
Theorem standardized_set_statistics `{Fourier} (X : tensor R)
    (y : option (tensor Z)) (fourier_transform : bool)
    (n : nat) (rest : list nat) :
  let ds := DiffusionDataset.init X y fourier_transform true None in
  shape (DiffusionDataset.X ds) = n :: rest →
  wf (DiffusionDataset.X ds) →
  0 < n →
  from_option (fun l => ∃ r, shape l = n :: r) True y →
  Forall (fun s => s ≠ 0%R) (data (DiffusionDataset.feature_std ds)) →
  ∃ Z, standardized_set ds = Ok Z
       ∧ shape Z = n :: rest
       ∧ mean_dim0 Z = Tensor rest (replicate (numel rest) 0%R)
       ∧ std_dim0 Z = Tensor rest (replicate (numel rest) 1%R).
Proof.
  intros ds HX HwX Hn Hy Hstd.
  set (X' := DiffusionDataset.X ds) in *.
  assert (Hmean_eq : DiffusionDataset.feature_mean ds = mean_dim0 X').
  { unfold ds, X', DiffusionDataset.init. simpl. done. }
  assert (Hstd_eq : DiffusionDataset.feature_std ds = std_dim0 X').
  { unfold ds, X', DiffusionDataset.init. simpl. done. }
  set (M := numel rest).
  set (rows := chunks n M (data X')).
  set (ms := map (fun j => mean (column j rows)) (seq 0 M)).
  set (ss := map (fun j => std (column j rows)) (seq 0 M)).
  assert (Hm : mean_dim0 X' = Tensor rest ms) by apply (reduce_dim0_rows mean X' n rest HX).
  assert (Hs : std_dim0 X' = Tensor rest ss) by apply (reduce_dim0_rows std X' n rest HX).
  assert (Hlen_ms : length ms = M) by (unfold ms; by rewrite length_map, length_seq).
  assert (Hlen_ss : length ss = M) by (unfold ss; by rewrite length_map, length_seq).
  assert (Hrows : Forall (fun row => length row = M) rows).
  { apply chunks_Forall_length. unfold wf in HwX. rewrite HX in HwX. simpl in HwX.
    fold M in HwX. lia. }
  set (zr := fun row : list R => zip_with Rdiv (zip_with Rminus row ms) ss).
  assert (Hsamples :
    collect (map (sample_X ds) (seq 0 (DiffusionDataset.len ds)))
    = Ok (map (fun row => Tensor rest (zr row)) rows)).
  { replace (DiffusionDataset.len ds) with n
      by (unfold DiffusionDataset.len, len; fold X'; by rewrite HX).
    unfold rows. rewrite <- (map_blocks (fun row => Tensor rest (zr row)) n M (data X')).
    apply collect_map_Ok. apply Forall_forall. intros i Hi.
    apply elem_of_seq in Hi.
    rewrite (sample_X_standardized ds n i rest); try done; try lia.
    - fold X'. by rewrite Hmean_eq, Hstd_eq, Hm, Hs.
    - rewrite Hmean_eq. by apply (reduce_dim0_shape mean X' n).
    - rewrite Hmean_eq. apply reduce_dim0_wf.
    - rewrite Hstd_eq. by apply (reduce_dim0_shape std X' n).
    - rewrite Hstd_eq. apply reduce_dim0_wf. }
  assert (Hzlen : Forall (fun c => length c = M) (map zr rows)).
  { apply Forall_map. eapply Forall_impl; [exact Hrows|]. intros row Hrow.
    unfold zr. simpl in *. rewrite !length_zip_with. lia. }
  assert (Hnrows : length rows = n) by apply chunks_length.
  exists (Tensor (n :: rest) (concat (map zr rows))).
  assert (Hstack : standardized_set ds = Ok (Tensor (n :: rest) (concat (map zr rows)))).
  { unfold standardized_set. rewrite Hsamples. simpl.
    rewrite <- (map_map zr (Tensor rest)), stack_uniform.
    - by rewrite length_map, Hnrows.
    - intros Hnil. apply (f_equal length) in Hnil.
      rewrite length_map, Hnrows in Hnil. simpl in Hnil. lia. }
  assert (Hcol : ∀ j, j < M →
    column j (map zr rows)
    = map (fun x => ((x - mean (column j rows)) / std (column j rows))%R) (column j rows)).
  { intros j Hj. unfold zr.
    rewrite column_standardized; [|by rewrite Hlen_ms|lia|lia].
    unfold ms, ss. by rewrite !nth_map_seq. }
  assert (Hnz : ∀ j, j < M → std (column j rows) ≠ 0%R).
  { intros j Hj. rewrite Hstd_eq, Hs in Hstd. simpl in Hstd.
    rewrite Forall_forall in Hstd. apply Hstd. unfold ss.
    apply list_elem_of_fmap. exists j. split; [done|]. apply elem_of_seq. lia. }
  assert (Hch : chunks n M (concat (map zr rows)) = map zr rows).
  { transitivity (chunks (length (map zr rows)) M (concat (map zr rows))).
    - by rewrite length_map, Hnrows.
    - by apply chunks_concat. }
  split; [done|]. split; [done|]. split.
  - unfold mean_dim0. rewrite (reduce_dim0_rows mean _ n rest) by done. simpl. fold M.
    rewrite Hch.
    f_equal. apply map_seq_const. intros j Hj.
    rewrite Hcol by done. apply mean_standardized. by apply Hnz.
  - unfold std_dim0. rewrite (reduce_dim0_rows std _ n rest) by done. simpl. fold M.
    rewrite Hch.
    f_equal. apply map_seq_const. intros j Hj.
    rewrite Hcol by done. apply std_standardized. by apply Hnz.
Qed.

Lemma mean_minus_one_zero_one : mean [-1; 0; 1]%R = 0%R.
Proof. unfold mean. simpl. field. Qed.

Lemma std_minus_one_zero_one : std [-1; 0; 1]%R = 1%R.
Proof.
  unfold std. rewrite mean_minus_one_zero_one. simpl.
  replace ((Rsqr (-1 - 0) + (Rsqr (0 - 0) + (Rsqr (1 - 0) + 0))) / (1 + 1 + 1 - 1))%R
    with 1%R by (unfold Rsqr; field).
  apply sqrt_1.
Qed.

Lemma three_rows_statistics :
  mean_dim0 three_rows = Tensor [2; 1] [0; 0]%R
  ∧ std_dim0 three_rows = Tensor [2; 1] [1; 1]%R.
Proof.
  change (mean_dim0 three_rows)
    with (Tensor [2; 1] [mean [-1; 0; 1]%R; mean [-1; 0; 1]%R]).
  change (std_dim0 three_rows)
    with (Tensor [2; 1] [std [-1; 0; 1]%R; std [-1; 0; 1]%R]).
  by rewrite mean_minus_one_zero_one, std_minus_one_zero_one.
Qed.

(** The witness of C8: [three_rows] standardized against itself. *)
Lemma standardized_set_statistics_witness :
  ∃ Z, standardized_set
         (@DiffusionDataset.init plain_fourier three_rows None false true None) = Ok Z
       ∧ shape Z = [3; 2; 1]
       ∧ mean_dim0 Z = Tensor [2; 1] (replicate (numel [2; 1]) 0%R)
       ∧ std_dim0 Z = Tensor [2; 1] (replicate (numel [2; 1]) 1%R).
Proof.
  apply (@standardized_set_statistics plain_fourier three_rows None false 3 [2; 1]).
  - reflexivity.
  - reflexivity.
  - lia.
  - exact I.
  - change (Forall (fun s => s ≠ 0%R) (data (std_dim0 three_rows))).
    rewrite (proj2 three_rows_statistics). simpl.
    repeat constructor; apply R1_neq_R0.
Defined.

(** C8 as stated fails for the statistics of a channel taken over the whole
    set: [three_rows] has one channel of standard deviation [sqrt (4/5)];
    standardized against itself it is served unchanged (every position has
    mean 0 and standard deviation 1 over the rows), so the mean of its
    channel is 0 and the standard deviation of its channel is not 1. *)
Lemma channel_std_of_standardized_set_not_one :
  let ds := @DiffusionDataset.init plain_fourier three_rows None false true None in
  DiffusionDataset.feature_std ds = Tensor [2; 1] [1; 1]%R
  ∧ per_channel_std three_rows ≠ [0%R]
  ∧ standardized_set ds = Ok three_rows
  ∧ per_channel_mean three_rows = [0%R]
  ∧ per_channel_std three_rows ≠ [1%R].
Proof.
  assert (Hmean : mean [-1; -1; 0; 0; 1; 1]%R = 0%R) by (unfold mean; simpl; field).
  assert (Hstd : std [-1; -1; 0; 0; 1; 1]%R = sqrt (4 / 5)).
  { unfold std. rewrite Hmean. simpl. f_equal. unfold Rsqr. field. }
  assert (Hlt : (sqrt (4 / 5) < 1)%R).
  { apply Rlt_le_trans with (sqrt 1); [apply sqrt_lt_1; lra|].
    rewrite sqrt_1. lra. }
  assert (Hpos : (0 < sqrt (4 / 5))%R) by (apply sqrt_lt_R0; lra).
  assert (Hpc : per_channel_std three_rows = [sqrt (4 / 5)]).
  { change (per_channel_std three_rows) with [std [-1; -1; 0; 0; 1; 1]%R].
    by rewrite Hstd. }
  destruct three_rows_statistics as [Hm Hs].
  intros ds. split; [exact Hs|]. split.
  { rewrite Hpc. intros [= Heq]. lra. }
  split.
  { unfold standardized_set.
    change (DiffusionDataset.len ds) with 3.
    cbn [seq map].
    rewrite !(sample_X_standardized ds 3 _ [2; 1]); try reflexivity; try lia;
      try exact I; try apply reduce_dim0_wf.
    change (DiffusionDataset.feature_mean ds) with (mean_dim0 three_rows).
    change (DiffusionDataset.feature_std ds) with (std_dim0 three_rows).
    rewrite Hm, Hs. unfold three_rows. simpl.
    repeat match goal with
           | |- context [((?x - 0) / 1)%R] =>
               replace ((x - 0) / 1)%R with x by field
           end.
    reflexivity. }
  split.
  { change (per_channel_mean three_rows) with [mean [-1; -1; 0; 0; 1; 1]%R].
    by rewrite Hmean. }
  rewrite Hpc. intros [= Heq]. lra.
Qed.

(** ** Effects *)

Lemma bind_inv {S A B} (m : St S A) (k : A → St S B) (s s' : S) (r : result B) :
  bind m k s = (r, s') →
  (∃ a s1, m s = (Ok a, s1) ∧ k a s1 = (r, s'))
  ∨ (∃ e, m s = (Raise e, s') ∧ r = Raise e).
Proof.
  unfold bind. destruct (m s) as [[a|e] s1]; intros Hk.
  - left. eauto.
  - right. exists e. by injection Hk as <- <-.
Qed.

Lemma bind_Ok_inv {S A B} (m : St S A) (k : A → St S B) (s s' : S) (b : B) :
  bind m k s = (Ok b, s') →
  ∃ a s1, m s = (Ok a, s1) ∧ k a s1 = (Ok b, s').
Proof.
  intros Hb. apply bind_inv in Hb as [Hb|(e & _ & He)]; [done|discriminate].
Qed.

Lemma lift_Ok_inv {S A} (r : result A) (s s' : S) (a : A) :
  lift r s = (Ok a, s') → r = Ok a ∧ s' = s.
Proof. unfold lift. by intros [= -> ->]. Qed.

Lemma rbind_Ok_inv {A B} (m : result A) (k : A → result B) (b : B) :
  rbind m k = Ok b → ∃ a, m = Ok a ∧ k a = Ok b.
Proof. destruct m as [a|e]; simpl; [eauto|done]. Qed.

Lemma assert_Ok_inv (b : bool) (msg : string) (u : unit) :
  assert b msg = Ok u → b = true.
Proof. by destruct b. Qed.

Lemma stateless_ret {S A} (a : A) : stateless (ret a : St S A).
Proof. by exists (Ok a). Qed.

Lemma stateless_lift {S A} (r : result A) : stateless (lift r : St S A).
Proof. by exists r. Qed.

Lemma stateless_bind {S A B} (m : St S A) (k : A → St S B) :
  stateless m → (∀ a, stateless (k a)) → stateless (bind m k).
Proof.
  intros [r Hm] Hk. destruct r as [a|e].
  - destruct (Hk a) as [r' Hr']. exists r'. intros s. unfold bind. by rewrite Hm, Hr'.
  - exists (Raise e). intros s. unfold bind. by rewrite Hm.
Qed.

Lemma stateless_run {S A} (m : St S A) (s s' : S) :
  stateless m → (m s).2 = s ∧ (m s').1 = (m s).1.
Proof. intros [r Hm]. by rewrite !Hm. Qed.

Lemma silent_ret {A} (a : A) : silent (ret a).
Proof. by intros w. Qed.

Lemma silent_lift {A} (r : result A) : silent (lift r).
Proof. by intros w. Qed.

Lemma silent_bind {A B} (m : M A) (k : A → M B) :
  silent m → (∀ a, silent (k a)) → silent (bind m k).
Proof.
  intros Hm Hk w. unfold bind. specialize (Hm w).
  destruct (m w) as [[a|e] w1]; simpl in *; [|done].
  by rewrite (Hk a w1).
Qed.

Lemma silent_on_files (f : fsys → result unit * fsys) : silent (on_files f).
Proof. intros w. unfold on_files. by destruct (f (fs w)). Qed.

Lemma silent_path_exists (p : path) : silent (path_exists p).
Proof. by intros w. Qed.

Lemma silent_makedirs (p : path) : silent (makedirs p).
Proof.
  intros w. unfold makedirs.
  destruct (fs w !! p); [done|]. by destruct (creatable p (fs w)).
Qed.

Lemma silent_torch_load (p : path) : silent (torch_load p).
Proof. intros w. unfold torch_load. by destruct (fs w !! p) as [[]|]. Qed.

Lemma silent_to_csv (t : tensor R) (p : path) : silent (to_csv t p).
Proof.
  intros w. unfold to_csv.
  destruct (shape t) as [|n [|m [|? ?]]]; try done.
  by destruct (fs w !! removelast p) as [[]|], (fs w !! p) as [[]|].
Qed.

Lemma keeps_ret (q : path) {A} (a : A) : keeps q (ret a).
Proof. by intros w. Qed.

Lemma keeps_lift (q : path) {A} (r : result A) : keeps q (lift r).
Proof. by intros w. Qed.

Lemma keeps_bind (q : path) {A B} (m : M A) (k : A → M B) :
  keeps q m → (∀ a, keeps q (k a)) → keeps q (bind m k).
Proof.
  intros Hm Hk w Hq. unfold bind. specialize (Hm w Hq).
  destruct (m w) as [[a|e] w1]; simpl in *; [|done].
  by apply (Hk a w1).
Qed.

Lemma keeps_path_exists (q p : path) : keeps q (path_exists p).
Proof. by intros w. Qed.

Lemma keeps_record (q : path) (c : call) : keeps q (record c).
Proof. by intros w. Qed.

Lemma keeps_to_csv (q : path) (t : tensor R) (p : path) : keeps q (to_csv t p).
Proof.
  intros w Hq. unfold to_csv.
  destruct (shape t) as [|n [|m [|? ?]]]; try done.
  destruct (fs w !! removelast p) as [[]|], (fs w !! p) as [[]|]; simpl; try done;
    (destruct (decide (p = q)) as [->|Hne];
       [by rewrite lookup_insert_eq | by rewrite lookup_insert_ne]).
Qed.

(** ** Fetching the data *)

Lemma string_append_assoc (s1 s2 s3 : string) :
  (s1 +:+ s2) +:+ s3 = s1 +:+ (s2 +:+ s3).
Proof.
  induction s1 as [|c s1 IH]; [done|].
  change (String c ((s1 +:+ s2) +:+ s3) = String c (s1 +:+ s2 +:+ s3)).
  by rewrite IH.
Qed.

Section Fetch.
Context `{Outside}.

Lemma synthetic_download_data_silent (dm : Datamodule.t) (max_len num_samples : Z) :
  silent (Datamodule.synthetic_download_data dm max_len num_samples).
Proof.
  unfold Datamodule.synthetic_download_data.
  repeat (apply silent_bind; [try apply silent_lift; try apply silent_to_csv|intros ?]).
  apply silent_to_csv.
Qed.

Lemma download_data_silent (dm : Datamodule.t) : silent (Datamodule.download_data dm).
Proof.
  unfold Datamodule.download_data.
  destruct (Datamodule.kind dm); try apply silent_on_files.
  - apply synthetic_download_data_silent.
  - unfold Datamodule.mimic_download_data.
    apply silent_bind; [apply silent_path_exists|intros ?; apply silent_lift].
Qed.

Lemma download_data_keeps (dm : Datamodule.t) :
  (∀ name dir f, is_Some (f !! dir) → is_Some ((kaggle_download name dir f).2 !! dir)) →
  keeps (Datamodule.data_dir dm) (Datamodule.download_data dm).
Proof.
  intros Hkeep.
  assert (Hkaggle : ∀ name,
    keeps (Datamodule.data_dir dm) (on_files (kaggle_download name (Datamodule.data_dir dm)))).
  { intros name w Hq. unfold on_files.
    specialize (Hkeep name (Datamodule.data_dir dm) (fs w) Hq).
    by destruct (kaggle_download name (Datamodule.data_dir dm) (fs w)). }
  unfold Datamodule.download_data.
  destruct (Datamodule.kind dm); try apply Hkaggle.
  - unfold Datamodule.synthetic_download_data.
    repeat (apply keeps_bind; [try apply keeps_lift; try apply keeps_to_csv|intros ?]).
    apply keeps_to_csv.
  - unfold Datamodule.mimic_download_data.
    apply keeps_bind; [apply keeps_path_exists|intros ?; apply keeps_lift].
Qed.

Lemma prepare_data_present (dm : Datamodule.t) (w : world) :
  is_Some (fs w !! Datamodule.data_dir dm) →
  Datamodule.prepare_data dm w = (Ok tt, w).
Proof.
  intros Hd. unfold Datamodule.prepare_data, bind, path_exists.
  by rewrite bool_decide_eq_true_2.
Qed.

Lemma prepare_data_absent (dm : Datamodule.t) (w : world) :
  fs w !! Datamodule.data_dir dm = None →
  creatable (Datamodule.data_dir dm) (fs w) = true →
  ∃ f, makedirs (Datamodule.data_dir dm) w = (Ok tt, World f (calls w))
       ∧ f !! Datamodule.data_dir dm = Some Directory
       ∧ Datamodule.prepare_data dm w
         = Datamodule.download_data dm
             (World f (calls w ++ [DownloadData (Datamodule.dataset_name (Datamodule.kind dm))])).
Proof.
  intros Hd Hc. unfold Datamodule.prepare_data, bind, path_exists, makedirs, record.
  rewrite bool_decide_eq_false_2 by (rewrite Hd; by intros [? ?]).
  rewrite Hd, Hc. simpl. eexists. split; [reflexivity|]. split; [|done].
  apply lookup_insert_eq.
Qed.

Lemma prepare_data_blocked (dm : Datamodule.t) (w : world) :
  fs w !! Datamodule.data_dir dm = None →
  creatable (Datamodule.data_dir dm) (fs w) = false →
  Datamodule.prepare_data dm w = (Raise NotADirectoryError, w).
Proof.
  intros Hd Hc. unfold Datamodule.prepare_data, bind, path_exists, makedirs.
  rewrite bool_decide_eq_false_2 by (rewrite Hd; by intros [? ?]).
  by rewrite Hd, Hc.
Qed.

(** C9: the fetch routine of the MIMIC-III adapter is a check of the raw
    file.  Without [all_hourly_data.h5] in the directory of the dataset it
    fails with an assertion error whose message names the file and ends
    with the instructions to obtain the dataset by hand; with the file it
    returns and leaves the files and the record of invocations as they
    were. *)
Theorem mimic_download_data_precondition (dm : Datamodule.t) (w : world) (n_feats : Z) :
  Datamodule.kind dm = MIMICIII n_feats →
  let dataset_path := Datamodule.data_dir dm ++ ["all_hourly_data.h5"] in
  Datamodule.download_data dm w
  = (match fs w !! dataset_path with
     | Some _ => Ok tt
     | None => Raise (AssertionError (Datamodule.mimic_message dataset_path))
     end, w)
  ∧ Datamodule.mimic_message dataset_path
    = ("Dataset " +:+ Datamodule.path_string dataset_path +:+ " does not exist. ")
      +:+ "Because MIMIC-III is a restricted dataset, you need to download it yourself. "
      +:+ "Our implementation relies on the default MIMIC-Extract preprocessed version of the dataset. "
      +:+ "Please follow the instruction on https://github.com/MLforHealth/MIMIC_Extract/tree/master.".
Proof.
  intros Hk dataset_path. split.
  - unfold Datamodule.download_data. rewrite Hk.
    unfold Datamodule.mimic_download_data, bind, path_exists, lift. fold dataset_path.
    destruct (fs w !! dataset_path) as [f|] eqn:Hf.
    + by rewrite bool_decide_eq_true_2.
    + rewrite bool_decide_eq_false_2; [reflexivity|].
      intros [? Hs]. unfold dataset_path in *. congruence.
  - unfold Datamodule.mimic_message, Datamodule.mimic_instructions.
    by rewrite !string_append_assoc.
Qed.
End Fetch.

Lemma stateless_readonly {S A} (m : St S A) : stateless m → readonly m.
Proof. intros [r Hm] s. by rewrite Hm. Qed.

Lemma readonly_bind {S A B} (m : St S A) (k : A → St S B) :
  readonly m → (∀ a, readonly (k a)) → readonly (bind m k).
Proof.
  intros Hm Hk s. unfold bind. specialize (Hm s).
  destruct (m s) as [[a|e] s1]; simpl in *; subst; [|done].
  apply Hk.
Qed.

Lemma readonly_read_csv (p : path) (h : bool) : readonly (read_csv p h).
Proof. intros w. unfold read_csv. by destruct (fs w !! p) as [[]|]. Qed.

Lemma readonly_torch_load (p : path) : readonly (torch_load p).
Proof. intros w. unfold torch_load. by destruct (fs w !! p) as [[]|]. Qed.

Lemma returns_ret {S A} (P : A → Prop) (a : A) : P a → returns P (ret a : St S A).
Proof. intros Ha s a' s'. unfold ret. by intros [= <- _]. Qed.

Lemma returns_bind {S A B} (P : B → Prop) (m : St S A) (k : A → St S B) :
  (∀ a, returns P (k a)) → returns P (bind m k).
Proof.
  intros Hk s b s' Hb. apply bind_Ok_inv in Hb as (a & s1 & _ & Hb).
  by apply (Hk a s1 b s').
Qed.

Ltac stateless_tac :=
  repeat first
    [ apply stateless_ret
    | apply stateless_lift
    | apply stateless_bind; [|intros ?]
    | match goal with
      | |- stateless (let (_, _) := ?p in _) => destruct p
      | |- stateless (if ?b then _ else _) => destruct b
      end ].

Ltac readonly_tac :=
  repeat first
    [ apply readonly_read_csv
    | apply readonly_torch_load
    | apply stateless_readonly; solve [stateless_tac]
    | apply readonly_bind; [|intros ?]
    | match goal with
      | |- readonly (let (_, _) := ?p in _) => destruct p
      | |- readonly (if ?b then _ else _) => destruct b
      end ].

Ltac returns_tac :=
  repeat first
    [ apply returns_ret
    | apply returns_bind; intros ?
    | match goal with
      | |- returns _ (let (_, _) := ?p in _) => destruct p
      | |- returns _ (if ?b then _ else _) => destruct b
      end ].

(** ** Setting up *)

Section Setup.
Context `{Fourier} `{Outside}.

Lemma load_cached_present (r : routine) (dir : path) (dm : Datamodule.t) (w : world) :
  is_Some (fs w !! (dir ++ ["X_train.pt"])) →
  is_Some (fs w !! (dir ++ ["X_test.pt"])) →
  Datamodule.load_cached r dir dm w
  = bind (torch_load (dir ++ ["X_train.pt"]))
         (fun X_train => bind (torch_load (dir ++ ["X_test.pt"]))
                              (fun X_test => ret (X_train, X_test))) w.
Proof.
  intros H1 H2. unfold Datamodule.load_cached, bind at 1 2 3, path_exists.
  by rewrite !bool_decide_eq_true_2.
Qed.

Lemma load_cached_absent (r : routine) (dir : path) (dm : Datamodule.t) (w : world) :
  ¬ (is_Some (fs w !! (dir ++ ["X_train.pt"]))
     ∧ is_Some (fs w !! (dir ++ ["X_test.pt"]))) →
  calls (Datamodule.load_cached r dir dm w).2
  = calls w ++ [Preprocess r (Datamodule.data_dir dm) (Datamodule.random_seed dm)].
Proof.
  intros Habs.
  set (c := Preprocess r (Datamodule.data_dir dm) (Datamodule.random_seed dm)).
  set (loads := bind (torch_load (dir ++ ["X_train.pt"]))
              (fun X_train => bind (torch_load (dir ++ ["X_test.pt"]))
                                   (fun X_test => ret (X_train, X_test)))).
  set (rest := bind (on_files (preprocess r (Datamodule.data_dir dm)
                                 (Datamodule.random_seed dm)))
                 (fun _ => loads)).
  assert (Hcond : negb (bool_decide (is_Some (fs w !! (dir ++ ["X_train.pt"]))))
                  || negb (bool_decide (is_Some (fs w !! (dir ++ ["X_test.pt"])))) = true).
  { do 2 case_bool_decide; simpl; try done. by destruct Habs. }
  assert (Hrun : Datamodule.load_cached r dir dm w
                 = rest (World (fs w) (calls w ++ [c]))).
  { unfold Datamodule.load_cached, bind, path_exists. rewrite Hcond. reflexivity. }
  rewrite Hrun.
  assert (Hsilent : silent rest).
  { unfold rest, loads.
    repeat (apply silent_bind;
            [first [apply silent_on_files|apply silent_torch_load]|intros ?]).
    apply silent_ret. }
  by rewrite Hsilent.
Qed.

Lemma load_cached_absent_run (r : routine) (dir : path) (dm : Datamodule.t) (w : world) :
  ¬ (is_Some (fs w !! (dir ++ ["X_train.pt"]))
     ∧ is_Some (fs w !! (dir ++ ["X_test.pt"]))) →
  Datamodule.load_cached r dir dm w
  = bind (on_files (preprocess r (Datamodule.data_dir dm) (Datamodule.random_seed dm)))
      (fun _ => bind (torch_load (dir ++ ["X_train.pt"]))
                  (fun X_train => bind (torch_load (dir ++ ["X_test.pt"]))
                                       (fun X_test => ret (X_train, X_test))))
      (World (fs w)
         (calls w ++ [Preprocess r (Datamodule.data_dir dm) (Datamodule.random_seed dm)])).
Proof.
  intros Habs.
  assert (Hcond : negb (bool_decide (is_Some (fs w !! (dir ++ ["X_train.pt"]))))
                  || negb (bool_decide (is_Some (fs w !! (dir ++ ["X_test.pt"])))) = true).
  { do 2 case_bool_decide; simpl; try done. by destruct Habs. }
  unfold Datamodule.load_cached, bind, path_exists. rewrite Hcond. reflexivity.
Qed.

Lemma torch_load_Ok_inv (p : path) (w w' : world) (t : tensor R) :
  torch_load p w = (Ok t, w') → w' = w ∧ fs w !! p = Some (TensorFile t).
Proof.
  unfold torch_load. destruct (fs w !! p) as [[]|]; try done. by intros [= -> ->].
Qed.

Lemma load_cached_rerun (r : routine) (dir : path) (dm dm' : Datamodule.t)
    (w w' : world) (loaded : tensor R * tensor R) :
  Datamodule.load_cached r dir dm w = (Ok loaded, w') →
  Datamodule.load_cached r dir dm' w' = (Ok loaded, w').
Proof.
  intros Hl. unfold Datamodule.load_cached in Hl.
  apply bind_Ok_inv in Hl as (b1 & w1 & _ & Hl).
  apply bind_Ok_inv in Hl as (b2 & w2 & _ & Hl).
  apply bind_Ok_inv in Hl as (u & w3 & _ & Hl).
  pose proof Hl as Hloads.
  apply bind_Ok_inv in Hl as (a & w4 & Ha & Hl).
  apply torch_load_Ok_inv in Ha as [-> Ha].
  apply bind_Ok_inv in Hl as (b & w5 & Hb & Hl).
  apply torch_load_Ok_inv in Hb as [-> Hb].
  unfold ret in Hl. injection Hl as <- <-.
  rewrite load_cached_present; [done| |]; eauto.
Qed.

(** The [setup] of an adapter with a cache is the guarded load followed by
    steps that touch no file. *)
Lemma setup_cached_form (dm : Datamodule.t) (r : routine) (dir : path) :
  cache_of dm = Some (r, dir) →
  ∃ post : tensor R * tensor R → M Datamodule.t,
    (∀ loaded, stateless (post loaded))
    ∧ Datamodule.setup dm = bind (Datamodule.load_cached r dir dm) post.
Proof.
  unfold cache_of, Datamodule.setup.
  destruct (Datamodule.kind dm) eqn:Hk; intros [= <- <-]; eexists; (split; [|reflexivity]);
    intros [a b]; simpl; stateless_tac.
Qed.

Lemma setup_uncached_readonly (dm : Datamodule.t) :
  cache_of dm = None → readonly (Datamodule.setup dm).
Proof.
  unfold cache_of, Datamodule.setup.
  destruct (Datamodule.kind dm) eqn:Hk; intros [=].
  - unfold Datamodule.ecg_setup. readonly_tac.
  - unfold Datamodule.synthetic_setup. readonly_tac.
Qed.

Lemma setup_returns_agree (dm : Datamodule.t) :
  returns (agree dm) (Datamodule.setup dm).
Proof.
  unfold Datamodule.setup.
  destruct (Datamodule.kind dm) eqn:Hk;
    [unfold Datamodule.ecg_setup | unfold Datamodule.synthetic_setup
    |unfold Datamodule.mimic_setup | unfold Datamodule.nasdaq_setup
    |unfold Datamodule.nasa_setup | unfold Datamodule.droughts_setup];
    returns_tac;
    unfold agree, cache_of; simpl; rewrite Hk; repeat split; try done;
    by intros [? [=]].
Qed.

Lemma setup_agree (dm dm' : Datamodule.t) :
  agree dm dm' → Datamodule.setup dm' = Datamodule.setup dm.
Proof.
  destruct dm as [k d s b ft st Xtr ytr Xte yte],
           dm' as [k' d' s' b' ft' st' Xtr' ytr' Xte' yte'].
  unfold agree, cache_of. simpl.
  intros (-> & -> & -> & -> & -> & -> & Hy).
  unfold Datamodule.setup. simpl.
  destruct k; try reflexivity;
    (destruct Hy as [-> ->]; [by eexists|reflexivity]).
Qed.
End Setup.

Lemma bind_same_rest {S A B} (m m' : St S A) (k : A → St S B) (s : S) :
  m s = m' s → bind m k s = bind m' k s.
Proof. intros Hm. unfold bind. by rewrite Hm. Qed.

(** With the cache there, what [setup] does is the same whatever the
    routines of the outside world do. *)
Lemma setup_cached_independent `{Fourier} (O O' : Outside) (dm : Datamodule.t)
    (w : world) :
  cached dm w = true →
  @Datamodule.setup _ O' dm w = @Datamodule.setup _ O dm w.
Proof.
  unfold cached, cache_of, Datamodule.setup.
  destruct (Datamodule.kind dm) eqn:Hk; intros Hc; try reflexivity;
    apply andb_true_iff in Hc as [Hc1 Hc2];
    apply bool_decide_eq_true_1 in Hc1; apply bool_decide_eq_true_1 in Hc2;
    [unfold Datamodule.mimic_setup|unfold Datamodule.nasdaq_setup
    |unfold Datamodule.nasa_setup|unfold Datamodule.droughts_setup];
    apply bind_same_rest;
    by rewrite (@load_cached_present O'), (@load_cached_present O).
Qed.

Lemma bind_readonly_state {S A B} (m : St S A) (k : A → St S B) (s : S) :
  (∀ a, readonly (k a)) → (bind m k s).2 = (m s).2.
Proof.
  intros Hk. unfold bind. destruct (m s) as [[a|e] s1]; simpl; [apply Hk|done].
Qed.

(** C5: data preparation, run again, invokes nothing.  With the directory
    of the dataset there, [prepare_data] returns and leaves the machine as
    it is, whatever the download would do.  With the directory absent and
    no regular file in its way, [prepare_data] makes the directory and its
    outcome is the outcome of [download_data] on the machine with the
    directory; run again it does nothing (the download is assumed not to
    remove the directory it is given).  With a regular file in the way,
    [prepare_data] raises [NotADirectoryError] and leaves the machine as it
    is.  With the cache there, [setup] leaves the machine as it is and does
    the same whatever the routines of the outside world do.  With a cached
    tensor absent, [setup] runs the preprocessing routine: an error of the
    routine is the error of [setup], and after a routine that returned and
    wrote the cache, [setup] goes on as on the machine the routine left.
    A [setup] run again after one that returned changes nothing and returns
    the same module. *)
Theorem data_preparation_idempotent `{Fourier} `{Outside}
    (dm : Datamodule.t) (w : world) :
  (∀ name dir f, is_Some (f !! dir) → is_Some ((kaggle_download name dir f).2 !! dir)) →
  let dir := Datamodule.data_dir dm in
  let fetch := DownloadData (Datamodule.dataset_name (Datamodule.kind dm)) in
  let after_prepare := (Datamodule.prepare_data dm w).2 in
  let after_setup := (Datamodule.setup dm w).2 in
  (is_Some (fs w !! dir) → Datamodule.prepare_data dm w = (Ok tt, w))
  ∧ (fs w !! dir = None → creatable dir (fs w) = true →
     ∃ f, makedirs dir w = (Ok tt, World f (calls w))
          ∧ f !! dir = Some Directory
          ∧ Datamodule.prepare_data dm w
            = Datamodule.download_data dm (World f (calls w ++ [fetch]))
          ∧ calls after_prepare = calls w ++ [fetch]
          ∧ Datamodule.prepare_data dm after_prepare = (Ok tt, after_prepare))
  ∧ (fs w !! dir = None → creatable dir (fs w) = false →
     Datamodule.prepare_data dm w = (Raise NotADirectoryError, w))
  ∧ (cached dm w = true →
     after_setup = w
     ∧ ∀ O' : Outside, @Datamodule.setup _ O' dm w = Datamodule.setup dm w)
  ∧ (∀ r cdir, cache_of dm = Some (r, cdir) → cached dm w = false →
     let run := Preprocess r dir (Datamodule.random_seed dm) in
     let out := preprocess r dir (Datamodule.random_seed dm) (fs w) in
     let w_run := World out.2 (calls w ++ [run]) in
     calls after_setup = calls w ++ [run]
     ∧ (∀ e, out.1 = Raise e → Datamodule.setup dm w = (Raise e, w_run))
     ∧ (out.1 = Ok tt → cached dm w_run = true →
        Datamodule.setup dm w = Datamodule.setup dm w_run))
  ∧ (∀ dm1, (Datamodule.setup dm w).1 = Ok dm1 →
            Datamodule.setup dm1 after_setup = (Ok dm1, after_setup)).
Proof.
  intros Hkeep dir fetch after_prepare after_setup.
  split; [apply prepare_data_present|].
  split.
  { intros Hnone Hcr.
    destruct (prepare_data_absent dm w Hnone Hcr) as (f & Hmk & Hf & Hrun).
    exists f. split; [exact Hmk|]. split; [exact Hf|]. split; [exact Hrun|].
    unfold after_prepare. rewrite Hrun. split.
    - by rewrite download_data_silent.
    - apply prepare_data_present.
      apply (download_data_keeps dm Hkeep). cbn [fs]. rewrite Hf. eauto. }
  split; [apply prepare_data_blocked|].
  split.
  { intros Hc. split; [|intros O'; by apply setup_cached_independent].
    destruct (cache_of dm) as [[r cdir]|] eqn:Hcache.
    - destruct (setup_cached_form dm r cdir Hcache) as (post & Hpost & Hsetup).
      unfold after_setup. rewrite Hsetup.
      rewrite bind_readonly_state by (intros a; apply stateless_readonly, Hpost).
      unfold cached in Hc. rewrite Hcache in Hc.
      apply andb_true_iff in Hc as [Hc1 Hc2].
      apply bool_decide_eq_true_1 in Hc1. apply bool_decide_eq_true_1 in Hc2.
      rewrite load_cached_present by done.
      assert (Hro : readonly (bind (torch_load (cdir ++ ["X_train.pt"]))
                (fun X_train => bind (torch_load (cdir ++ ["X_test.pt"]))
                                     (fun X_test => ret (X_train, X_test))))).
      { readonly_tac. }
      apply Hro.
    - apply (setup_uncached_readonly dm Hcache). }
  split.
  { intros r cdir Hcache Hc run out w_run.
    destruct (setup_cached_form dm r cdir Hcache) as (post & Hpost & Hsetup).
    assert (Habs : ¬ (is_Some (fs w !! (cdir ++ ["X_train.pt"]))
                      ∧ is_Some (fs w !! (cdir ++ ["X_test.pt"])))).
    { intros [Hc1 Hc2]. unfold cached in Hc. rewrite Hcache in Hc.
      rewrite !bool_decide_eq_true_2 in Hc by done. done. }
    assert (Hpre : on_files (preprocess r dir (Datamodule.random_seed dm))
                     (World (fs w) (calls w ++ [run]))
                   = (out.1, w_run)).
    { unfold on_files, w_run, out. cbn [fs calls].
      by destruct (preprocess r dir (Datamodule.random_seed dm) (fs w)). }
    split; [|split].
    - unfold after_setup. rewrite Hsetup.
      rewrite bind_readonly_state by (intros a; apply stateless_readonly, Hpost).
      by apply load_cached_absent.
    - intros e He. rewrite Hsetup. unfold bind at 1.
      rewrite (load_cached_absent_run r cdir dm w Habs). unfold bind at 1.
      fold dir run. by rewrite Hpre, He.
    - intros Hok Hc'. rewrite Hsetup.
      assert (E : Datamodule.load_cached r cdir dm w
                  = Datamodule.load_cached r cdir dm w_run).
      { rewrite (load_cached_absent_run r cdir dm w Habs). unfold bind at 1.
        fold dir run. rewrite Hpre, Hok.
        unfold cached in Hc'. rewrite Hcache in Hc'.
        apply andb_true_iff in Hc' as [Hc1 Hc2].
        apply bool_decide_eq_true_1 in Hc1. apply bool_decide_eq_true_1 in Hc2.
        by rewrite load_cached_present. }
      unfold bind. by rewrite E. }
  destruct (cache_of dm) as [[r cdir]|] eqn:Hcache.
  - destruct (setup_cached_form dm r cdir Hcache) as (post & Hpost & Hsetup).
    intros dm1 Hdm1.
    assert (Hrun : Datamodule.setup dm w = (Ok dm1, after_setup)).
    { unfold after_setup. rewrite <- Hdm1. by destruct (Datamodule.setup dm w). }
    rewrite (setup_agree dm dm1) by (by apply (setup_returns_agree dm w dm1 after_setup)).
    rewrite Hsetup in Hrun |- *.
    apply bind_Ok_inv in Hrun as (loaded & w' & Hload & Hp).
    destruct (Hpost loaded) as [res Hres]. rewrite Hres in Hp.
    injection Hp as -> ->.
    unfold bind. by rewrite (load_cached_rerun r cdir dm dm w after_setup loaded Hload), Hres.
  - pose proof (setup_uncached_readonly dm Hcache) as Hro.
    assert (Hw : after_setup = w) by apply Hro.
    rewrite Hw.
    intros dm1 Hdm1.
    assert (Hrun : Datamodule.setup dm w = (Ok dm1, w)).
    { specialize (Hro w). clear Hw. unfold after_setup in *.
      destruct (Datamodule.setup dm w) as [res w1]. simpl in *. by subst. }
    rewrite (setup_agree dm dm1); [done|].
    by apply (setup_returns_agree dm w dm1 w).
Qed.

(** The witness of C9: on a machine with no file the check fails. *)
Lemma mimic_download_data_precondition_witness :
  @Datamodule.download_data (writing_outside three_rows three_rows) mimic_dm empty_world
  = (Raise (AssertionError
              (Datamodule.mimic_message ["data"; "mimiciii"; "all_hourly_data.h5"])),
     empty_world).
Proof.
  exact (proj1 (@mimic_download_data_precondition (writing_outside three_rows three_rows)
                  mimic_dm empty_world 40 eq_refl)).
Defined.

(** Through [prepare_data] the check runs only when the directory of the
    dataset is absent: with the directory there and the raw file absent,
    [prepare_data] returns. *)
Lemma mimic_prepare_data_skips_check `{Outside} (dm : Datamodule.t) (w : world)
    (n_feats : Z) :
  Datamodule.kind dm = MIMICIII n_feats →
  is_Some (fs w !! Datamodule.data_dir dm) →
  fs w !! (Datamodule.data_dir dm ++ ["all_hourly_data.h5"]) = None →
  Datamodule.prepare_data dm w = (Ok tt, w).
Proof. intros _ Hd _. by apply prepare_data_present. Qed.

(** The witness of C5: the NASDAQ module on a machine with no file, with a
    download that adds a file to the directory it is given and a
    preprocessing that writes the two tensors. *)
Lemma data_preparation_idempotent_witness :
  let O := writing_outside three_rows three_rows in
  let after_prepare := (@Datamodule.prepare_data O nasdaq_dm empty_world).2 in
  let w_run :=
    World (@preprocess O nasdaq_preprocess ["data"; "nasdaq"] 42 ∅).2
      [Preprocess nasdaq_preprocess ["data"; "nasdaq"] 42] in
  (∃ f, makedirs ["data"; "nasdaq"] empty_world = (Ok tt, World f [])
        ∧ f !! ["data"; "nasdaq"] = Some Directory
        ∧ @Datamodule.prepare_data O nasdaq_dm empty_world
          = @Datamodule.download_data O nasdaq_dm (World f [DownloadData "nasdaq"])
        ∧ calls after_prepare = [DownloadData "nasdaq"]
        ∧ @Datamodule.prepare_data O nasdaq_dm after_prepare = (Ok tt, after_prepare))
  ∧ calls (@Datamodule.setup plain_fourier O nasdaq_dm empty_world).2
    = [Preprocess nasdaq_preprocess ["data"; "nasdaq"] 42]
  ∧ @Datamodule.setup plain_fourier O nasdaq_dm empty_world
    = @Datamodule.setup plain_fourier O nasdaq_dm w_run.
Proof.
  intros O after_prepare w_run.
  destruct (@data_preparation_idempotent plain_fourier O nasdaq_dm empty_world)
    as (_ & H2 & _ & _ & H5 & _).
  - intros name dir f Hd. simpl.
    destruct (decide (dir ++ ["archive.csv"] = dir)) as [->|Hne].
    + rewrite lookup_insert_eq. eauto.
    + by rewrite lookup_insert_ne.
  - split; [exact (H2 eq_refl eq_refl)|].
    destruct (H5 nasdaq_preprocess ["data"; "nasdaq"] eq_refl eq_refl) as (Hc & _ & Hr).
    split; [exact Hc|]. exact (Hr eq_refl eq_refl).
Defined.

(** C5 as stated fails where the directory cannot be made.  With [data] a
    regular file the directory of the NASDAQ dataset is absent, yet
    [prepare_data] raises [NotADirectoryError] and leaves the machine as it
    is, whatever the download would do, and so on every run: the data is
    absent and the fetch routine is not invoked. *)
Lemma prepare_data_blocked_never_fetches :
  fs blocked_world !! Datamodule.data_dir nasdaq_dm = None
  ∧ ∀ O : Outside,
      @Datamodule.prepare_data O nasdaq_dm blocked_world
      = (Raise NotADirectoryError, blocked_world)
      ∧ calls (@Datamodule.prepare_data O nasdaq_dm blocked_world).2 = [].
Proof. split; [reflexivity|]. intros O. split; reflexivity. Qed.

(** ** Samples as objects *)

Lemma norm_index_lt (n : nat) (i : Z) (k : nat) : norm_index n i = Ok k → k < n.
Proof.
  unfold norm_index.
  destruct ((0 <=? i)%Z && (i <? Z.of_nat n)%Z) eqn:E1.
  - apply andb_true_iff in E1 as [H1 H2]. intros [= <-]. lia.
  - destruct ((- Z.of_nat n <=? i)%Z && (i <? 0)%Z) eqn:E2; [|done].
    apply andb_true_iff in E2 as [H1 H2]. intros [= <-]. lia.
Qed.

Lemma row_of_view {A} (l : list A) (off n m k : nat) :
  k < n →
  take m (drop (k * m) (take (n * m) (drop off l))) = take m (drop (off + k * m) l).
Proof.
  intros Hk. rewrite skipn_firstn_comm, take_take, drop_drop.
  f_equal. nia.
Qed.

Lemma select0_read {A} (m : gmap nat (list A)) (v v' : Storage.view) (i : Z)
    (t : tensor A) :
  Storage.read m v = Some t → Storage.select0 v i = Ok v' →
  ∃ t', select0 t i = Ok t' ∧ Storage.read m v' = Some t'.
Proof.
  unfold Storage.read, Storage.select0, select0.
  destruct (m !! Storage.base v) as [l|] eqn:Hl; [|done].
  intros [= <-]. simpl.
  destruct (Storage.vshape v) as [|n rest]; [done|].
  destruct (norm_index n i) as [k|e] eqn:Hk; [|done]. simpl.
  intros [= <-]. simpl. rewrite Hl. eexists. split; [done|].
  do 2 f_equal. symmetry. apply row_of_view. by apply norm_index_lt in Hk.
Qed.

Lemma select0_wf {A} (t t' : tensor A) (i : Z) :
  wf t → select0 t i = Ok t' → wf t'.
Proof.
  unfold wf, select0. destruct (shape t) as [|n rest]; [done|].
  destruct (norm_index n i) as [k|e] eqn:Hk; [|done]. simpl.
  intros Hw [= <-]. simpl. apply norm_index_lt in Hk.
  rewrite length_take, length_drop. nia.
Qed.

Lemma read_fresh (m : gmap nat (list R)) (l : nat) (r : tensor R) :
  wf r → Storage.read (<[l := data r]> m) (Storage.View l 0 (shape r)) = Some r.
Proof.
  unfold wf, Storage.read. intros Hw. simpl. rewrite lookup_insert_eq.
  rewrite drop_0, firstn_all2 by lia. by destruct r.
Qed.

Lemma read_old {A} (m : gmap nat (list A)) (l : nat) (d : list A) (v : Storage.view) :
  l ≠ Storage.base v → Storage.read (<[l := d]> m) v = Storage.read m v.
Proof. intros Hne. unfold Storage.read. by rewrite lookup_insert_ne. Qed.

Lemma read_Some_dom {A} (m : gmap nat (list A)) (v : Storage.view) (t : tensor A) :
  Storage.read m v = Some t → Storage.base v ∈ dom m.
Proof.
  unfold Storage.read. destruct (m !! Storage.base v) eqn:E; [|done].
  intros _. apply elem_of_dom. eauto.
Qed.

Lemma fresh_not_base {A} (m : gmap nat (list A)) (v : Storage.view) (t : tensor A) :
  Storage.read m v = Some t → fresh (dom m) ≠ Storage.base v.
Proof.
  intros Hr Heq. apply read_Some_dom in Hr. rewrite <- Heq in Hr.
  by apply is_fresh in Hr.
Qed.

Lemma arith_Ok_inv (f : tensor R → tensor R → result (tensor R))
    (a b v : Storage.view) (h h' : Storage.heap) :
  Storage.arith f a b h = (Ok v, h') →
  ∃ ta tb r,
    Storage.read (Storage.floats h) a = Some ta
    ∧ Storage.read (Storage.floats h) b = Some tb
    ∧ f ta tb = Ok r
    ∧ v = Storage.View (fresh (dom (Storage.floats h))) 0 (shape r)
    ∧ h' = Storage.Heap (<[fresh (dom (Storage.floats h)) := data r]> (Storage.floats h))
                        (Storage.longs h).
Proof.
  unfold Storage.arith, bind, Storage.load, lift, Storage.alloc.
  destruct (Storage.read (Storage.floats h) a) as [ta|]; [|done].
  destruct (Storage.read (Storage.floats h) b) as [tb|]; [|done].
  destruct (f ta tb) as [r|e] eqn:Hf; [|done].
  intros [= <- <-]. by exists ta, tb, r.
Qed.

Lemma write_other {A} (v v' : Storage.view) (d : list A) (m : gmap nat (list A)) :
  Storage.base v ≠ Storage.base v' →
  Storage.read (Storage.write v d m) v' = Storage.read m v'.
Proof.
  intros Hne. unfold Storage.read, Storage.write. by rewrite lookup_alter_ne.
Qed.

(** The steps of [Storage.getitem]. *)
Lemma storage_getitem_inv (ds : Storage.dataset) (index : Z) (h h' : Storage.heap)
    (d : gmap string Storage.ref) :
  Storage.getitem ds index h = (Ok d, h') →
  ∃ vx x,
    Storage.select0 (Storage.X ds) index = Ok vx
    ∧ (if Storage.standardize ds
       then ∃ vd h1, Storage.arith tsub vx (Storage.feature_mean ds) h = (Ok vd, h1)
                     ∧ Storage.arith tdiv vd (Storage.feature_std ds) h1 = (Ok x, h')
       else x = vx ∧ h' = h)
    ∧ match Storage.y ds with
      | Some labels =>
          ∃ vl, Storage.select0 labels index = Ok vl
                ∧ d = <["y" := Storage.LongRef vl]> (<["X" := Storage.FloatRef x]> ∅)
      | None => d = <["X" := Storage.FloatRef x]> ∅
      end.
Proof.
  unfold Storage.getitem. intros Hg.
  apply bind_Ok_inv in Hg as (vx & h0 & Hsel & Hg).
  apply lift_Ok_inv in Hsel as [Hsel ->].
  apply bind_Ok_inv in Hg as (x & h1 & Hx & Hg).
  exists vx, x. split; [done|].
  assert (Htail : h' = h1 ∧
    match Storage.y ds with
    | Some labels =>
        ∃ vl, Storage.select0 labels index = Ok vl
              ∧ d = <["y" := Storage.LongRef vl]> (<["X" := Storage.FloatRef x]> ∅)
    | None => d = <["X" := Storage.FloatRef x]> ∅
    end).
  { destruct (Storage.y ds) as [labels|].
    - apply bind_Ok_inv in Hg as (vl & h2 & Hl & Hg).
      apply lift_Ok_inv in Hl as [Hl ->].
      unfold ret in Hg. injection Hg as <- <-. eauto.
    - unfold ret in Hg. by injection Hg as <- <-. }
  destruct Htail as [-> Htail]. split; [|done].
  destruct (Storage.standardize ds).
  - apply bind_Ok_inv in Hx as (vd & h2 & Hd & Hx). eauto.
  - unfold ret in Hx. by injection Hx as <- <-.
Qed.

(** What [DiffusionDataset.__getitem__] returns, by value. *)
Lemma getitem_value (ds : DiffusionDataset.t) (index : Z) (s : gmap string value) :
  DiffusionDataset.getitem ds index = Ok s →
  ∃ row served,
    select0 (DiffusionDataset.X ds) index = Ok row
    ∧ (if DiffusionDataset.standardize ds
       then ∃ diff, tsub row (DiffusionDataset.feature_mean ds) = Ok diff
                    ∧ tdiv diff (DiffusionDataset.feature_std ds) = Ok served
       else served = row)
    ∧ s !! "X" = Some (FloatTensor served)
    ∧ match DiffusionDataset.y ds with
      | Some labels => ∃ l, select0 labels index = Ok l ∧ s !! "y" = Some (LongTensor l)
      | None => s !! "y" = None
      end.
Proof.
  unfold DiffusionDataset.getitem. intros Hg.
  apply rbind_Ok_inv in Hg as (row & Hrow & Hg).
  apply rbind_Ok_inv in Hg as (served & Hserved & Hg).
  exists row, served. split; [done|]. split.
  { destruct (DiffusionDataset.standardize ds).
    - apply rbind_Ok_inv in Hserved as (diff & Hdiff & Hq). eauto.
    - by injection Hserved as <-. }
  destruct (DiffusionDataset.y ds) as [labels|].
  - apply rbind_Ok_inv in Hg as (l & Hl & Hg). injection Hg as <-.
    split; [by rewrite lookup_insert_ne, lookup_insert_eq|].
    exists l. split; [done|]. by rewrite lookup_insert_eq.
  - injection Hg as <-. split; [by rewrite lookup_insert_eq|].
    by rewrite lookup_insert_ne.
Qed.

(** C3, as the code has it.  The dictionary served for an index holds, by
    value, what [__getitem__] computes: under "X" the row [X[index]], or
    [(X[index] - feature_mean) / feature_std] when the dataset standardizes,
    and under "y" the label [y[index]] exactly when there are labels.  With
    standardization the tensor under "X" has a storage of its own, and a
    write through it leaves the stored [X] as it was.  Without, no copy is
    made: the tensor under "X" is the view [X[index]] of the storage of the
    stored [X], and the heap is unchanged. *)
Theorem getitem_view_or_fresh (ds : Storage.dataset) (index : Z)
    (h h' : Storage.heap) (d : gmap string Storage.ref) (pure : DiffusionDataset.t) :
  Storage.read_dataset h ds = Some pure →
  wf (DiffusionDataset.X pure) →
  wf (DiffusionDataset.feature_mean pure) →
  wf (DiffusionDataset.feature_std pure) →
  Storage.getitem ds index h = (Ok d, h') →
  DiffusionDataset.getitem pure index = Ok (Storage.read_sample h' d)
  ∧ (∃ row served,
       select0 (DiffusionDataset.X pure) index = Ok row
       ∧ (if Storage.standardize ds
          then ∃ diff, tsub row (DiffusionDataset.feature_mean pure) = Ok diff
                       ∧ tdiv diff (DiffusionDataset.feature_std pure) = Ok served
          else served = row)
       ∧ Storage.read_sample h' d !! "X" = Some (FloatTensor served))
  ∧ (is_Some (Storage.read_sample h' d !! "y") ↔ is_Some (Storage.y ds))
  ∧ ∃ x, d !! "X" = Some (Storage.FloatRef x)
      ∧ (if Storage.standardize ds
         then (Storage.base x ∉ dom (Storage.floats h))
              ∧ ∀ c, Storage.read (Storage.floats (Storage.fill_ x c h')) (Storage.X ds)
                     = Storage.read (Storage.floats h) (Storage.X ds)
         else h' = h ∧ Storage.select0 (Storage.X ds) index = Ok x).
Proof.
  intros Hread HwX Hwm Hws Hget.
  apply storage_getitem_inv in Hget as (vx & x & Hsel & Hstd & Hy).
  (* what the dataset holds *)
  unfold Storage.read_dataset in Hread.
  destruct (Storage.read (Storage.floats h) (Storage.X ds)) as [tX|] eqn:HX; [|done].
  destruct (Storage.read (Storage.floats h) (Storage.feature_mean ds)) as [tm|] eqn:Hm;
    [|done].
  destruct (Storage.read (Storage.floats h) (Storage.feature_std ds)) as [ts|] eqn:Hs;
    [|done].
  destruct (select0_read _ _ _ _ _ HX Hsel) as (row & Hrow & Hvx).
  assert (Hpure : DiffusionDataset.X pure = tX
                  ∧ DiffusionDataset.standardize pure = Storage.standardize ds
                  ∧ DiffusionDataset.feature_mean pure = tm
                  ∧ DiffusionDataset.feature_std pure = ts).
  { destruct (Storage.y ds) as [vy|].
    - destruct (Storage.read (Storage.longs h) vy); [|done]. by injection Hread as <-.
    - by injection Hread as <-. }
  destruct Hpure as (HpX & Hpstd & Hpm & Hps).
  rewrite HpX in HwX. rewrite Hpm in Hwm. rewrite Hps in Hws.
  assert (Hwrow : wf row) by (by apply (select0_wf tX row index)).
  (* the tensor under "X" *)
  assert (Hx : ∃ served,
    (if Storage.standardize ds
     then ∃ diff, tsub row tm = Ok diff ∧ tdiv diff ts = Ok served
     else served = row)
    ∧ Storage.read (Storage.floats h') x = Some served
    ∧ Storage.longs h' = Storage.longs h
    ∧ (if Storage.standardize ds
       then (Storage.base x ∉ dom (Storage.floats h))
            ∧ ∀ c, Storage.read (Storage.floats (Storage.fill_ x c h')) (Storage.X ds)
                   = Some tX
       else h' = h ∧ Storage.select0 (Storage.X ds) index = Ok x)).
  { destruct (Storage.standardize ds).
    - destruct Hstd as (vd & h1 & Hsub & Hdiv).
      apply arith_Ok_inv in Hsub as (ta & tb & diff & Ha & Hb & Hdiff & -> & ->).
      rewrite Hvx in Ha. injection Ha as <-. rewrite Hm in Hb. injection Hb as <-.
      assert (Hwdiff : wf diff) by (by apply (binop_wf Rminus row tm)).
      apply arith_Ok_inv in Hdiv as (ta & tb & q & Ha & Hb & Hq & -> & ->).
      simpl in *.
      rewrite read_fresh in Ha by done. injection Ha as <-.
      rewrite read_old in Hb by (by eapply fresh_not_base). rewrite Hs in Hb.
      injection Hb as <-.
      assert (Hwq : wf q) by (by apply (binop_wf Rdiv diff ts)).
      set (l1 := fresh (dom (Storage.floats h))) in *.
      set (l2 := fresh (dom (<[l1 := data diff]> (Storage.floats h)))) in *.
      assert (Hl2 : l2 ∉ dom (<[l1 := data diff]> (Storage.floats h))) by apply is_fresh.
      rewrite dom_insert_L in Hl2.
      exists q. split; [eauto|]. split; [by apply read_fresh|]. split; [done|].
      assert (Hbase : Storage.base (Storage.X ds) ∈ dom (Storage.floats h))
        by (by eapply read_Some_dom).
      assert (Hl2' : l2 ∉ dom (Storage.floats h)).
      { intros Hin. apply Hl2. by apply elem_of_union_r. }
      assert (Hl1 : l1 ∉ dom (Storage.floats h)) by apply is_fresh.
      split; [exact Hl2'|].
      intros c. unfold Storage.fill_. simpl.
      rewrite write_other by (simpl; intros Heq; by rewrite Heq in Hl2').
      rewrite !read_old; [exact HX| |].
      + intros Heq. by rewrite Heq in Hl1.
      + intros Heq. by rewrite Heq in Hl2'.
    - destruct Hstd as [-> ->]. exists row. by repeat split. }
  destruct Hx as (served & Hserved & Hrx & Hlongs & Halias).
  (* the dictionary, by value *)
  assert (Hdict :
    match Storage.y ds with
    | Some vy => ∃ labels l, Storage.read (Storage.longs h) vy = Some labels
                   ∧ DiffusionDataset.y pure = Some labels
                   ∧ select0 labels index = Ok l
                   ∧ Storage.read_sample h' d
                     = <["y" := LongTensor l]> (<["X" := FloatTensor served]> ∅)
                   ∧ d !! "X" = Some (Storage.FloatRef x)
    | None => DiffusionDataset.y pure = None
              ∧ Storage.read_sample h' d = <["X" := FloatTensor served]> ∅
              ∧ d !! "X" = Some (Storage.FloatRef x)
    end).
  { assert (HdX : Storage.deref h' (Storage.FloatRef x) = Some (FloatTensor served))
      by (simpl; by rewrite Hrx).
    destruct (Storage.y ds) as [vy|].
    - destruct (Storage.read (Storage.longs h) vy) as [labels|] eqn:Hlab; [|done].
      injection Hread as <-.
      destruct Hy as (vl & Hvl & ->).
      destruct (select0_read _ _ _ _ _ Hlab Hvl) as (l & Hl & Hrl).
      exists labels, l.
      assert (Hsample : Storage.read_sample h'
                (<["y" := Storage.LongRef vl]> (<["X" := Storage.FloatRef x]> ∅))
              = <["y" := LongTensor l]> (<["X" := FloatTensor served]> ∅)).
      { unfold Storage.read_sample.
        rewrite (omap_insert_Some _ _ _ _ (LongTensor l))
          by (simpl; by rewrite Hlongs, Hrl).
        rewrite (omap_insert_Some _ _ _ _ (FloatTensor served)) by done.
        by rewrite omap_empty. }
      repeat split; try done.
    - injection Hread as <-. subst d.
      assert (Hsample : Storage.read_sample h' (<["X" := Storage.FloatRef x]> ∅)
              = <["X" := FloatTensor served]> ∅).
      { unfold Storage.read_sample.
        rewrite (omap_insert_Some _ _ _ _ (FloatTensor served)) by done.
        by rewrite omap_empty. }
      repeat split; try done. }
  assert (Hgetitem : DiffusionDataset.getitem pure index = Ok (Storage.read_sample h' d)).
  { unfold DiffusionDataset.getitem. rewrite HpX, Hrow, Hpstd, Hpm, Hps. simpl.
    assert (Hsv : (if Storage.standardize ds
                   then let? d0 := tsub row tm in tdiv d0 ts
                   else Ok row) = Ok served).
    { destruct (Storage.standardize ds).
      - destruct Hserved as (diff & -> & Hq). done.
      - by rewrite Hserved. }
    rewrite Hsv. simpl.
    destruct (Storage.y ds) as [vy|].
    - destruct Hdict as (labels & l & _ & -> & -> & -> & _). done.
    - destruct Hdict as (-> & -> & _). done. }
  split; [exact Hgetitem|]. split.
  { exists row, served. rewrite HpX, Hpm, Hps. repeat split; try done.
    destruct (Storage.y ds) as [vy|].
    - destruct Hdict as (labels & l & _ & _ & _ & -> & _).
      by rewrite lookup_insert_ne, lookup_insert_eq.
    - destruct Hdict as (_ & -> & _). by rewrite lookup_insert_eq. }
  split.
  { destruct (Storage.y ds) as [vy|].
    - destruct Hdict as (labels & l & _ & _ & _ & -> & _).
      rewrite lookup_insert_eq. split; eauto.
    - destruct Hdict as (_ & -> & _). rewrite lookup_insert_ne by done.
      rewrite lookup_empty. split; intros [? [=]]. }
  exists x. split; [|exact Halias].
  destruct (Storage.y ds) as [vy|].
  - by destruct Hdict as (labels & l & _ & _ & _ & _ & ?).
  - by destruct Hdict as (_ & _ & ?).
Qed.

(** The witness of C3: the first sample of a dataset that standardizes. *)
Lemma getitem_view_or_fresh_witness :
  let served := Storage.View 4 0 [1; 1] in
  let h' := Storage.Heap
              (<[4 := [((-1 - 0) / 1)%R]]>
                 (<[3 := [(-1 - 0)%R]]> (Storage.floats rows_heap))) ∅ in
  Storage.getitem (rows_object true) 0 rows_heap
  = (Ok (<["X" := Storage.FloatRef served]> ∅), h')
  ∧ DiffusionDataset.getitem (rows_dataset true) 0
    = Ok (Storage.read_sample h' (<["X" := Storage.FloatRef served]> ∅)).
Proof.
  intros served h'.
  assert (Hget : Storage.getitem (rows_object true) 0 rows_heap
                 = (Ok (<["X" := Storage.FloatRef served]> ∅), h'))
    by reflexivity.
  split; [exact Hget|].
  apply (getitem_view_or_fresh (rows_object true) 0 rows_heap h'
           (<["X" := Storage.FloatRef served]> ∅) (rows_dataset true));
    reflexivity.
Defined.

(** C3 as stated fails: without standardization the tensor served under "X"
    is no copy.  It is the view at offset 0 of the storage of the stored
    [X]; filling it with 7 changes the stored [X], and the next access to
    the same index serves 7. *)
Lemma getitem_without_standardize_aliases :
  let ds := rows_object false in
  let served := Storage.View 0 0 [1; 1] in
  let h' := Storage.fill_ served 7 rows_heap in
  Storage.getitem ds 0 rows_heap = (Ok (<["X" := Storage.FloatRef served]> ∅), rows_heap)
  ∧ Storage.read (Storage.floats rows_heap) (Storage.X ds)
    = Some (Tensor [3; 1; 1] [-1; 0; 1]%R)
  ∧ Storage.read (Storage.floats h') (Storage.X ds)
    = Some (Tensor [3; 1; 1] [7; 0; 1]%R)
  ∧ Storage.read (Storage.floats h') (Storage.X ds)
    ≠ Storage.read (Storage.floats rows_heap) (Storage.X ds)
  ∧ Storage.getitem ds 0 h' = (Ok (<["X" := Storage.FloatRef served]> ∅), h')
  ∧ Storage.read_sample h' (<["X" := Storage.FloatRef served]> ∅)
    = <["X" := FloatTensor (Tensor [1; 1] [7%R])]> ∅.
Proof.
  intros ds served h'.
  assert (H1 : Storage.read (Storage.floats rows_heap) (Storage.X ds)
               = Some (Tensor [3; 1; 1] [-1; 0; 1]%R)) by reflexivity.
  assert (H2 : Storage.read (Storage.floats h') (Storage.X ds)
               = Some (Tensor [3; 1; 1] [7; 0; 1]%R)) by reflexivity.
  repeat split; try reflexivity.
  rewrite H1, H2. intros [= Heq]. lra.
Qed.

(** ** The pruning of the droughts adapter *)

Lemma droughts_feats (c : nat) :
  10 ≤ c →
  filter (fun i => i ∉ Datamodule.droughts_dropped) (seq 0 c)
  = [0; 1; 2; 3; 8] ++ seq 10 (c - 10).
Proof.
  intros Hc. replace c with (10 + (c - 10)) at 1 by lia.
  rewrite seq_app, filter_app. f_equal.
  simpl. generalize (c - 10) as k. intros k.
  assert (Hge : ∀ k s, 10 ≤ s →
    filter (fun i => i ∉ Datamodule.droughts_dropped) (seq s k) = seq s k).
  { clear. intros k. induction k as [|k IH]; intros s Hs; simpl; [done|].
    rewrite filter_cons_True.
    - by rewrite IH by lia.
    - unfold Datamodule.droughts_dropped. set_unfold. lia. }
  by apply Hge.
Qed.

Lemma droughts_feats_spec (c i : nat) :
  i ∈ filter (fun i => i ∉ Datamodule.droughts_dropped) (seq 0 c)
  ↔ i < c ∧ i ∉ Datamodule.droughts_dropped.
Proof. rewrite list_elem_of_filter, elem_of_seq. split; intros [? ?]; split; try done; lia. Qed.

(** C6, as the code has it: for two drought tensors of the same channel
    count, at least 10, the pruning keeps in both, in their order, the
    channels other than 4, 5, 6, 7 and 9; the channel count drops by 5,
    whatever the numbers of rows. *)
Theorem droughts_prune_drops_five (X_train X_test : tensor R)
    (n_train l_train n_test l_test c : nat) :
  shape X_train = [n_train; l_train; c] →
  shape X_test = [n_test; l_test; c] →
  10 ≤ c →
  ∃ feats A B,
    Datamodule.droughts_prune X_train X_test = Ok (feats, (A, B))
    ∧ feats = [0; 1; 2; 3; 8] ++ seq 10 (c - 10)
    ∧ (∀ i, i ∈ feats ↔ i < c ∧ i ∉ ({[4; 5; 6; 7; 9]} : gset nat))
    ∧ gather_axis 2 feats X_train = Ok A
    ∧ gather_axis 2 feats X_test = Ok B
    ∧ shape A = [n_train; l_train; c - 5]
    ∧ shape B = [n_test; l_test; c - 5].
Proof.
  intros Htrain Htest Hc.
  set (feats := filter (fun i => i ∉ Datamodule.droughts_dropped) (seq 0 c)).
  assert (Hlt : Forall (fun k => k < c) feats).
  { apply Forall_forall. intros i Hi. by apply droughts_feats_spec in Hi as [? _]. }
  assert (Hlen : length feats = c - 5).
  { unfold feats. rewrite droughts_feats by done.
    rewrite length_app, length_seq. simpl. lia. }
  destruct (gather_axis_total 2 c feats X_train) as [A HA]; [by rewrite Htrain|done|].
  destruct (gather_axis_total 2 c feats X_test) as [B HB]; [by rewrite Htest|done|].
  exists feats, A, B.
  split.
  { unfold Datamodule.droughts_prune, size. rewrite Htrain. simpl.
    fold feats. by rewrite HA, HB. }
  split; [by apply droughts_feats|].
  split; [intros i; apply droughts_feats_spec|].
  split; [done|]. split; [done|].
  apply gather_axis_Ok in HA as (? & _ & _ & ->).
  apply gather_axis_Ok in HB as (? & _ & _ & ->).
  by rewrite Htrain, Htest, Hlen.
Qed.

(** The witness of C6: one row and two rows of ten channels. *)
Lemma droughts_prune_drops_five_witness :
  ∃ feats A B,
    Datamodule.droughts_prune (Tensor [1; 2; 10] (replicate 20 0%R))
                              (Tensor [2; 2; 10] (replicate 40 0%R))
    = Ok (feats, (A, B))
    ∧ feats = [0; 1; 2; 3; 8] ++ seq 10 (10 - 10)
    ∧ (∀ i, i ∈ feats ↔ i < 10 ∧ i ∉ ({[4; 5; 6; 7; 9]} : gset nat))
    ∧ gather_axis 2 feats (Tensor [1; 2; 10] (replicate 20 0%R)) = Ok A
    ∧ gather_axis 2 feats (Tensor [2; 2; 10] (replicate 40 0%R)) = Ok B
    ∧ shape A = [1; 2; 10 - 5]
    ∧ shape B = [2; 2; 10 - 5].
Proof.
  apply (droughts_prune_drops_five _ _ 1 2 2 2 10).
  - reflexivity.
  - reflexivity.
  - lia.
Defined.

(** C6 as stated fails on tensors of fewer than 10 channels, and on a test
    tensor of more channels than the training tensor: of 3 channels none is
    removed, and of the 12 channels of a test tensor next to a training
    tensor of 10 channels 7 are removed. *)
Lemma droughts_prune_not_always_five :
  Datamodule.droughts_prune (Tensor [1; 1; 3] [1; 2; 3]%R) (Tensor [1; 1; 3] [4; 5; 6]%R)
  = Ok ([0; 1; 2], (Tensor [1; 1; 3] [1; 2; 3]%R, Tensor [1; 1; 3] [4; 5; 6]%R))
  ∧ (3 ≠ 3 - 5)%Z
  ∧ (∃ A B, Datamodule.droughts_prune (Tensor [1; 1; 10] (replicate 10 0%R))
                                      (Tensor [1; 1; 12] (replicate 12 0%R))
            = Ok ([0; 1; 2; 3; 8], (A, B))
            ∧ shape A = [1; 1; 5] ∧ shape B = [1; 1; 5])
  ∧ (5 ≠ 12 - 5)%Z.
Proof.
  split; [reflexivity|]. split; [lia|]. split; [|lia].
  eexists _, _. split; [reflexivity|]. split; reflexivity.
Qed.

(** ** Sorting positions *)

Lemma insert_by_Permutation (le : nat → nat → bool) (i : nat) (l : list nat) :
  insert_by le i l ≡ₚ i :: l.
Proof.
  induction l as [|j l IH]; simpl; [done|].
  destruct (le i j); [done|]. rewrite IH. apply Permutation_swap.
Qed.

Lemma argsort_Permutation (v : list R) (descending : bool) :
  argsort v descending ≡ₚ seq 0 (length v).
Proof.
  unfold argsort. induction (seq 0 (length v)) as [|i l IH]; simpl; [done|].
  by rewrite insert_by_Permutation, IH.
Qed.

Lemma argsort_length (v : list R) (descending : bool) :
  length (argsort v descending) = length v.
Proof. by rewrite (Permutation_length (argsort_Permutation v descending)), length_seq. Qed.

Lemma argsort_NoDup (v : list R) (descending : bool) : NoDup (argsort v descending).
Proof. rewrite argsort_Permutation. apply NoDup_seq. Qed.

Lemma argsort_lt (v : list R) (descending : bool) (i : nat) :
  i ∈ argsort v descending ↔ i < length v.
Proof. rewrite argsort_Permutation, elem_of_seq. lia. Qed.

Lemma insert_by_sorted (key : nat → R) (i : nat) (l : list nat) :
  StronglySorted (fun a b => (key b <= key a)%R) l →
  StronglySorted (fun a b => (key b <= key a)%R)
    (insert_by (fun a b => Rleb (key b) (key a)) i l).
Proof.
  induction 1 as [|j l Hl IH Hj]; simpl.
  - repeat constructor.
  - unfold Rleb at 1. destruct (Rle_dec (key j) (key i)) as [Hle|Hnle].
    + constructor; [by constructor|]. constructor; [done|].
      eapply Forall_impl; [exact Hj|]. intros b Hb. simpl in *. lra.
    + constructor; [done|].
      rewrite insert_by_Permutation. constructor; [lra|done].
Qed.

Lemma argsort_descending_sorted (v : list R) :
  StronglySorted (fun a b => (nth b v 0 <= nth a v 0)%R) (argsort v true).
Proof.
  unfold argsort. induction (seq 0 (length v)) as [|i l IH]; simpl; [constructor|].
  by apply (insert_by_sorted (fun i => nth i v 0%R)).
Qed.

(** The leading positions of a descending ranking hold the largest keys. *)
Lemma top_of_ranking (v : list R) (k i j : nat) :
  i ∈ take k (argsort v true) → j < length v → j ∉ take k (argsort v true) →
  (nth j v 0 <= nth i v 0)%R.
Proof.
  intros Hi Hj Hnj.
  pose proof (argsort_descending_sorted v) as Hs.
  rewrite <- (take_drop k (argsort v true)) in Hs.
  assert (Hjd : j ∈ drop k (argsort v true)).
  { assert (Hin : j ∈ argsort v true) by (by apply argsort_lt).
    rewrite <- (take_drop k (argsort v true)) in Hin.
    apply elem_of_app in Hin as [Hin|Hin]; done. }
  by apply (StronglySorted_app_1_elem_of _ _ _ i j Hs).
Qed.

Lemma slice_bound_le (n : nat) (b : Z) : slice_bound n b ≤ n.
Proof. unfold slice_bound. destruct (b <? 0)%Z eqn:E; lia. Qed.

Lemma slice_bound_Z (n : nat) (b : Z) :
  Z.of_nat (slice_bound n b)
  = if (b <? 0)%Z then Z.max 0 (Z.of_nat n + b) else Z.min b (Z.of_nat n).
Proof. unfold slice_bound. destruct (b <? 0)%Z eqn:E; lia. Qed.

(** ** The channel selection of the MIMIC-III adapter *)

Lemma score_shape (X : tensor R) (n l c : nat) :
  shape X = [n; l; c] →
  shape (mean_dim0 (std_dim0 X)) = [c]
  ∧ length (data (mean_dim0 (std_dim0 X))) = c.
Proof.
  intros HX.
  assert (Hs : shape (std_dim0 X) = [l; c]) by (by apply (reduce_dim0_shape std X n)).
  unfold mean_dim0. rewrite (reduce_dim0_rows mean _ l [c] Hs). simpl.
  split; [done|]. rewrite length_map, length_seq. lia.
Qed.

(** The selection, with a slice bound of either sign. *)
Lemma mimic_select_ranking (n_feats : Z) (X_train X_test : tensor R)
    (n_train l_train n_test l_test c : nat) :
  shape X_train = [n_train; l_train; c] →
  shape X_test = [n_test; l_test; c] →
  let score := data (mean_dim0 (std_dim0 X_train)) in
  let top_feats := slice_to n_feats (argsort score true) in
  ∃ A B,
    Datamodule.mimic_select n_feats X_train X_test = Ok (top_feats, (A, B))
    ∧ gather_axis 2 top_feats X_train = Ok A
    ∧ gather_axis 2 top_feats X_test = Ok B
    ∧ NoDup top_feats
    ∧ (∀ i, i ∈ top_feats → i < c)
    ∧ (∀ i j, i ∈ top_feats → j < c → j ∉ top_feats →
              (nth j score 0 <= nth i score 0)%R)
    ∧ Z.of_nat (length top_feats)
      = (if (n_feats <? 0)%Z then Z.max 0 (Z.of_nat c + n_feats)
         else Z.min n_feats (Z.of_nat c))
    ∧ shape A = [n_train; l_train; length top_feats]
    ∧ shape B = [n_test; l_test; length top_feats].
Proof.
  intros Htrain Htest score top_feats.
  destruct (score_shape X_train n_train l_train c Htrain) as [Hshape Hlen].
  fold score in Hlen.
  assert (Hlt : ∀ i, i ∈ top_feats → i < c).
  { intros i Hi. apply subseteq_take in Hi. apply argsort_lt in Hi. lia. }
  assert (Hall : Forall (fun k => k < c) top_feats) by (by apply Forall_forall).
  destruct (gather_axis_total 2 c top_feats X_train) as [A HA]; [by rewrite Htrain|done|].
  destruct (gather_axis_total 2 c top_feats X_test) as [B HB]; [by rewrite Htest|done|].
  exists A, B. split.
  { unfold Datamodule.mimic_select, targsort. rewrite Hshape. simpl.
    fold score top_feats. by rewrite HA, HB. }
  split; [done|]. split; [done|]. split.
  { apply (sublist_NoDup _ (argsort score true)); [apply argsort_NoDup|apply sublist_take]. }
  split; [done|]. split.
  { intros i j Hi Hj Hnj.
    apply (top_of_ranking score (slice_bound (length (argsort score true)) n_feats) i j);
      [done|lia|done]. }
  split.
  { unfold top_feats, slice_to. rewrite length_take, argsort_length, Hlen.
    pose proof (slice_bound_le c n_feats). rewrite Nat.min_l by done.
    apply slice_bound_Z. }
  apply gather_axis_Ok in HA as (? & _ & _ & ->).
  apply gather_axis_Ok in HB as (? & _ & _ & ->).
  by rewrite Htrain, Htest.
Qed.

(** C10, as the code has it.  The ranking is that of the training tensor
    alone: the positions of its channels by descending score, the score of
    a channel being its standard deviation over the rows averaged over the
    time steps.  Its leading part [ranking[:n_feats]] indexes the channels
    of both tensors.  The selected channels are distinct, no channel left
    out has a higher score than a selected one, and for tensors of the same
    channel count [c] both end with [min n_feats c] channels when [n_feats]
    is not negative, and with [max (c + n_feats) 0] channels when it is:
    Python reads a negative bound of a slice from the end. *)
Theorem mimic_select_top_features (n_feats : Z) (X_train X_test : tensor R)
    (n_train l_train n_test l_test c : nat) :
  shape X_train = [n_train; l_train; c] →
  shape X_test = [n_test; l_test; c] →
  let score := data (mean_dim0 (std_dim0 X_train)) in
  let top_feats := slice_to n_feats (argsort score true) in
  ∃ A B,
    Datamodule.mimic_select n_feats X_train X_test = Ok (top_feats, (A, B))
    ∧ gather_axis 2 top_feats X_train = Ok A
    ∧ gather_axis 2 top_feats X_test = Ok B
    ∧ NoDup top_feats
    ∧ (∀ i, i ∈ top_feats → i < c)
    ∧ (∀ i j, i ∈ top_feats → j < c → j ∉ top_feats →
              (nth j score 0 <= nth i score 0)%R)
    ∧ Z.of_nat (length top_feats)
      = (if (n_feats <? 0)%Z then Z.max 0 (Z.of_nat c + n_feats)
         else Z.min n_feats (Z.of_nat c))
    ∧ shape A = [n_train; l_train; length top_feats]
    ∧ shape B = [n_test; l_test; length top_feats].
Proof.
  intros Htrain Htest.
  exact (mimic_select_ranking n_feats X_train X_test n_train l_train n_test l_test c
           Htrain Htest).
Qed.

(** The witness of C10: two of three channels. *)
Lemma mimic_select_top_features_witness :
  let X := Tensor [2; 1; 3] [0; 0; 0; 1; 2; 3]%R in
  let score := data (mean_dim0 (std_dim0 X)) in
  let top_feats := slice_to 2 (argsort score true) in
  ∃ A B,
    Datamodule.mimic_select 2 X X = Ok (top_feats, (A, B))
    ∧ Z.of_nat (length top_feats) = 2%Z
    ∧ shape A = [2; 1; length top_feats]
    ∧ shape B = [2; 1; length top_feats].
Proof.
  intros X score top_feats.
  destruct (mimic_select_top_features 2 X X 2 1 2 1 3 eq_refl eq_refl)
    as (A & B & Hsel & _ & _ & _ & _ & _ & Hlen & HA & HB).
  exists A, B. repeat split; [exact Hsel|exact Hlen|exact HA|exact HB].
Defined.

(** C10 as stated fails for a negative [n_feats]: with [n_feats = -1] and
    three channels both tensors end with two channels, and the minimum of
    -1 and 3 is -1. *)
Lemma mimic_select_negative_n_feats :
  let X := Tensor [2; 1; 3] [0; 0; 0; 1; 2; 3]%R in
  ∃ top_feats A B,
    Datamodule.mimic_select (-1) X X = Ok (top_feats, (A, B))
    ∧ shape A = [2; 1; 2] ∧ shape B = [2; 1; 2]
    ∧ Z.of_nat 2 ≠ Z.min (-1) 3.
Proof.
  intros X.
  destruct (mimic_select_ranking (-1) X X 2 1 2 1 3 eq_refl eq_refl)
    as (A & B & Hsel & _ & _ & _ & _ & _ & Hlen & HA & HB).
  assert (H2 : length (slice_to (-1) (argsort (data (mean_dim0 (std_dim0 X))) true)) = 2)
    by (apply (inj Z.of_nat); exact Hlen).
  rewrite H2 in HA, HB.
  eexists _, A, B. split; [exact Hsel|]. split; [done|]. split; [done|]. lia.
Qed.

(** ** The synthetic adapter *)

Lemma binop_Ok {A B C} (f : A → B → C) (x : tensor A) (y : tensor B) (sh : list nat) :
  broadcast_shapes (shape x) (shape y) = Some sh →
  ∃ r, binop f x y = Ok r ∧ shape r = sh.
Proof. intros Hsh. unfold binop. rewrite Hsh. eauto. Qed.

Lemma broadcast_row_column (l m : nat) :
  broadcast_shapes [l] [m; 1] = Some [m; l]
  ∧ broadcast_shapes [m; l] [m; 1] = Some [m; l].
Proof.
  unfold broadcast_shapes. simpl. rewrite Nat.eqb_refl.
  destruct (l =? 1) eqn:El; [apply Nat.eqb_eq in El as ->|]; split; reflexivity.
Qed.

Lemma tmap_wf {A B} (f : A → B) (t : tensor A) : wf t → wf (tmap f t).
Proof. unfold wf, tmap. simpl. by rewrite length_map. Qed.

Lemma slice_head {A} (X : tensor A) (n m : nat) (rest : list nat) :
  shape X = (n + m) :: rest →
  slice_axis 0 None (Some (Z.of_nat n)) X = gather_axis 0 (seq 0 n) X
  ∧ slice_axis 0 (Some (Z.of_nat n)) None X = gather_axis 0 (seq n m) X.
Proof.
  intros HX. unfold slice_axis, size, py_slice, slice_bound. rewrite HX. simpl.
  destruct (Z.ltb_spec (Z.of_nat n) 0); [lia|].
  rewrite Nat2Z.id, Nat.min_l, Nat.sub_0_r by lia.
  split; [done|]. do 2 f_equal. lia.
Qed.

Lemma gather_rows {A} (X : tensor A) (s k n : nat) (rest : list nat) :
  shape X = n :: rest → wf X → s + k ≤ n →
  ∃ Y, gather_axis 0 (seq s k) X = Ok Y ∧ shape Y = k :: rest ∧ wf Y.
Proof.
  intros HX Hw Hk.
  destruct (gather_axis_total 0 n (seq s k) X) as [Y HY]; [by rewrite HX| |].
  { apply Forall_forall. intros i Hi. apply elem_of_seq in Hi. lia. }
  exists Y. split; [done|]. split; [|by apply (gather_axis_wf 0 (seq s k) X)].
  apply gather_axis_Ok in HY as (? & _ & _ & ->). by rewrite HX, length_seq.
Qed.

Lemma to_csv_Ok (t : tensor R) (dir : path) (name : string) (w : world) (n m : nat) :
  shape t = [n; m] →
  fs w !! dir = Some Directory →
  fs w !! (dir ++ [name]) = None →
  to_csv t (dir ++ [name]) w
  = (Ok tt, World (<[dir ++ [name] := CsvFile (chunks n m (data t))]> (fs w)) (calls w)).
Proof.
  intros Ht Hd Hf. unfold to_csv. by rewrite Ht, removelast_last, Hd, Hf.
Qed.

Lemma parse_csv_rows (lines : list (list R)) (m : nat) :
  lines ≠ [] → 0 < m → Forall (fun l => length l = m) lines →
  parse_csv false lines = Ok (Tensor [length lines; m] (concat lines)).
Proof.
  intros Hne Hm Hall. unfold parse_csv.
  destruct lines as [|first rest]; [done|].
  assert (Hfirst : length first = m) by (by inversion Hall).
  rewrite Hfirst. rewrite decide_False by lia.
  assert (H1 : existsb (fun l => m <? length l) (first :: rest) = false).
  { apply not_true_iff_false. intros Hex. apply existsb_exists in Hex as (l & Hl & Hlt).
    apply list_elem_of_In in Hl. rewrite Forall_forall in Hall.
    apply Nat.ltb_lt in Hlt. specialize (Hall l Hl). simpl in Hall. lia. }
  assert (H2 : existsb (fun l => length l <? m) (first :: rest) = false).
  { apply not_true_iff_false. intros Hex. apply existsb_exists in Hex as (l & Hl & Hlt).
    apply list_elem_of_In in Hl. rewrite Forall_forall in Hall.
    apply Nat.ltb_lt in Hlt. specialize (Hall l Hl). simpl in Hall. lia. }
  by rewrite H1, H2.
Qed.

Section Synthetic.
Context `{Outside}.

Lemma synthetic_generate (max_len num_samples : nat) :
  ∃ X, (let? a := binop Rmult (Datamodule.arange (Z.of_nat max_len))
                    (Datamodule.reshape_column
                       (Tensor [2 * num_samples]
                          (map (beta_draw 2 2) (seq 0 (2 * num_samples))))) in
        let? b := binop Rplus a
                    (Datamodule.reshape_column
                       (Tensor [2 * num_samples]
                          (map normal_draw (seq 0 (2 * num_samples))))) in
        Ok (tmap sin b)) = Ok X
       ∧ shape X = [num_samples + num_samples; max_len] ∧ wf X.
Proof.
  set (m := 2 * num_samples).
  set (frequency := Datamodule.reshape_column (Tensor [m] (map (beta_draw 2 2) (seq 0 m)))).
  set (phase := Datamodule.reshape_column (Tensor [m] (map normal_draw (seq 0 m)))).
  set (timesteps := Datamodule.arange (Z.of_nat max_len)).
  assert (Hwf_f : wf frequency ∧ shape frequency = [m; 1]).
  { unfold wf, frequency, Datamodule.reshape_column. simpl.
    rewrite length_map, length_seq. split; [lia|done]. }
  assert (Hwf_p : wf phase ∧ shape phase = [m; 1]).
  { unfold wf, phase, Datamodule.reshape_column. simpl.
    rewrite length_map, length_seq. split; [lia|done]. }
  assert (Hwf_t : wf timesteps ∧ shape timesteps = [max_len]).
  { unfold wf, timesteps, Datamodule.arange. simpl.
    rewrite length_map, length_seq, Nat2Z.id. split; [lia|done]. }
  destruct Hwf_f as [Hwf Hsf], Hwf_p as [Hwp Hsp], Hwf_t as [Hwt Hst].
  destruct (broadcast_row_column max_len m) as [Hb1 Hb2].
  destruct (binop_Ok Rmult timesteps frequency [m; max_len]) as (a & Ha & Hsa);
    [by rewrite Hst, Hsf|].
  destruct (binop_Ok Rplus a phase [m; max_len]) as (b & Hb & Hsb);
    [by rewrite Hsa, Hsp|].
  exists (tmap sin b). rewrite Ha. simpl. rewrite Hb. simpl.
  split; [done|]. split.
  - simpl. rewrite Hsb. unfold m. f_equal. lia.
  - apply tmap_wf. apply (binop_wf Rplus a phase); [|done|done].
    by apply (binop_wf Rmult timesteps frequency).
Qed.

Lemma synthetic_download_data_Ok (dm : Datamodule.t) (max_len num_samples : nat)
    (w : world) :
  fs w !! Datamodule.data_dir dm = Some Directory →
  fs w !! (Datamodule.data_dir dm ++ ["train.csv"]) = None →
  fs w !! (Datamodule.data_dir dm ++ ["test.csv"]) = None →
  ∃ train test,
    Datamodule.synthetic_download_data dm (Z.of_nat max_len) (Z.of_nat num_samples) w
    = (Ok tt,
       World (<[Datamodule.data_dir dm ++ ["test.csv"] := CsvFile test]>
                (<[Datamodule.data_dir dm ++ ["train.csv"] := CsvFile train]> (fs w)))
             (calls w))
    ∧ length train = num_samples ∧ Forall (fun l => length l = max_len) train
    ∧ length test = num_samples ∧ Forall (fun l => length l = max_len) test.
Proof.
  intros Hdir Htrain Htest.
  destruct (synthetic_generate max_len num_samples) as (X & HX & HsX & HwX).
  destruct (slice_head X num_samples num_samples [max_len] HsX) as [Hhead Htail].
  destruct (gather_rows X 0 num_samples (num_samples + num_samples) [max_len])
    as (A & HA & HsA & HwA); [done|done|lia|].
  destruct (gather_rows X num_samples num_samples (num_samples + num_samples) [max_len])
    as (B & HB & HsB & HwB); [done|done|lia|].
  exists (chunks num_samples max_len (data A)), (chunks num_samples max_len (data B)).
  split.
  - unfold Datamodule.synthetic_download_data, Datamodule.random_normal,
      Datamodule.random_beta.
    destruct (Z.ltb_spec (2 * Z.of_nat num_samples) 0); [lia|].
    replace (Z.to_nat (2 * Z.of_nat num_samples)) with (2 * num_samples) by lia.
    unfold bind at 1. unfold lift at 1. unfold bind at 1. unfold lift at 1.
    unfold bind at 1. unfold lift at 1. rewrite HX.
    unfold bind at 1. unfold lift at 1. rewrite Hhead, HA.
    unfold bind at 1. unfold lift at 1. rewrite Htail, HB.
    unfold bind.
    rewrite (to_csv_Ok A _ _ w num_samples max_len) by done.
    rewrite (to_csv_Ok B _ _ _ num_samples max_len); [done|done| |].
    + simpl. rewrite lookup_insert_ne; [done|].
      intros Heq. apply (f_equal length) in Heq. rewrite length_app in Heq.
      simpl in Heq. lia.
    + simpl. rewrite lookup_insert_ne; [done|].
      intros Heq. apply app_inv_head in Heq. discriminate.
  - unfold wf in HwA, HwB. rewrite HsA in HwA. rewrite HsB in HwB. simpl in *.
    rewrite !chunks_length. repeat split; try done;
      apply chunks_Forall_length; lia.
Qed.
End Synthetic.

Lemma read_csv_rows (p : path) (w : world) (lines : list (list R)) (m : nat) :
  fs w !! p = Some (CsvFile lines) →
  lines ≠ [] → 0 < m → Forall (fun l => length l = m) lines →
  read_csv p false w = (Ok (Tensor [length lines; m] (concat lines)), w).
Proof.
  intros Hp Hne Hm Hall. unfold read_csv. by rewrite Hp, (parse_csv_rows lines m).
Qed.

Lemma synthetic_setup_Ok (dm : Datamodule.t) (w : world)
    (train test : list (list R)) (m_train m_test : nat) :
  fs w !! (Datamodule.data_dir dm ++ ["train.csv"]) = Some (CsvFile train) →
  fs w !! (Datamodule.data_dir dm ++ ["test.csv"]) = Some (CsvFile test) →
  train ≠ [] → 0 < m_train → Forall (fun l => length l = m_train) train →
  test ≠ [] → 0 < m_test → Forall (fun l => length l = m_test) test →
  Datamodule.synthetic_setup dm w
  = (Ok (Datamodule.with_tensors dm
           (Tensor [length train; m_train; 1] (concat train)) None
           (Tensor [length test; m_test; 1] (concat test)) None), w).
Proof.
  intros Htrain Htest ? ? ? ? ? ?. unfold Datamodule.synthetic_setup, bind.
  rewrite (read_csv_rows _ w train m_train), (read_csv_rows _ w test m_test) by done.
  reflexivity.
Qed.

(** C7: the synthetic adapter with [max_len = 100] and [num_samples = 1000],
    in a fresh directory of the dataset.  Whatever the random draws, the
    fetch step writes a training file and a test file of 1000 lines of 100
    values each, and [setup] then reads a training tensor (and a test
    tensor) of shape (1000, 100, 1). *)
Theorem synthetic_fetch_and_setup `{Fourier} `{Outside} (dm : Datamodule.t) (w : world) :
  Datamodule.kind dm = Synthetic 100 1000 →
  fs w !! Datamodule.data_dir dm = Some Directory →
  fs w !! (Datamodule.data_dir dm ++ ["train.csv"]) = None →
  fs w !! (Datamodule.data_dir dm ++ ["test.csv"]) = None →
  ∃ train test w' dm',
    Datamodule.download_data dm w = (Ok tt, w')
    ∧ fs w' !! (Datamodule.data_dir dm ++ ["train.csv"]) = Some (CsvFile train)
    ∧ fs w' !! (Datamodule.data_dir dm ++ ["test.csv"]) = Some (CsvFile test)
    ∧ length train = 1000 ∧ Forall (fun l => length l = 100) train
    ∧ length test = 1000 ∧ Forall (fun l => length l = 100) test
    ∧ Datamodule.setup dm w' = (Ok dm', w')
    ∧ shape (Datamodule.X_train dm') = [1000; 100; 1]
    ∧ shape (Datamodule.X_test dm') = [1000; 100; 1].
Proof.
  intros Hk Hdir Htrain Htest.
  destruct (synthetic_download_data_Ok dm 100 1000 w Hdir Htrain Htest)
    as (train & test & Hdl & Hn1 & Hl1 & Hn2 & Hl2).
  set (w' := World (<[Datamodule.data_dir dm ++ ["test.csv"] := CsvFile test]>
                (<[Datamodule.data_dir dm ++ ["train.csv"] := CsvFile train]> (fs w)))
             (calls w)) in *.
  assert (Hf1 : fs w' !! (Datamodule.data_dir dm ++ ["train.csv"]) = Some (CsvFile train)).
  { simpl. rewrite lookup_insert_ne, lookup_insert_eq; [done|].
    intros Heq. apply app_inv_head in Heq. discriminate. }
  assert (Hf2 : fs w' !! (Datamodule.data_dir dm ++ ["test.csv"]) = Some (CsvFile test)).
  { simpl. by rewrite lookup_insert_eq. }
  assert (Hne1 : train ≠ []) by (intros ->; simpl in Hn1; lia).
  assert (Hne2 : test ≠ []) by (intros ->; simpl in Hn2; lia).
  exists train, test, w'.
  eexists. split.
  { unfold Datamodule.download_data. rewrite Hk. exact Hdl. }
  split; [done|]. split; [done|]. split; [done|]. split; [done|].
  split; [done|]. split; [done|]. split.
  { unfold Datamodule.setup. rewrite Hk.
    apply (synthetic_setup_Ok dm w' train test 100 100);
      [exact Hf1|exact Hf2|exact Hne1|lia|exact Hl1|exact Hne2|lia|exact Hl2]. }
  simpl. rewrite Hn1, Hn2. split; reflexivity.
Qed.

(** The witness of C7. *)
Lemma synthetic_fetch_and_setup_witness :
  let O := writing_outside three_rows three_rows in
  ∃ train test w' dm',
    @Datamodule.download_data O synthetic_dm fresh_synthetic_world = (Ok tt, w')
    ∧ fs w' !! ["data"; "synthetic"; "train.csv"] = Some (CsvFile train)
    ∧ fs w' !! ["data"; "synthetic"; "test.csv"] = Some (CsvFile test)
    ∧ length train = 1000 ∧ Forall (fun l => length l = 100) train
    ∧ length test = 1000 ∧ Forall (fun l => length l = 100) test
    ∧ @Datamodule.setup plain_fourier O synthetic_dm w' = (Ok dm', w')
    ∧ shape (Datamodule.X_train dm') = [1000; 100; 1]
    ∧ shape (Datamodule.X_test dm') = [1000; 100; 1].
Proof.
  intros O.
  apply (@synthetic_fetch_and_setup plain_fourier O synthetic_dm fresh_synthetic_world);
    reflexivity.
Defined.

(** ** Shapes after setup *)

Ltac step H a w Ha := apply bind_Ok_inv in H as (a & w & Ha & H).
Ltac lifted H := apply lift_Ok_inv in H as [H ->].

Lemma ret_Ok_inv {S A} (a b : A) (s s' : S) : ret a s = (Ok b, s') → b = a ∧ s' = s.
Proof. unfold ret. by intros [= -> ->]. Qed.

Lemma read_csv_Ok_inv (p : path) (h : bool) (w w' : world) (df : tensor R) :
  read_csv p h w = (Ok df, w') → w' = w ∧ ∃ n m, shape df = [n; m].
Proof.
  unfold read_csv. destruct (fs w !! p) as [[| |lines|]|]; try done.
  unfold parse_csv. destruct lines as [|first rest]; [done|].
  destruct (decide (length first = 0)); [done|].
  destruct (existsb _ _); [done|]. destruct (existsb _ _); [done|].
  intros [= <- <-]. split; [done|]. simpl. eauto.
Qed.

Lemma unsqueeze2_Ok_inv {A} (t r : tensor A) :
  unsqueeze2 t = Ok r → shape r = take 2 (shape t) ++ 1 :: drop 2 (shape t).
Proof. unfold unsqueeze2. destruct (decide _); [|done]. by intros [= <-]. Qed.

Lemma len_cons {A} (n : nat) (s : list nat) (d : list A) : len (Tensor (n :: s) d) = n.
Proof. reflexivity. Qed.

Lemma float_tensor_Ok_inv (v r : tensor R) :
  float_tensor v = Ok r → r = v ∧ len v ≠ 0.
Proof.
  unfold float_tensor. destruct (Nat.eqb_spec (len v) 0); [done|]. by intros [= <-].
Qed.

Lemma collect_length {A} (l : list (result A)) (r : list A) :
  collect l = Ok r → length r = length l.
Proof.
  revert r. induction l as [|a l IH]; intros r; simpl; [by intros [= <-]|].
  destruct a as [a|e]; [|done]. simpl.
  destruct (collect l) as [l'|e]; [|done]. simpl. intros [= <-]. simpl.
  by rewrite (IH l').
Qed.

Lemma long_tensor_Ok_inv (v : tensor R) (r : tensor Z) :
  long_tensor v = Ok r →
  shape r = shape v ∧ length (data r) = length (data v) ∧ len v ≠ 0
  ∧ collect (map to_long (data v)) = Ok (data r).
Proof.
  unfold long_tensor. destruct (Nat.eqb_spec (len v) 0); [done|].
  destruct (collect (map to_long (data v))) as [d|e] eqn:Hd; [|done].
  simpl. intros [= <-]. simpl. split; [done|]. split; [|done].
  apply collect_length in Hd. by rewrite Hd, length_map.
Qed.

Lemma slice_axis_Ok_inv {A} (axis : nat) (start stop : option Z) (t r : tensor A) :
  slice_axis axis start stop t = Ok r →
  ∃ c, shape t !! axis = Some c
       ∧ shape r = take axis (shape t)
                   ++ length (py_slice start stop c) :: drop (S axis) (shape t).
Proof.
  unfold slice_axis, size. destruct (shape t !! axis) as [c|] eqn:Hc; [|done]. simpl.
  intros Hg. apply gather_axis_Ok in Hg as (c' & Hc' & _ & Hs).
  exists c. by split.
Qed.

Lemma every_other_axis_Ok_inv {A} (axis : nat) (t r : tensor A) :
  every_other_axis axis t = Ok r →
  ∃ c, shape t !! axis = Some c
       ∧ shape r = take axis (shape t)
                   ++ length (py_every_other c) :: drop (S axis) (shape t).
Proof.
  unfold every_other_axis, size. destruct (shape t !! axis) as [c|] eqn:Hc; [|done]. simpl.
  intros Hg. apply gather_axis_Ok in Hg as (c' & Hc' & _ & Hs).
  exists c. by split.
Qed.

Lemma size_Ok_inv {A} (t : tensor A) (k n : nat) : size t k = Ok n → shape t !! k = Some n.
Proof. unfold size. destruct (shape t !! k); [|done]. by intros [= ->]. Qed.

Lemma gather_axis_channel {A} (idx : list nat) (t r : tensor A) :
  gather_axis 2 idx t = Ok r →
  shape r !! 2 = Some (length idx) ∧ shape r !! 1 = shape t !! 1
  ∧ drop 1 (shape r)
    = take 1 (drop 1 (shape t)) ++ length idx :: drop 2 (drop 1 (shape t)).
Proof.
  intros Hg. apply gather_axis_Ok in Hg as (c & Hc & _ & ->).
  destruct (shape t) as [|s0 [|s1 [|s2 rest]]]; try done.
Qed.

Section Shapes.
Context `{Fourier} `{Outside}.

Lemma load_cached_Ok_inv (r : routine) (dir : path) (dm : Datamodule.t)
    (w w' : world) (a b : tensor R) :
  Datamodule.load_cached r dir dm w = (Ok (a, b), w') →
  fs w' !! (dir ++ ["X_train.pt"]) = Some (TensorFile a)
  ∧ fs w' !! (dir ++ ["X_test.pt"]) = Some (TensorFile b).
Proof.
  intros Hl. unfold Datamodule.load_cached in Hl.
  step Hl b1 w1 H1. step Hl b2 w2 H2. step Hl u w3 H3.
  step Hl a' w4 Ha. apply torch_load_Ok_inv in Ha as [-> Ha].
  step Hl b' w5 Hb. apply torch_load_Ok_inv in Hb as [-> Hb].
  apply ret_Ok_inv in Hl as [[= -> ->] ->]. done.
Qed.

Lemma ecg_setup_shapes (dm dm' : Datamodule.t) (w w' : world)
    (subsample smooth : bool) (width : R) :
  (∀ X sigma, shape (smooth_frequency X sigma) = shape X) →
  Datamodule.ecg_setup dm subsample smooth width w = (Ok dm', w') →
  drop 1 (shape (Datamodule.X_train dm')) = [187; 1]
  ∧ drop 1 (shape (Datamodule.X_test dm')) = [187; 1].
Proof.
  intros Hsmooth Hs. unfold Datamodule.ecg_setup in Hs.
  assert (Hcols : ∀ (df X y U : tensor R),
    (∃ n m, shape df = [n; m]) → iloc_cols_to 187 df = Ok X → iloc_col 187 df = Ok y →
    unsqueeze2 X = Ok U → drop 1 (shape U) = [187; 1]).
  { intros df X y U (n & m & Hdf) HX Hy HU.
    apply slice_axis_Ok_inv in HX as (c & Hc & HsX).
    rewrite Hdf in Hc, HsX. injection Hc as <-.
    unfold iloc_col in Hy. apply rbind_Ok_inv in Hy as (col & Hcol & _).
    apply gather_axis_Ok in Hcol as (c & Hc & Hlt & _).
    rewrite Hdf in Hc. injection Hc as <-.
    apply Forall_inv in Hlt.
    apply unsqueeze2_Ok_inv in HU. rewrite HU, HsX.
    cbn [take drop app firstn skipn].
    unfold py_slice, slice_bound. cbn [from_option Z.ltb Z.compare].
    rewrite length_seq. f_equal. lia. }
  step Hs df_train w1 Hdf1. apply read_csv_Ok_inv in Hdf1 as [-> Hdf1].
  step Hs Xtr w2 HXtr. lifted HXtr.
  step Hs ytr w3 Hytr. lifted Hytr.
  step Hs df_test w4 Hdf2. apply read_csv_Ok_inv in Hdf2 as [-> Hdf2].
  step Hs Xte w5 HXte. lifted HXte.
  step Hs yte w6 Hyte. lifted Hyte.
  step Hs Utr w7 HUtr. lifted HUtr.
  apply rbind_Ok_inv in HUtr as (Ftr & HFtr & HUtr).
  apply float_tensor_Ok_inv in HFtr as [-> _].
  step Hs Ltr w7' HLtr. lifted HLtr.
  step Hs Ute w8 HUte. lifted HUte.
  apply rbind_Ok_inv in HUte as (Fte & HFte & HUte).
  apply float_tensor_Ok_inv in HFte as [-> _].
  step Hs Lte w8' HLte. lifted HLte.
  pose proof (Hcols _ _ _ _ Hdf1 HXtr Hytr HUtr) as Htr.
  pose proof (Hcols _ _ _ _ Hdf2 HXte Hyte HUte) as Hte.
  step Hs sub w9 Hsub. destruct sub as [Xs ys].
  assert (HXs : drop 1 (shape Xs) = [187; 1]).
  { destruct subsample.
    - destruct (localization_metrics Utr) as [X_loc X_spec_loc].
      step Hsub score w10 Hsc. step Hsub idx w11 Hidx.
      step Hsub Xsub w12 HXsub. lifted HXsub.
      step Hsub ysub w13 Hysub.
      apply ret_Ok_inv in Hsub as [[= -> ->] _].
      apply gather_axis_Ok in HXsub as (c & _ & _ & ->). simpl.
      by rewrite drop_0 in *.
    - by apply ret_Ok_inv in Hsub as [[= -> ->] _]. }
  destruct (smooth && Rltb 0 width);
    apply ret_Ok_inv in Hs as [-> _]; simpl; by rewrite ?Hsmooth.
Qed.

Lemma synthetic_setup_shapes (dm dm' : Datamodule.t) (w w' : world) :
  Datamodule.synthetic_setup dm w = (Ok dm', w') →
  ∃ l l', drop 1 (shape (Datamodule.X_train dm')) = [l; 1]
          ∧ drop 1 (shape (Datamodule.X_test dm')) = [l'; 1].
Proof.
  intros Hs. unfold Datamodule.synthetic_setup in Hs.
  step Hs Xtr w1 H1. apply read_csv_Ok_inv in H1 as [-> (n & m & H1)].
  step Hs Xte w2 H2. apply read_csv_Ok_inv in H2 as [-> (n' & m' & H2)].
  step Hs Utr w3 H3. lifted H3. apply unsqueeze2_Ok_inv in H3.
  step Hs Ute w4 H4. lifted H4. apply unsqueeze2_Ok_inv in H4.
  apply ret_Ok_inv in Hs as [-> _]. simpl.
  exists m, m'. by rewrite H3, H4, H1, H2.
Qed.
End Shapes.

Section MoreShapes.
Context `{Fourier} `{Outside}.

Lemma mimic_setup_shapes (dm dm' : Datamodule.t) (w w' : world) (n_feats : Z) :
  Datamodule.mimic_setup dm n_feats w = (Ok dm', w') →
  ∃ c, shape (Datamodule.X_train dm') !! 2 = Some c
       ∧ shape (Datamodule.X_test dm') !! 2 = Some c.
Proof.
  intros Hs. unfold Datamodule.mimic_setup in Hs.
  step Hs loaded w1 Hl. destruct loaded as [a b].
  step Hs sel w2 Hsel. lifted Hsel. destruct sel as [top [A B]]. simpl in Hs.
  apply ret_Ok_inv in Hs as [-> _]. simpl.
  unfold Datamodule.mimic_select in Hsel.
  apply rbind_Ok_inv in Hsel as (ranking & _ & Hsel).
  apply rbind_Ok_inv in Hsel as (A' & HA & Hsel).
  apply rbind_Ok_inv in Hsel as (B' & HB & Hsel).
  injection Hsel as <- <- <-.
  apply gather_axis_channel in HA as (HA & _). apply gather_axis_channel in HB as (HB & _).
  eauto.
Qed.

Lemma nasdaq_setup_shapes (dm dm' : Datamodule.t) (w w' : world) :
  Datamodule.nasdaq_setup dm w = (Ok dm', w') →
  drop 1 (shape (Datamodule.X_train dm')) = [252; 5]
  ∧ drop 1 (shape (Datamodule.X_test dm')) = [252; 5].
Proof.
  intros Hs. unfold Datamodule.nasdaq_setup in Hs.
  step Hs loaded w1 Hl. destruct loaded as [a b].
  step Hs u w2 Hassert. lifted Hassert. apply assert_Ok_inv in Hassert.
  apply andb_true_iff in Hassert as [Ha Hb].
  apply bool_decide_eq_true_1 in Ha. apply bool_decide_eq_true_1 in Hb.
  rewrite Hb in Ha.
  assert (Hslice : ∀ t r : tensor R,
    drop 1 (shape t) = [252; 6] → slice_axis 2 None (Some (-1)%Z) t = Ok r →
    drop 1 (shape r) = [252; 5]).
  { intros t r Ht Hr. apply slice_axis_Ok_inv in Hr as (c & Hc & ->).
    destruct (shape t) as [|s0 rest]; [done|].
    change (rest = [252; 6]) in Ht. subst rest.
    injection Hc as <-. reflexivity. }
  step Hs A w3 HA. lifted HA. step Hs B w4 HB. lifted HB.
  apply ret_Ok_inv in Hs as [-> _]. simpl. split; eauto.
Qed.

Lemma nasa_setup_shapes (dm dm' : Datamodule.t) (w w' : world)
    (subdataset : string) (remove_outlier : bool) :
  Datamodule.nasa_setup dm subdataset remove_outlier w = (Ok dm', w') →
  remove_outlier && bool_decide (subdataset = "charge") = true →
  shape (Datamodule.X_train dm') !! 1 = Some 251
  ∧ shape (Datamodule.X_test dm') !! 1 = Some 251
  ∧ shape (Datamodule.X_train dm') !! 2 = Some 4
  ∧ shape (Datamodule.X_test dm') !! 2 = Some 4.
Proof.
  intros Hs Hcond. unfold Datamodule.nasa_setup in Hs.
  step Hs loaded w1 Hl. destruct loaded as [a b]. rewrite Hcond in Hs.
  step Hs A w2 HA. lifted HA. step Hs B w3 HB. lifted HB.
  step Hs c_train w4 Hc1. lifted Hc1. apply size_Ok_inv in Hc1.
  step Hs c_test w5 Hc2. lifted Hc2. apply size_Ok_inv in Hc2.
  step Hs u1 w6 Ha1. lifted Ha1. apply assert_Ok_inv in Ha1.
  apply andb_true_iff in Ha1 as [E1 E2].
  apply Nat.eqb_eq in E1. apply Nat.eqb_eq in E2. subst.
  step Hs l_train w7 Hl1. lifted Hl1. apply size_Ok_inv in Hl1.
  step Hs u2 w8 Ha2. lifted Ha2. apply assert_Ok_inv, Nat.eqb_eq in Ha2. subst.
  step Hs l_test w9 Hl2. lifted Hl2. apply size_Ok_inv in Hl2.
  step Hs u3 w10 Ha3. lifted Ha3. apply assert_Ok_inv, Nat.eqb_eq in Ha3. subst.
  apply ret_Ok_inv in Hs as [-> _]. simpl. done.
Qed.

Lemma droughts_setup_inv (dm dm' : Datamodule.t) (w w' : world) :
  Datamodule.droughts_setup dm w = (Ok dm', w') →
  ∃ a b feats,
    fs w' !! (Datamodule.data_dir dm ++ ["X_train.pt"]) = Some (TensorFile a)
    ∧ fs w' !! (Datamodule.data_dir dm ++ ["X_test.pt"]) = Some (TensorFile b)
    ∧ Datamodule.droughts_prune a b
      = Ok (feats, (Datamodule.X_train dm', Datamodule.X_test dm'))
    ∧ ∃ l_train l_test,
        shape (Datamodule.X_train dm') !! 1 = Some l_train
        ∧ shape (Datamodule.X_test dm') !! 1 = Some l_test
        ∧ l_train mod 365 = 0 ∧ l_test mod 365 = 0.
Proof.
  intros Hs. unfold Datamodule.droughts_setup in Hs.
  step Hs loaded w1 Hl. destruct loaded as [a b].
  apply load_cached_Ok_inv in Hl as [Hfa Hfb].
  step Hs pruned w2 Hp. lifted Hp. destruct pruned as [feats [A B]]. simpl in Hs.
  step Hs l_train w3 Hl1. lifted Hl1. apply size_Ok_inv in Hl1.
  step Hs l_test w4 Hl2. lifted Hl2. apply size_Ok_inv in Hl2.
  step Hs u1 w5 Ha1. lifted Ha1. apply assert_Ok_inv in Ha1.
  apply andb_true_iff in Ha1 as [E1 E2].
  apply Nat.eqb_eq in E1. apply Nat.eqb_eq in E2.
  step Hs c_train w6 Hc1. lifted Hc1. step Hs c_test w7 Hc2. lifted Hc2.
  step Hs u2 w8 Ha2. lifted Ha2.
  apply ret_Ok_inv in Hs as [-> ->]. simpl.
  exists a, b, feats. repeat split; try done.
  exists l_train, l_test. repeat split; try done. lia.
Qed.

Lemma droughts_setup_shapes (dm dm' : Datamodule.t) (w w' : world) :
  Datamodule.droughts_setup dm w = (Ok dm', w') →
  ∃ c l_train l_test,
    shape (Datamodule.X_train dm') !! 2 = Some c
    ∧ shape (Datamodule.X_test dm') !! 2 = Some c
    ∧ shape (Datamodule.X_train dm') !! 1 = Some l_train
    ∧ shape (Datamodule.X_test dm') !! 1 = Some l_test
    ∧ l_train mod 365 = 0 ∧ l_test mod 365 = 0.
Proof.
  intros Hs. apply droughts_setup_inv in Hs
    as (a & b & feats & _ & _ & Hp & l_train & l_test & H1 & H2 & H3 & H4).
  unfold Datamodule.droughts_prune in Hp.
  apply rbind_Ok_inv in Hp as (c & _ & Hp).
  apply rbind_Ok_inv in Hp as (A & HA & Hp).
  apply rbind_Ok_inv in Hp as (B & HB & Hp).
  injection Hp as _ EA EB. subst A B.
  apply gather_axis_channel in HA as (HA & _). apply gather_axis_channel in HB as (HB & _).
  eexists _, l_train, l_test. split; [exact HA|]. split; [exact HB|]. done.
Qed.
End MoreShapes.

Section AfterSetup.
Context `{Fourier} `{Outside}.

Lemma droughts_prune_Ok (X_train X_test : tensor R)
    (n_train l_train n_test l_test c : nat) :
  shape X_train = [n_train; l_train; c] →
  shape X_test = [n_test; l_test; c] →
  10 ≤ c →
  ∃ feats A B,
    Datamodule.droughts_prune X_train X_test = Ok (feats, (A, B))
    ∧ length feats = c - 5
    ∧ shape A = [n_train; l_train; c - 5]
    ∧ shape B = [n_test; l_test; c - 5].
Proof.
  intros Htrain Htest Hc.
  set (feats := filter (fun i => i ∉ Datamodule.droughts_dropped) (seq 0 c)).
  assert (Hlt : Forall (fun k => k < c) feats).
  { apply Forall_forall. intros i Hi. by apply droughts_feats_spec in Hi as [? _]. }
  assert (Hlen : length feats = c - 5).
  { unfold feats. rewrite droughts_feats by done.
    rewrite length_app, length_seq. simpl. lia. }
  destruct (gather_axis_total 2 c feats X_train) as [A HA]; [by rewrite Htrain|done|].
  destruct (gather_axis_total 2 c feats X_test) as [B HB]; [by rewrite Htest|done|].
  exists feats, A, B. split.
  { unfold Datamodule.droughts_prune, size. rewrite Htrain. simpl.
    fold feats. by rewrite HA, HB. }
  split; [done|].
  apply gather_axis_Ok in HA as (? & _ & _ & ->).
  apply gather_axis_Ok in HB as (? & _ & _ & ->).
  by rewrite Htrain, Htest, Hlen.
Qed.

Lemma load_cached_files (r : routine) (dir : path) (dm : Datamodule.t) (w : world)
    (a b : tensor R) :
  fs w !! (dir ++ ["X_train.pt"]) = Some (TensorFile a) →
  fs w !! (dir ++ ["X_test.pt"]) = Some (TensorFile b) →
  Datamodule.load_cached r dir dm w = (Ok (a, b), w).
Proof.
  intros Ha Hb. rewrite load_cached_present by (by eexists).
  unfold bind, torch_load, ret. by rewrite Ha, Hb.
Qed.

(** With both cached tensors there, of one channel count (at least 10) and
    sequence lengths that are multiples of 365, the [setup] of the droughts
    adapter returns. *)
Lemma droughts_setup_Ok (dm : Datamodule.t) (w : world) (a b : tensor R)
    (n_train l_train n_test l_test c : nat) :
  fs w !! (Datamodule.data_dir dm ++ ["X_train.pt"]) = Some (TensorFile a) →
  fs w !! (Datamodule.data_dir dm ++ ["X_test.pt"]) = Some (TensorFile b) →
  shape a = [n_train; l_train; c] →
  shape b = [n_test; l_test; c] →
  10 ≤ c → l_train mod 365 = 0 → l_test mod 365 = 0 →
  ∃ A B, Datamodule.droughts_setup dm w = (Ok (Datamodule.with_X dm A B), w)
         ∧ shape A = [n_train; l_train; c - 5]
         ∧ shape B = [n_test; l_test; c - 5].
Proof.
  intros Hfa Hfb Ha Hb Hc Hl1 Hl2.
  destruct (droughts_prune_Ok a b _ _ _ _ c Ha Hb Hc) as (feats & A & B & Hp & Hlen & HA & HB).
  exists A, B. split; [|done].
  unfold Datamodule.droughts_setup. unfold bind at 1.
  rewrite (load_cached_files _ _ dm w a b Hfa Hfb).
  unfold bind, lift, size. rewrite Hp. cbn [fst snd]. rewrite HA, HB.
  cbn [lookup list_lookup].
  rewrite Hl1, Hl2, Hlen, !Nat.eqb_refl. reflexivity.
Qed.

(** C4, as the code has it.  After a [setup] that returned: the ECG adapter
    has 187 time steps and one channel in both tensors (the smoothing is
    taken to keep shapes), the NASDAQ adapter 252 and 5, the NASA adapter
    with the subdataset "charge" and the outlier removal 251 and 4; the
    synthetic adapter has one channel in both tensors, the MIMIC-III and the
    droughts adapter the same channel count in both, and the droughts adapter
    sequence lengths that are multiples of 365; for these three the sequence
    lengths of the two tensors are not compared, and the NASA adapter in any
    other configuration compares nothing. *)
Theorem setup_shapes (dm dm' : Datamodule.t) (w w' : world) :
  (∀ X sigma, shape (smooth_frequency X sigma) = shape X) →
  Datamodule.setup dm w = (Ok dm', w') →
  let s_train := shape (Datamodule.X_train dm') in
  let s_test := shape (Datamodule.X_test dm') in
  match Datamodule.kind dm with
  | ECG _ _ _ => drop 1 s_train = [187; 1] ∧ drop 1 s_test = [187; 1]
  | Synthetic _ _ => ∃ l l', drop 1 s_train = [l; 1] ∧ drop 1 s_test = [l'; 1]
  | MIMICIII _ => ∃ c, s_train !! 2 = Some c ∧ s_test !! 2 = Some c
  | NASDAQ => drop 1 s_train = [252; 5] ∧ drop 1 s_test = [252; 5]
  | NASA subdataset remove_outlier =>
      remove_outlier && bool_decide (subdataset = "charge") = true →
      s_train !! 1 = Some 251 ∧ s_test !! 1 = Some 251
      ∧ s_train !! 2 = Some 4 ∧ s_test !! 2 = Some 4
  | USDroughts =>
      ∃ c l_train l_test,
        s_train !! 2 = Some c ∧ s_test !! 2 = Some c
        ∧ s_train !! 1 = Some l_train ∧ s_test !! 1 = Some l_test
        ∧ l_train mod 365 = 0 ∧ l_test mod 365 = 0
  end.
Proof.
  intros Hsmooth Hs. unfold Datamodule.setup in Hs.
  destruct (Datamodule.kind dm); simpl.
  - exact (ecg_setup_shapes dm dm' w w' _ _ _ Hsmooth Hs).
  - exact (synthetic_setup_shapes dm dm' w w' Hs).
  - exact (mimic_setup_shapes dm dm' w w' _ Hs).
  - exact (nasdaq_setup_shapes dm dm' w w' Hs).
  - exact (nasa_setup_shapes dm dm' w w' _ _ Hs).
  - exact (droughts_setup_shapes dm dm' w w' Hs).
Qed.
End AfterSetup.

(** The witness of C4: the droughts module on a machine with its cache. *)
Lemma setup_shapes_witness :
  let O := writing_outside three_rows three_rows in
  ∃ dm',
    @Datamodule.setup plain_fourier O droughts_dm cached_droughts_world
    = (Ok dm', cached_droughts_world)
    ∧ ∃ c l_train l_test,
        shape (Datamodule.X_train dm') !! 2 = Some c
        ∧ shape (Datamodule.X_test dm') !! 2 = Some c
        ∧ shape (Datamodule.X_train dm') !! 1 = Some l_train
        ∧ shape (Datamodule.X_test dm') !! 1 = Some l_test
        ∧ l_train mod 365 = 0 ∧ l_test mod 365 = 0.
Proof.
  intros O.
  destruct (@droughts_setup_Ok O droughts_dm cached_droughts_world one_year two_years
              1 365 1 730 10) as (A & B & Hs & _); try reflexivity; try lia.
  exists (Datamodule.with_X droughts_dm A B). split; [exact Hs|].
  apply (@setup_shapes plain_fourier O droughts_dm _ cached_droughts_world
           cached_droughts_world); [reflexivity|exact Hs].
Defined.

(** C4 as stated fails: the droughts adapter compares the sequence lengths
    modulo 365 only.  With a cached training tensor of shape (1, 365, 10)
    and a cached test tensor of shape (1, 730, 10) its [setup] returns, and
    the tensors differ in their sequence length. *)
Lemma droughts_setup_unequal_lengths :
  let O := writing_outside three_rows three_rows in
  ∃ dm',
    @Datamodule.setup plain_fourier O droughts_dm cached_droughts_world
    = (Ok dm', cached_droughts_world)
    ∧ drop 1 (shape (Datamodule.X_train dm')) = [365; 5]
    ∧ drop 1 (shape (Datamodule.X_test dm')) = [730; 5]
    ∧ drop 1 (shape (Datamodule.X_train dm')) ≠ drop 1 (shape (Datamodule.X_test dm')).
Proof.
  intros O.
  destruct (@droughts_setup_Ok O droughts_dm cached_droughts_world one_year two_years
              1 365 1 730 10) as (A & B & Hs & HA & HB); try reflexivity; try lia.
  exists (Datamodule.with_X droughts_dm A B). split; [exact Hs|].
  simpl. rewrite HA, HB. repeat split. intros [= Heq].
Qed.

(** * Further properties *)

(** ** Indices of a dataset *)

Lemma norm_index_out_of_range (n : nat) (i : Z) :
  (i < - Z.of_nat n ∨ Z.of_nat n <= i)%Z → norm_index n i = Raise IndexError.
Proof.
  intros Hi. unfold norm_index.
  destruct (Z.leb_spec 0 i), (Z.ltb_spec i (Z.of_nat n)),
    (Z.leb_spec (- Z.of_nat n) i), (Z.ltb_spec i 0); simpl; try done; lia.
Qed.

Lemma norm_index_negative (n i : nat) :
  i < n → norm_index n (Z.of_nat i - Z.of_nat n) = Ok i.
Proof.
  intros Hi. unfold norm_index.
  destruct (Z.leb_spec 0 (Z.of_nat i - Z.of_nat n)); [lia|]. simpl.
  destruct (Z.leb_spec (- Z.of_nat n) (Z.of_nat i - Z.of_nat n)); [|lia].
  destruct (Z.ltb_spec (Z.of_nat i - Z.of_nat n) 0); [|lia]. simpl.
  f_equal. lia.
Qed.

(** An index outside [-len, len) is refused: [__getitem__] has no check of
    its own, and the indexing of the stored tensor raises [IndexError]
    before anything is computed. *)
Theorem getitem_out_of_range (ds : DiffusionDataset.t) (index : Z) :
  (index < - Z.of_nat (DiffusionDataset.len ds)
   ∨ Z.of_nat (DiffusionDataset.len ds) <= index)%Z →
  DiffusionDataset.getitem ds index = Raise IndexError.
Proof.
  intros Hi. unfold DiffusionDataset.getitem, select0.
  unfold DiffusionDataset.len, len in Hi.
  destruct (shape (DiffusionDataset.X ds)) as [|n rest]; [done|].
  simpl in Hi. by rewrite norm_index_out_of_range.
Qed.

Lemma getitem_out_of_range_witness :
  DiffusionDataset.getitem (rows_dataset true) 3 = Raise IndexError
  ∧ DiffusionDataset.getitem (rows_dataset true) (-4) = Raise IndexError.
Proof.
  split; apply getitem_out_of_range; [right|left]; vm_compute; congruence.
Defined.

(** A negative index counts from the end: with one label for every row (or
    no labels), index [i - len] serves the sample of index [i]. *)
Theorem getitem_negative_index (ds : DiffusionDataset.t) (i : nat) :
  i < DiffusionDataset.len ds →
  from_option (fun labels => len labels = DiffusionDataset.len ds) True
    (DiffusionDataset.y ds) →
  DiffusionDataset.getitem ds (Z.of_nat i - Z.of_nat (DiffusionDataset.len ds))
  = DiffusionDataset.getitem ds (Z.of_nat i).
Proof.
  intros Hi Hy. unfold DiffusionDataset.getitem.
  assert (Hsel : ∀ {A} (t : tensor A), len t = DiffusionDataset.len ds →
    select0 t (Z.of_nat i - Z.of_nat (DiffusionDataset.len ds)) = select0 t (Z.of_nat i)).
  { intros A t Ht. unfold select0. unfold len in Ht.
    destruct (shape t) as [|n rest]; [done|]. simpl in Ht. subst n.
    by rewrite norm_index_negative, norm_index_nat. }
  rewrite (Hsel _ (DiffusionDataset.X ds)) by done.
  destruct (select0 (DiffusionDataset.X ds) (Z.of_nat i)) as [x|e]; [|done]. simpl.
  destruct (if DiffusionDataset.standardize ds then _ else _) as [x'|e]; [|done]. simpl.
  destruct (DiffusionDataset.y ds) as [labels|]; [|done]. simpl in Hy.
  by rewrite (Hsel _ labels).
Qed.

Lemma getitem_negative_index_witness :
  DiffusionDataset.getitem (rows_dataset true) (Z.of_nat 2 - Z.of_nat 3)
  = DiffusionDataset.getitem (rows_dataset true) (Z.of_nat 2).
Proof.
  apply (getitem_negative_index (rows_dataset true) 2).
  - vm_compute. lia.
  - exact I.
Defined.

(** ** Undoing the standardization *)

Lemma destandardize_list (xs ms ss : list R) :
  length ms = length xs → length ss = length xs →
  Forall (fun s => s ≠ 0%R) ss →
  zip_with Rplus (zip_with Rmult (zip_with Rdiv (zip_with Rminus xs ms) ss) ss) ms = xs.
Proof.
  revert ms ss. induction xs as [|x xs IH]; intros [|m ms] [|s ss]; simpl; try done.
  intros Hm Hs Hnz. apply Forall_cons in Hnz as [Hs0 Hnz].
  f_equal; [by field|]. apply IH; [lia|lia|done].
Qed.

(** The pair [feature_mean_and_std] undoes the standardization of the
    training samples: for a module that standardizes, a training sample
    times the standard deviations plus the means is the stored row, as
    long as no standard deviation is zero. *)
Theorem feature_mean_and_std_destandardizes `{Fourier} (dm : Datamodule.t)
    (i n : nat) (rest : list nat) :
  let ds := dataset (Datamodule.train_dataloader dm) in
  let stats := Datamodule.feature_mean_and_std dm in
  Datamodule.standardize dm = true →
  shape (DiffusionDataset.X ds) = n :: rest →
  wf (DiffusionDataset.X ds) →
  from_option (fun l => ∃ r, shape l = n :: r) True (Datamodule.y_train dm) →
  i < n →
  Forall (fun s => s ≠ 0%R) (data stats.2) →
  ∃ served row,
    sample_X ds i = Ok served
    ∧ select0 (DiffusionDataset.X ds) (Z.of_nat i) = Ok row
    ∧ (let? scaled := binop Rmult served stats.2 in binop Rplus scaled stats.1) = Ok row.
Proof.
  intros ds stats Hstd HX HwX Hy Hi Hnz.
  assert (Hm : stats.1 = DiffusionDataset.feature_mean ds) by reflexivity.
  assert (Hs : stats.2 = DiffusionDataset.feature_std ds) by reflexivity.
  assert (Hmean : DiffusionDataset.feature_mean ds = mean_dim0 (DiffusionDataset.X ds))
    by reflexivity.
  assert (Hsd : DiffusionDataset.feature_std ds = std_dim0 (DiffusionDataset.X ds))
    by reflexivity.
  assert (Hsm : shape (DiffusionDataset.feature_mean ds) = rest).
  { rewrite Hmean. by apply (reduce_dim0_shape mean _ n). }
  assert (Hss : shape (DiffusionDataset.feature_std ds) = rest).
  { rewrite Hsd. by apply (reduce_dim0_shape std _ n). }
  assert (Hwm : wf (DiffusionDataset.feature_mean ds)) by (rewrite Hmean; apply reduce_dim0_wf).
  assert (Hws : wf (DiffusionDataset.feature_std ds)) by (rewrite Hsd; apply reduce_dim0_wf).
  rewrite Hm, Hs in *.
  set (row := take (numel rest) (drop (i * numel rest) (data (DiffusionDataset.X ds)))).
  assert (Hrow : length row = numel rest).
  { unfold row. unfold wf in HwX. rewrite HX in HwX. cbn [numel foldr] in HwX.
    fold (numel rest) in HwX. rewrite length_take, length_drop. nia. }
  eexists _, (Tensor rest row). split.
  { apply (sample_X_standardized ds n i rest); done. }
  split; [by apply (select0_nat _ n)|].
  fold row.
  set (z := zip_with Rdiv (zip_with Rminus row (data (DiffusionDataset.feature_mean ds)))
              (data (DiffusionDataset.feature_std ds))).
  unfold wf in Hwm, Hws. rewrite Hsm in Hwm. rewrite Hss in Hws.
  assert (Hz : length z = numel rest).
  { unfold z. rewrite !length_zip_with. lia. }
  rewrite (binop_same_shape Rmult (Tensor rest z) (DiffusionDataset.feature_std ds));
    [|by rewrite Hss|exact Hz|by unfold wf; rewrite Hss].
  cbn [rbind shape data].
  rewrite (binop_same_shape Rplus _ (DiffusionDataset.feature_mean ds));
    [|by rewrite Hsm| |by unfold wf; rewrite Hsm].
  2:{ unfold wf. cbn [shape data]. rewrite length_zip_with. lia. }
  cbn [shape data]. f_equal. f_equal. unfold z.
  apply destandardize_list; [lia|lia|done].
Qed.

Lemma feature_mean_and_std_destandardizes_witness :
  let dm := Datamodule.with_tensors dm_standardized three_rows None three_rows None in
  let ds := dataset (@Datamodule.train_dataloader plain_fourier dm) in
  let stats := @Datamodule.feature_mean_and_std plain_fourier dm in
  ∃ served row,
    sample_X ds 1 = Ok served
    ∧ select0 (DiffusionDataset.X ds) (Z.of_nat 1) = Ok row
    ∧ (let? scaled := binop Rmult served stats.2 in binop Rplus scaled stats.1) = Ok row.
Proof.
  intros dm ds stats.
  apply (@feature_mean_and_std_destandardizes plain_fourier dm 1 3 [2; 1]).
  - reflexivity.
  - reflexivity.
  - reflexivity.
  - exact I.
  - lia.
  - change (Forall (fun s => s ≠ 0%R) (data (std_dim0 three_rows))).
    rewrite (proj2 three_rows_statistics). simpl.
    repeat constructor; apply R1_neq_R0.
Defined.

(** ** What the loaders serve *)

(** With the [standardize] flag off the validation loader and the test
    loader serve the same samples. *)
Theorem val_serves_test_without_standardize `{Fourier} (dm : Datamodule.t) (index : Z) :
  Datamodule.standardize dm = false →
  DiffusionDataset.getitem (dataset (Datamodule.val_dataloader dm)) index
  = DiffusionDataset.getitem (dataset (Datamodule.test_dataloader dm)) index.
Proof.
  intros Hstd. unfold DiffusionDataset.getitem, Datamodule.val_dataloader,
    Datamodule.test_dataloader, DiffusionDataset.init. simpl. by rewrite Hstd.
Qed.

Lemma val_serves_test_without_standardize_witness :
  DiffusionDataset.getitem (dataset (@Datamodule.val_dataloader plain_fourier nasdaq_dm)) 0
  = DiffusionDataset.getitem (dataset (@Datamodule.test_dataloader plain_fourier nasdaq_dm)) 0.
Proof. apply (@val_serves_test_without_standardize plain_fourier nasdaq_dm 0). reflexivity. Defined.

Section Labels.
Context `{Fourier} `{Outside}.

Lemma synthetic_setup_unlabeled (dm : Datamodule.t) :
  returns (fun dm' => Datamodule.y_train dm' = None ∧ Datamodule.y_test dm' = None)
    (Datamodule.synthetic_setup dm).
Proof. unfold Datamodule.synthetic_setup. returns_tac. done. Qed.

(** Only the ECG adapter has labels: a module of any other adapter that
    starts without labels (as [__init__] leaves it) has none after [setup],
    and the samples of its three loaders hold a sequence under "X" and
    nothing under "y". *)
Theorem samples_without_labels (dm dm' : Datamodule.t) (w w' : world)
    (dl : DataLoader) (index : Z) (s : gmap string value) :
  (∀ a b c, Datamodule.kind dm ≠ ECG a b c) →
  Datamodule.y_train dm = None → Datamodule.y_test dm = None →
  Datamodule.setup dm w = (Ok dm', w') →
  dl ∈ [Datamodule.train_dataloader dm'; Datamodule.test_dataloader dm';
        Datamodule.val_dataloader dm'] →
  DiffusionDataset.getitem (dataset dl) index = Ok s →
  is_Some (s !! "X") ∧ s !! "y" = None.
Proof.
  intros Hk Htr Hte Hs Hdl Hget.
  assert (Hy : Datamodule.y_train dm' = None ∧ Datamodule.y_test dm' = None).
  { destruct (cache_of dm) as [c|] eqn:Hc.
    - destruct (setup_returns_agree dm w dm' w' Hs) as (_ & _ & _ & _ & _ & _ & Hy).
      destruct Hy as [-> ->]; [by eexists|done].
    - unfold cache_of in Hc. unfold Datamodule.setup in Hs.
      destruct (Datamodule.kind dm) eqn:Hkind; try done.
      + by destruct (Hk subsample_localization smooth_freq smoother_width).
      + by apply (synthetic_setup_unlabeled dm w dm' w'). }
  destruct Hy as [Hy1 Hy2].
  apply getitem_value in Hget as (row & served & _ & _ & HX & Hlab).
  split; [by eexists|].
  assert (Hnone : DiffusionDataset.y (dataset dl) = None).
  { set_unfold in Hdl. destruct Hdl as [->|[->|[->|[]]]]; simpl; done. }
  by rewrite Hnone in Hlab.
Qed.
End Labels.

Lemma samples_without_labels_witness :
  let O := writing_outside three_rows three_rows in
  ∃ dm' s,
    @Datamodule.setup plain_fourier O droughts_dm cached_droughts_world
    = (Ok dm', cached_droughts_world)
    ∧ DiffusionDataset.getitem (dataset (@Datamodule.train_dataloader plain_fourier dm')) 0
      = Ok s
    ∧ is_Some (s !! "X") ∧ s !! "y" = None.
Proof.
  intros O.
  destruct (@droughts_setup_Ok O droughts_dm cached_droughts_world one_year two_years
              1 365 1 730 10) as (A & B & Hs & HA & _); try reflexivity; try lia.
  set (dm' := Datamodule.with_X droughts_dm A B).
  assert (Hget : ∃ s, DiffusionDataset.getitem
            (dataset (@Datamodule.train_dataloader plain_fourier dm')) 0 = Ok s).
  { unfold DiffusionDataset.getitem, select0. simpl. rewrite HA. simpl. eauto. }
  destruct Hget as [s Hget]. exists dm', s. split; [exact Hs|]. split; [exact Hget|].
  apply (@samples_without_labels plain_fourier O droughts_dm dm'
           cached_droughts_world cached_droughts_world
           (@Datamodule.train_dataloader plain_fourier dm') 0 s);
    try reflexivity; try done.
  set_solver.
Defined.

(** ** The first run of the MIMIC-III adapter *)

Lemma makedirs_Ok (p : path) (w : world) :
  fs w !! p = None →
  creatable p (fs w) = true →
  ∃ f, makedirs p w = (Ok tt, World f (calls w))
       ∧ f !! p = Some Directory
       ∧ ∀ q, length p < length q → f !! q = fs w !! q.
Proof.
  intros Hp Hc. unfold makedirs. rewrite Hp, Hc. eexists. split; [done|].
  split; [apply lookup_insert_eq|].
  intros q Hq. rewrite lookup_insert_ne by (intros ->; lia).
  unfold prefixes.
  assert (Hall : Forall (fun r : path => length r < length q)
                   (map (fun n => take n p) (seq 1 (length p)))).
  { apply Forall_map, Forall_forall. intros n _. simpl. rewrite length_take. lia. }
  induction Hall as [|r rs Hr _ IH]; simpl; [done|].
  destruct (foldr _ _ rs !! r); [done|].
  rewrite lookup_insert_ne by (intros ->; lia). done.
Qed.

(** On a machine without the directory of the dataset, and with no regular
    file in the way of it, [prepare_data] of the MIMIC-III adapter creates
    the directory and then fails on the missing raw file; run again, it
    finds the directory and returns without looking for the file. *)
Theorem mimic_prepare_data_checks_once `{Outside} (dm : Datamodule.t) (w : world)
    (n_feats : Z) :
  Datamodule.kind dm = MIMICIII n_feats →
  fs w !! Datamodule.data_dir dm = None →
  creatable (Datamodule.data_dir dm) (fs w) = true →
  fs w !! (Datamodule.data_dir dm ++ ["all_hourly_data.h5"]) = None →
  ∃ w',
    Datamodule.prepare_data dm w
    = (Raise (AssertionError
                (Datamodule.mimic_message
                   (Datamodule.data_dir dm ++ ["all_hourly_data.h5"]))), w')
    ∧ fs w' !! Datamodule.data_dir dm = Some Directory
    ∧ fs w' !! (Datamodule.data_dir dm ++ ["all_hourly_data.h5"]) = None
    ∧ Datamodule.prepare_data dm w' = (Ok tt, w').
Proof.
  intros Hk Hdir Hcr Hfile.
  destruct (makedirs_Ok (Datamodule.data_dir dm) w Hdir Hcr) as (f & Hmk & Hf & Hother).
  assert (Hfile' : f !! (Datamodule.data_dir dm ++ ["all_hourly_data.h5"]) = None).
  { rewrite Hother; [done|]. rewrite length_app. simpl. lia. }
  set (w' := World f (calls w ++ [DownloadData (Datamodule.dataset_name (Datamodule.kind dm))])).
  exists w'.
  assert (Hrun : Datamodule.prepare_data dm w
    = (Raise (AssertionError
                (Datamodule.mimic_message
                   (Datamodule.data_dir dm ++ ["all_hourly_data.h5"]))), w')).
  { unfold Datamodule.prepare_data. unfold bind at 1. unfold path_exists at 1.
    rewrite bool_decide_eq_false_2 by (rewrite Hdir; by intros [? ?]).
    unfold bind at 1. rewrite Hmk. unfold bind at 1. unfold record at 1.
    cbn [fs calls]. fold w'.
    unfold Datamodule.download_data. rewrite Hk.
    unfold Datamodule.mimic_download_data, bind, path_exists, lift.
    rewrite bool_decide_eq_false_2; [done|]. simpl. rewrite Hfile'. by intros [? ?]. }
  split; [exact Hrun|]. split; [exact Hf|]. split; [exact Hfile'|].
  apply prepare_data_present. simpl. rewrite Hf. by eexists.
Qed.

Lemma mimic_prepare_data_checks_once_witness :
  ∃ w',
    @Datamodule.prepare_data (writing_outside three_rows three_rows) mimic_dm empty_world
    = (Raise (AssertionError
                (Datamodule.mimic_message ["data"; "mimiciii"; "all_hourly_data.h5"])), w')
    ∧ fs w' !! ["data"; "mimiciii"] = Some Directory
    ∧ fs w' !! ["data"; "mimiciii"; "all_hourly_data.h5"] = None
    ∧ @Datamodule.prepare_data (writing_outside three_rows three_rows) mimic_dm w'
      = (Ok tt, w').
Proof.
  apply (@mimic_prepare_data_checks_once (writing_outside three_rows three_rows)
           mimic_dm empty_world 40); reflexivity.
Defined.

(** ** Which caches an adapter accepts *)

Section Accepts.
Context `{Fourier} `{Outside}.

(** With both cached tensors there, [setup] of the NASDAQ adapter returns
    exactly when both have 252 time steps and 6 channels, and then drops the
    last channel of both; any other cache fails the assertion, and neither
    the files nor the invocations change. *)
Theorem nasdaq_setup_accepts (dm : Datamodule.t) (w : world) (a b : tensor R) :
  fs w !! (Datamodule.data_dir dm ++ ["X_train.pt"]) = Some (TensorFile a) →
  fs w !! (Datamodule.data_dir dm ++ ["X_test.pt"]) = Some (TensorFile b) →
  (drop 1 (shape a) = [252; 6] ∧ drop 1 (shape b) = [252; 6] →
   ∃ A B, Datamodule.nasdaq_setup dm w = (Ok (Datamodule.with_X dm A B), w)
          ∧ gather_axis 2 [0; 1; 2; 3; 4] a = Ok A
          ∧ gather_axis 2 [0; 1; 2; 3; 4] b = Ok B
          ∧ drop 1 (shape A) = [252; 5] ∧ drop 1 (shape B) = [252; 5])
  ∧ (¬ (drop 1 (shape a) = [252; 6] ∧ drop 1 (shape b) = [252; 6]) →
     Datamodule.nasdaq_setup dm w = (Raise (AssertionError ""), w)).
Proof.
  intros Hfa Hfb.
  assert (Hrun : Datamodule.nasdaq_setup dm w
    = bind (lift (assert (bool_decide (drop 1 (shape a) = drop 1 (shape b))
                          && bool_decide (drop 1 (shape b) = [252; 6])) ""))
        (fun _ => bind (lift (slice_axis 2 None (Some (-1)%Z) a)) (fun A =>
                  bind (lift (slice_axis 2 None (Some (-1)%Z) b)) (fun B =>
                  ret (Datamodule.with_X dm A B)))) w).
  { unfold Datamodule.nasdaq_setup. unfold bind at 1.
    by rewrite (load_cached_files _ _ dm w a b Hfa Hfb). }
  rewrite Hrun. split.
  - intros [Ha Hb].
    assert (Hslice : ∀ t : tensor R, drop 1 (shape t) = [252; 6] →
      ∃ T, slice_axis 2 None (Some (-1)%Z) t = Ok T
           ∧ gather_axis 2 [0; 1; 2; 3; 4] t = Ok T
           ∧ drop 1 (shape T) = [252; 5]).
    { intros t Ht. destruct (shape t) as [|n rest] eqn:Hs; [discriminate Ht|].
      change (rest = [252; 6]) in Ht. subst rest.
      destruct (gather_axis_total 2 6 [0; 1; 2; 3; 4] t) as [T HT].
      - by rewrite Hs.
      - repeat constructor.
      - exists T. split; [|split; [exact HT|]].
        + unfold slice_axis, size. rewrite Hs. exact HT.
        + apply gather_axis_Ok in HT as (? & _ & _ & ->). rewrite Hs. reflexivity. }
    destruct (Hslice a Ha) as (A & HA & HgA & HsA).
    destruct (Hslice b Hb) as (B & HB & HgB & HsB).
    exists A, B. split; [|by repeat split].
    unfold bind, lift. rewrite Ha, Hb.
    rewrite !bool_decide_eq_true_2 by reflexivity. cbn [andb assert].
    by rewrite HA, HB.
  - intros Hnot. unfold bind, lift.
    destruct (bool_decide _ && bool_decide _) eqn:Hc; [|reflexivity].
    exfalso. apply Hnot. apply andb_true_iff in Hc as [H1 H2].
    apply bool_decide_eq_true_1 in H1. apply bool_decide_eq_true_1 in H2.
    split; [by rewrite H1|done].
Qed.
End Accepts.

Lemma nasdaq_setup_accepts_witness :
  @Datamodule.nasdaq_setup (writing_outside three_rows three_rows) nasdaq_dm
    stale_nasdaq_world
  = (Raise (AssertionError ""), stale_nasdaq_world).
Proof.
  apply (proj2 (@nasdaq_setup_accepts (writing_outside three_rows three_rows) nasdaq_dm
                  stale_nasdaq_world three_rows three_rows eq_refl eq_refl)).
  intros [Ha _]. discriminate Ha.
Defined.

Lemma py_every_other_length (l : nat) : length (py_every_other l) = Nat.div2 (S l).
Proof. unfold py_every_other. by rewrite length_map, length_seq. Qed.

Lemma py_every_other_lt (l : nat) : Forall (fun k => k < l) (py_every_other l).
Proof.
  unfold py_every_other. apply Forall_map, Forall_forall. intros k Hk.
  apply elem_of_seq in Hk. simpl. rewrite Nat.div2_div in Hk.
  pose proof (Nat.div_mod_eq (S l) 2). pose proof (Nat.mod_upper_bound (S l) 2). lia.
Qed.

Section AcceptsMore.
Context `{Fourier} `{Outside}.

(** With both cached tensors of the subdataset "charge" there, of three
    dimensions, [setup] of the NASA adapter with the outlier removal returns
    exactly when both have 501 or 502 time steps and at least 5 channels:
    every other time step and the channels 0, 1, 3, 4 are kept, and 251 time
    steps are asserted. *)
Theorem nasa_charge_setup_accepts (dm : Datamodule.t) (w : world) (a b : tensor R)
    (n_train l_train c_train n_test l_test c_test : nat) :
  fs w !! ((Datamodule.data_dir dm ++ ["charge"]) ++ ["X_train.pt"]) = Some (TensorFile a) →
  fs w !! ((Datamodule.data_dir dm ++ ["charge"]) ++ ["X_test.pt"]) = Some (TensorFile b) →
  shape a = [n_train; l_train; c_train] →
  shape b = [n_test; l_test; c_test] →
  (∃ dm', Datamodule.nasa_setup dm "charge" true w = (Ok dm', w)
          ∧ shape (Datamodule.X_train dm') = [n_train; 251; 4]
          ∧ shape (Datamodule.X_test dm') = [n_test; 251; 4])
  ↔ ((l_train = 501 ∨ l_train = 502) ∧ (l_test = 501 ∨ l_test = 502)
     ∧ 5 ≤ c_train ∧ 5 ≤ c_test).
Proof.
  intros Hfa Hfb Ha Hb.
  assert (Hprune : ∀ (t : tensor R) (n l c : nat), shape t = [n; l; c] →
    (5 ≤ c → ∃ T, (let? e := every_other_axis 1 t in gather_axis 2 [0; 1; 3; 4] e) = Ok T
                  ∧ shape T = [n; Nat.div2 (S l); 4])
    ∧ (∀ T, (let? e := every_other_axis 1 t in gather_axis 2 [0; 1; 3; 4] e) = Ok T →
            5 ≤ c ∧ shape T = [n; Nat.div2 (S l); 4])).
  { intros t n l c Ht.
    destruct (gather_axis_total 1 l (py_every_other l) t) as [E HE];
      [by rewrite Ht|apply py_every_other_lt|].
    assert (HsE : shape E = [n; Nat.div2 (S l); c]).
    { apply gather_axis_Ok in HE as (? & _ & _ & ->).
      by rewrite Ht, py_every_other_length. }
    assert (Hev : every_other_axis 1 t = Ok E).
    { unfold every_other_axis, size. by rewrite Ht. }
    rewrite Hev. cbn [rbind]. split.
    - intros Hc. destruct (gather_axis_total 2 c [0; 1; 3; 4] E) as [T HT].
      + by rewrite HsE.
      + repeat constructor; lia.
      + exists T. split; [done|].
        apply gather_axis_Ok in HT as (? & _ & _ & ->). by rewrite HsE.
    - intros T HT. apply gather_axis_Ok in HT as (c' & Hc' & Hlt & ->).
      rewrite HsE in Hc'. injection Hc' as <-. rewrite HsE. split; [|done].
      apply Forall_cons in Hlt as [_ Hlt]. apply Forall_cons in Hlt as [_ Hlt].
      apply Forall_cons in Hlt as [_ Hlt]. apply Forall_cons in Hlt as [Hlt _]. lia. }
  assert (Hrun : Datamodule.nasa_setup dm "charge" true w
    = bind (lift (let? e := every_other_axis 1 a in gather_axis 2 [0; 1; 3; 4] e)) (fun A =>
      bind (lift (let? e := every_other_axis 1 b in gather_axis 2 [0; 1; 3; 4] e)) (fun B =>
      bind (lift (size A 2)) (fun c1 =>
      bind (lift (size B 2)) (fun c2 =>
      bind (lift (assert ((c1 =? c2) && (c2 =? 4)) "")) (fun _ =>
      bind (lift (size A 1)) (fun l1 =>
      bind (lift (assert (l1 =? 251) "")) (fun _ =>
      bind (lift (size B 1)) (fun l2 =>
      bind (lift (assert (l2 =? 251) "")) (fun _ =>
      ret (Datamodule.with_X dm A B)))))))))) w).
  { unfold Datamodule.nasa_setup. unfold bind at 1.
    by rewrite (load_cached_files _ _ dm w a b Hfa Hfb). }
  rewrite Hrun. clear Hrun.
  destruct (Hprune a n_train l_train c_train Ha) as [HokA HinvA].
  destruct (Hprune b n_test l_test c_test Hb) as [HokB HinvB].
  assert (Hhalf : ∀ l, Nat.div2 (S l) = 251 ↔ l = 501 ∨ l = 502).
  { intros l. rewrite Nat.div2_div.
    pose proof (Nat.div_mod_eq (S l) 2). pose proof (Nat.mod_upper_bound (S l) 2). lia. }
  split.
  - intros (dm' & Hs & _).
    step Hs A w1 HA. lifted HA. step Hs B w2 HB. lifted HB.
    destruct (HinvA A HA) as [Hc1 HsA]. destruct (HinvB B HB) as [Hc2 HsB].
    step Hs chA w3 Hs1. lifted Hs1. step Hs chB w4 Hs2. lifted Hs2.
    step Hs u1 w5 Hu1. lifted Hu1.
    step Hs l1 w6 Hl1. lifted Hl1. apply size_Ok_inv in Hl1.
    step Hs u2 w7 Hu2. lifted Hu2. apply assert_Ok_inv, Nat.eqb_eq in Hu2.
    step Hs l2 w8 Hl2. lifted Hl2. apply size_Ok_inv in Hl2.
    step Hs u3 w9 Hu3. lifted Hu3. apply assert_Ok_inv, Nat.eqb_eq in Hu3.
    rewrite HsA in Hl1. rewrite HsB in Hl2.
    injection Hl1 as Hl1. injection Hl2 as Hl2. subst l1 l2.
    apply Hhalf in Hu2. apply Hhalf in Hu3. done.
  - intros (Hl1 & Hl2 & Hc1 & Hc2).
    destruct (HokA Hc1) as (A & HA & HsA). destruct (HokB Hc2) as (B & HB & HsB).
    apply Hhalf in Hl1. apply Hhalf in Hl2. rewrite Hl1 in HsA. rewrite Hl2 in HsB.
    exists (Datamodule.with_X dm A B). split; [|split; [exact HsA|exact HsB]].
    unfold bind, lift, size. rewrite HA, HB, HsA, HsB. reflexivity.
Qed.

(** With both cached tensors there, of three dimensions, [setup] of the
    droughts adapter returns exactly when both sequence lengths are
    multiples of 365 and the test tensor has every channel the pruning
    keeps of the training tensor. *)
Theorem droughts_setup_accepts (dm : Datamodule.t) (w : world) (a b : tensor R)
    (n_train l_train c_train n_test l_test c_test : nat) :
  fs w !! (Datamodule.data_dir dm ++ ["X_train.pt"]) = Some (TensorFile a) →
  fs w !! (Datamodule.data_dir dm ++ ["X_test.pt"]) = Some (TensorFile b) →
  shape a = [n_train; l_train; c_train] →
  shape b = [n_test; l_test; c_test] →
  (∃ dm', Datamodule.droughts_setup dm w = (Ok dm', w))
  ↔ (l_train mod 365 = 0 ∧ l_test mod 365 = 0
     ∧ ∀ i, i < c_train → i ∉ ({[4; 5; 6; 7; 9]} : gset nat) → i < c_test).
Proof.
  intros Hfa Hfb Ha Hb.
  set (feats := filter (fun i => i ∉ Datamodule.droughts_dropped) (seq 0 c_train)).
  assert (Hlt : Forall (fun k => k < c_train) feats).
  { apply Forall_forall. intros i Hi. by apply droughts_feats_spec in Hi as [? _]. }
  destruct (gather_axis_total 2 c_train feats a) as [A HA]; [by rewrite Ha|done|].
  assert (HsA : shape A = [n_train; l_train; length feats]).
  { apply gather_axis_Ok in HA as (? & _ & _ & ->). by rewrite Ha. }
  assert (Hrun : Datamodule.droughts_setup dm w
    = bind (lift (Datamodule.droughts_prune a b)) (fun pruned =>
        let feats := pruned.1 in
        let (X_train, X_test) := pruned.2 in
        bind (lift (size X_train 1)) (fun l1 =>
        bind (lift (size X_test 1)) (fun l2 =>
        bind (lift (assert ((l1 mod 365 =? l2 mod 365) && (l2 mod 365 =? 0)) "")) (fun _ =>
        bind (lift (size X_train 2)) (fun c1 =>
        bind (lift (size X_test 2)) (fun c2 =>
        bind (lift (assert ((c1 =? c2) && (c2 =? length feats)) "")) (fun _ =>
        ret (Datamodule.with_X dm X_train X_test)))))))) w).
  { unfold Datamodule.droughts_setup. unfold bind at 1.
    by rewrite (load_cached_files _ _ dm w a b Hfa Hfb). }
  rewrite Hrun. clear Hrun.
  assert (Hprune : Datamodule.droughts_prune a b
                   = let? B := gather_axis 2 feats b in Ok (feats, (A, B))).
  { unfold Datamodule.droughts_prune, size. rewrite Ha. cbn [lookup list_lookup rbind].
    fold feats. by rewrite HA. }
  rewrite Hprune.
  assert (Hkeep : Forall (fun k => k < c_test) feats
                  ↔ ∀ i, i < c_train → i ∉ ({[4; 5; 6; 7; 9]} : gset nat) → i < c_test).
  { rewrite Forall_forall. split.
    - intros Hall i Hi Hd. apply Hall. by apply droughts_feats_spec.
    - intros Hall i Hi. apply droughts_feats_spec in Hi as [? ?]. by apply Hall. }
  rewrite <- Hkeep. split.
  - intros (dm' & Hs).
    step Hs pruned w1 Hp. lifted Hp.
    apply rbind_Ok_inv in Hp as (B & HB & Hp). injection Hp as <-.
    cbn [fst snd] in Hs.
    pose proof HB as HB'. apply gather_axis_Ok in HB' as (c & Hc & Hall & HsB).
    rewrite Hb in Hc, HsB. injection Hc as <-. cbn [take drop app] in HsB.
    step Hs l1 w2 Hl1. lifted Hl1. apply size_Ok_inv in Hl1.
    step Hs l2 w3 Hl2. lifted Hl2. apply size_Ok_inv in Hl2.
    rewrite HsA in Hl1. rewrite HsB in Hl2.
    injection Hl1 as <-. injection Hl2 as <-.
    step Hs u1 w4 Hu1. lifted Hu1. apply assert_Ok_inv in Hu1.
    apply andb_true_iff in Hu1 as [E1 E2].
    apply Nat.eqb_eq in E1. apply Nat.eqb_eq in E2.
    split; [lia|]. split; [exact E2|exact Hall].
  - intros (Hl1 & Hl2 & Hall).
    destruct (gather_axis_total 2 c_test feats b) as [B HB]; [by rewrite Hb|done|].
    assert (HsB : shape B = [n_test; l_test; length feats]).
    { apply gather_axis_Ok in HB as (? & _ & _ & ->). by rewrite Hb. }
    exists (Datamodule.with_X dm A B).
    unfold bind, lift, size. rewrite HB. cbn [rbind fst snd].
    rewrite HsA, HsB. cbn [lookup list_lookup].
    rewrite Hl1, Hl2, !Nat.eqb_refl. reflexivity.
Qed.
End AcceptsMore.

Lemma nasa_charge_setup_accepts_witness :
  ∃ dm', @Datamodule.nasa_setup (writing_outside three_rows three_rows) nasa_dm
           "charge" true cached_nasa_world = (Ok dm', cached_nasa_world)
         ∧ shape (Datamodule.X_train dm') = [1; 251; 4]
         ∧ shape (Datamodule.X_test dm') = [1; 251; 4].
Proof.
  apply (@nasa_charge_setup_accepts (writing_outside three_rows three_rows) nasa_dm
           cached_nasa_world charge_501 charge_502 1 501 5 1 502 5);
    try reflexivity.
  repeat split; [by left|by right|lia|lia].
Defined.

Lemma droughts_setup_accepts_witness :
  ∃ dm', @Datamodule.droughts_setup (writing_outside three_rows three_rows) droughts_dm
           cached_droughts_world = (Ok dm', cached_droughts_world).
Proof.
  apply (@droughts_setup_accepts (writing_outside three_rows three_rows) droughts_dm
           cached_droughts_world one_year two_years 1 365 10 1 730 10);
    try reflexivity.
  repeat split; try reflexivity. intros i Hi _. exact Hi.
Defined.

Lemma drop1_dims (s : list nat) (l c : nat) :
  drop 1 s = [l; c] → s !! 1 = Some l ∧ s !! 2 = Some c.
Proof.
  destruct s as [|n s]; simpl; [discriminate|].
  rewrite drop_0. intros ->. split; reflexivity.
Qed.

Section Parameters.
Context `{Fourier} `{Outside} `{Loading}.

(** Before [setup] the training tensor is [torch.Tensor()], of one
    dimension: [dataset_parameters] raises [IndexError], whatever the
    configuration and the loader. *)
Theorem dataset_parameters_before_setup (k : adapter) (data_dir : path)
    (random_seed batch_size : Z) (fourier_transform standardize : bool) :
  Datamodule.dataset_parameters
    (Datamodule.init k data_dir random_seed batch_size fourier_transform standardize)
  = Raise IndexError.
Proof. reflexivity. Qed.

(** After a [setup] that returned, [dataset_parameters] raises only what the
    length of the training loader raises (the NASA adapter without its
    pruning apart): it reports the sequence length and the channel count of
    the training tensor as loaded, not transformed, the channel count is
    that of the test tensor too, and the adapters that fix a value report
    it. *)
Theorem dataset_parameters_after_setup (dm dm' : Datamodule.t) (w w' : world) :
  (∀ X sigma, shape (smooth_frequency X sigma) = shape X) →
  Datamodule.setup dm w = (Ok dm', w') →
  match Datamodule.kind dm with
  | NASA subdataset remove_outlier =>
      remove_outlier && bool_decide (subdataset = "charge") = true
  | _ => True
  end →
  ∃ max_len n_channels,
    Datamodule.dataset_parameters dm'
    = (let? num_training_steps := loader_len (Datamodule.train_dataloader dm') in
       Ok (<["n_channels" := n_channels]>
             (<["max_len" := max_len]>
                (<["num_training_steps" := num_training_steps]> ∅))))
    ∧ shape (Datamodule.X_train dm') !! 1 = Some max_len
    ∧ shape (Datamodule.X_train dm') !! 2 = Some n_channels
    ∧ shape (Datamodule.X_test dm') !! 2 = Some n_channels
    ∧ match Datamodule.kind dm with
      | ECG _ _ _ => max_len = 187 ∧ n_channels = 1
      | Synthetic _ _ => n_channels = 1
      | MIMICIII _ => True
      | NASDAQ => max_len = 252 ∧ n_channels = 5
      | NASA _ _ => max_len = 251 ∧ n_channels = 4
      | USDroughts => max_len mod 365 = 0
      end.
Proof.
  intros Hsmooth Hs Hkind.
  assert (Hparams : ∀ l c, shape (Datamodule.X_train dm') !! 1 = Some l →
            shape (Datamodule.X_train dm') !! 2 = Some c →
            Datamodule.dataset_parameters dm'
            = (let? k := loader_len (Datamodule.train_dataloader dm') in
               Ok (<["n_channels" := c]> (<["max_len" := l]>
                     (<["num_training_steps" := k]> ∅))))).
  { intros l c Hl Hc. unfold Datamodule.dataset_parameters, size.
    rewrite Hl, Hc. reflexivity. }
  unfold Datamodule.setup in Hs.
  destruct (Datamodule.kind dm) as [sub sm wd|ml ns|nf| |sd ro|].
  - apply (ecg_setup_shapes _ _ _ _ _ _ _ Hsmooth) in Hs as [Ht1 Ht2].
    apply drop1_dims in Ht1 as [Hl Hc]. apply drop1_dims in Ht2 as [_ Hc'].
    exists 187, 1. split; [by apply Hparams|]. split; [exact Hl|].
    split; [exact Hc|]. split; [exact Hc'|]. split; reflexivity.
  - apply synthetic_setup_shapes in Hs as (l & l' & Ht1 & Ht2).
    apply drop1_dims in Ht1 as [Hl Hc]. apply drop1_dims in Ht2 as [_ Hc'].
    exists l, 1. split; [by apply Hparams|]. split; [exact Hl|].
    split; [exact Hc|]. split; [exact Hc'|]. reflexivity.
  - apply mimic_setup_shapes in Hs as (c & Hc & Hc').
    destruct (shape (Datamodule.X_train dm') !! 1) as [l|] eqn:Hl.
    + exists l, c. split; [by apply Hparams|]. split; [reflexivity|].
      split; [exact Hc|]. split; [exact Hc'|]. exact I.
    + apply lookup_ge_None in Hl. apply lookup_lt_Some in Hc. lia.
  - apply nasdaq_setup_shapes in Hs as [Ht1 Ht2].
    apply drop1_dims in Ht1 as [Hl Hc]. apply drop1_dims in Ht2 as [_ Hc'].
    exists 252, 5. split; [by apply Hparams|]. split; [exact Hl|].
    split; [exact Hc|]. split; [exact Hc'|]. split; reflexivity.
  - apply nasa_setup_shapes in Hs as (Hl & _ & Hc & Hc'); [|exact Hkind].
    exists 251, 4. split; [by apply Hparams|]. split; [exact Hl|].
    split; [exact Hc|]. split; [exact Hc'|]. split; reflexivity.
  - apply droughts_setup_shapes in Hs as (c & l & l' & Hc & Hc' & Hl & _ & Hm & _).
    exists l, c. split; [by apply Hparams|]. split; [exact Hl|].
    split; [exact Hc|]. split; [exact Hc'|]. exact Hm.
Qed.
End Parameters.

Lemma dataset_parameters_after_setup_witness :
  let O := writing_outside three_rows three_rows in
  ∃ dm' max_len n_channels,
    @Datamodule.setup plain_fourier O droughts_dm cached_droughts_world
    = (Ok dm', cached_droughts_world)
    ∧ @Datamodule.dataset_parameters plain_fourier ceil_loading dm'
      = (let? num_training_steps
           := @loader_len ceil_loading (@Datamodule.train_dataloader plain_fourier dm') in
         Ok (<["n_channels" := n_channels]>
               (<["max_len" := max_len]>
                  (<["num_training_steps" := num_training_steps]> ∅))))
    ∧ max_len mod 365 = 0.
Proof.
  intros O.
  destruct (@droughts_setup_Ok O droughts_dm cached_droughts_world one_year two_years
              1 365 1 730 10) as (A & B & Hs & _); try reflexivity; try lia.
  exists (Datamodule.with_X droughts_dm A B).
  destruct (@dataset_parameters_after_setup plain_fourier O ceil_loading droughts_dm
              (Datamodule.with_X droughts_dm A B) cached_droughts_world
              cached_droughts_world) as (l & c & Hp & _ & _ & _ & Hm);
    [reflexivity|exact Hs|exact I|].
  exists l, c. split; [exact Hs|]. split; [exact Hp|exact Hm].
Defined.

Lemma chunks_singletons {A} (l : list A) :
  chunks (length l) 1 l = map (fun x => [x]) l.
Proof. induction l as [|x l IH]; simpl; [done|]. rewrite drop_0. by rewrite IH. Qed.

Lemma pick_map {A B} (f : A → B) (idx : list nat) (l : list A) :
  pick idx (map f l) = map f (pick idx l).
Proof.
  unfold pick. induction idx as [|k idx IH]; [done|].
  csimpl. rewrite list_lookup_fmap. destruct (l !! k); simpl; by rewrite IH.
Qed.

Lemma concat_singletons {A} (l : list A) : concat (map (fun x => [x]) l) = l.
Proof. induction l as [|x l IH]; simpl; [done|]. by rewrite IH. Qed.

Lemma pick_seq_from {A} (s k : nat) (l : list A) :
  s + k ≤ length l → pick (seq s k) l = take k (drop s l).
Proof.
  unfold pick. revert s l. induction k as [|k IH]; intros s l Hk; simpl.
  - by rewrite take_0.
  - destruct (l !! s) as [x|] eqn:Hx; [|apply lookup_ge_None in Hx; lia].
    rewrite (drop_S l x s Hx). simpl. f_equal. apply IH. lia.
Qed.

Lemma pick_one {A} (k : nat) (l : list A) (d : A) :
  k < length l → pick [k] l = [nth k l d].
Proof.
  intros Hk. unfold pick. simpl.
  destruct (l !! k) as [x|] eqn:Hx; [|apply lookup_ge_None in Hx; lia].
  by rewrite (nth_lookup_Some _ _ _ _ Hx).
Qed.

Lemma forallb_lt_seq (k m : nat) : k ≤ m → forallb (fun i => i <? m) (seq 0 k) = true.
Proof.
  intros Hk. apply forallb_forall. intros i Hi. apply in_seq in Hi.
  apply Nat.ltb_lt. lia.
Qed.

(** The columns of a table held row by row. *)
Lemma gather_columns {A} (idx : list nat) (rows : list (list A)) (m : nat) :
  Forall (fun r => length r = m) rows →
  Forall (fun k => k < m) idx →
  gather_axis 1 idx (Tensor [length rows; m] (concat rows))
  = Ok (Tensor [length rows; length idx] (concat (map (pick idx) rows))).
Proof.
  intros Hrows Hidx. unfold gather_axis. cbn [shape data lookup list_lookup].
  assert (Hall : forallb (fun k => k <? m) idx = true).
  { apply forallb_forall. intros k Hk. apply Nat.ltb_lt.
    rewrite Forall_forall in Hidx. by apply Hidx, list_elem_of_In. }
  rewrite Hall. cbn [take drop app numel foldr].
  rewrite !Nat.mul_1_r, (chunks_concat m rows Hrows). do 3 f_equal.
  apply map_ext_Forall. eapply Forall_impl; [exact Hrows|].
  intros r Hr. cbn beta in Hr |- *. rewrite <- Hr, chunks_singletons, pick_map.
  apply concat_singletons.
Qed.

Lemma iloc_cols_to_rows (k : nat) (rows : list (list R)) (m : nat) :
  Forall (fun r => length r = m) rows → k ≤ m →
  iloc_cols_to (Z.of_nat k) (Tensor [length rows; m] (concat rows))
  = Ok (Tensor [length rows; k] (concat (map (take k) rows))).
Proof.
  intros Hrows Hk. unfold iloc_cols_to, slice_axis, size.
  cbn [shape lookup list_lookup rbind].
  assert (Hidx : py_slice None (Some (Z.of_nat k)) m = seq 0 k).
  { unfold py_slice, slice_bound. cbn [from_option].
    destruct (Z.ltb_spec (Z.of_nat k) 0); [lia|].
    rewrite Nat2Z.id, Nat.min_l, Nat.sub_0_r by exact Hk. reflexivity. }
  rewrite Hidx, (gather_columns (seq 0 k) rows m Hrows).
  - rewrite length_seq. do 3 f_equal.
    apply map_ext_Forall. eapply Forall_impl; [exact Hrows|].
    intros r Hr. cbn beta in Hr |- *. rewrite pick_seq_from by lia. by rewrite drop_0.
  - apply Forall_forall. intros i Hi. apply elem_of_seq in Hi. lia.
Qed.

Lemma iloc_col_rows (k : nat) (rows : list (list R)) (m : nat) :
  Forall (fun r => length r = m) rows → k < m →
  iloc_col k (Tensor [length rows; m] (concat rows))
  = Ok (Tensor [length rows] (map (fun r => nth k r 0%R) rows)).
Proof.
  intros Hrows Hk. unfold iloc_col.
  rewrite (gather_columns [k] rows m Hrows) by (constructor; [exact Hk|constructor]).
  cbn [rbind shape data take length]. do 2 f_equal.
  induction Hrows as [|r rows Hr _ IH]; [reflexivity|].
  cbn [map concat]. rewrite (pick_one k r 0%R), IH by lia. reflexivity.
Qed.

Lemma parse_csv_header (first : list R) (rest : list (list R)) (m : nat) :
  0 < m → Forall (fun l => length l = m) (first :: rest) →
  parse_csv true (first :: rest) = Ok (Tensor [length rest; m] (concat rest)).
Proof.
  intros Hm Hall. pose proof Hall as Hall'. apply Forall_cons in Hall' as [Hf _].
  unfold parse_csv. rewrite Hf.
  destruct (decide (m = 0)) as [->|_]; [lia|].
  assert (E1 : existsb (fun l => m <? length l) (first :: rest) = false).
  { apply not_true_is_false. intros E. apply existsb_exists in E as (l & Hl & E).
    apply Nat.ltb_lt in E. rewrite Forall_forall in Hall.
    apply list_elem_of_In, Hall in Hl. lia. }
  assert (E2 : existsb (fun l => length l <? m) (first :: rest) = false).
  { apply not_true_is_false. intros E. apply existsb_exists in E as (l & Hl & E).
    apply Nat.ltb_lt in E. rewrite Forall_forall in Hall.
    apply list_elem_of_In, Hall in Hl. lia. }
  rewrite E1, E2. reflexivity.
Qed.

Lemma trunc_IZR (z : Z) : trunc (IZR z) = z.
Proof.
  assert (Hint : ∀ k, Int_part (IZR k) = k).
  { intros k. symmetry. apply Int_part_spec. lra. }
  unfold trunc. destruct (Rle_dec 0 (IZR z)) as [_|_]; [apply Hint|].
  rewrite <- opp_IZR, Hint. lia.
Qed.

Lemma long_tensor_labels (k : nat) (rows : list (list R)) :
  rows ≠ [] →
  Forall (fun l => (- 2 ^ 63 <= trunc (nth k l 0%R) < 2 ^ 63)%Z) rows →
  long_tensor (Tensor [length rows] (map (fun r => nth k r 0%R) rows))
  = Ok (Tensor [length rows] (map (fun l => trunc (nth k l 0%R)) rows)).
Proof.
  intros Hne Hin. unfold long_tensor. rewrite len_cons. cbn [shape data].
  destruct rows as [|r0 rows0] eqn:Hrows; [done|]. rewrite <- Hrows in *.
  replace (length rows =? 0) with false by (by rewrite Hrows).
  rewrite map_map.
  rewrite (collect_map_Ok _ (fun l => trunc (nth k l 0%R))); [reflexivity|].
  eapply Forall_impl; [exact Hin|]. intros l Hl. cbn beta in Hl |- *.
  unfold to_long. cbn zeta.
  destruct (Z.leb_spec (- 2 ^ 63) (trunc (nth k l 0%R))); [|lia].
  destruct (Z.ltb_spec (trunc (nth k l 0%R)) (2 ^ 63)); [reflexivity|lia].
Qed.

Section Heartbeats.
Context `{Fourier} `{Outside}.

(** The frames the ECG adapter reads, and what is left of [setup] after
    them. *)
Lemma ecg_setup_from_files (dm : Datamodule.t) (w : world)
    (subsample smooth : bool) (width : R)
    (first_train first_test : list R) (train test : list (list R)) (m_train m_test : nat) :
  fs w !! (Datamodule.data_dir dm ++ ["mitbih_train.csv"])
  = Some (CsvFile (first_train :: train)) →
  fs w !! (Datamodule.data_dir dm ++ ["mitbih_test.csv"])
  = Some (CsvFile (first_test :: test)) →
  Forall (fun l => length l = m_train) (first_train :: train) →
  Forall (fun l => length l = m_test) (first_test :: test) →
  188 ≤ m_train → 188 ≤ m_test →
  train ≠ [] → test ≠ [] →
  Forall (fun l => (- 2 ^ 63 <= trunc (nth 187 l 0%R) < 2 ^ 63)%Z) train →
  Forall (fun l => (- 2 ^ 63 <= trunc (nth 187 l 0%R) < 2 ^ 63)%Z) test →
  let X_train := Tensor [length train; 187; 1] (concat (map (take 187) train)) in
  let y_train := Tensor [length train] (map (fun l => trunc (nth 187 l 0%R)) train) in
  let X_test := Tensor [length test; 187; 1] (concat (map (take 187) test)) in
  let y_test := Tensor [length test] (map (fun l => trunc (nth 187 l 0%R)) test) in
  Datamodule.ecg_setup dm subsample smooth width w
  = bind (if subsample then
            let (X_loc, X_spec_loc) := localization_metrics X_train in
            bind (lift (tdiv X_loc X_spec_loc)) (fun loc_score =>
            bind (lift (targsort loc_score false)) (fun idx_ranking =>
            bind (lift (gather_axis 0 (slice_to 1000 idx_ranking) X_train)) (fun X_sub =>
            bind (lift (gather_axis 0 (slice_to 1000 idx_ranking) y_train)) (fun y_sub =>
            ret (X_sub, y_sub)))))
          else ret (X_train, y_train))
      (fun sub : tensor R * tensor Z =>
         let (X_train, y_train) := sub in
         let (X_train, X_test) :=
           (if smooth && Rltb 0 width
            then (smooth_frequency X_train width, smooth_frequency X_test width)
            else (X_train, X_test)) : tensor R * tensor R in
         ret (Datamodule.with_tensors dm X_train (Some y_train) X_test (Some y_test))) w.
Proof.
  intros Hf1 Hf2 Hall1 Hall2 Hm1 Hm2 Hne1 Hne2 Hl1 Hl2 X_train y_train X_test y_test.
  pose proof Hall1 as Hr1. apply Forall_cons in Hr1 as [_ Hr1].
  pose proof Hall2 as Hr2. apply Forall_cons in Hr2 as [_ Hr2].
  assert (Hlen : ∀ rows : list (list R), rows ≠ [] → (length rows =? 0) = false).
  { intros [|r rows] Hne; [done|reflexivity]. }
  unfold Datamodule.ecg_setup.
  unfold bind at 1. unfold read_csv at 1.
  rewrite Hf1, (parse_csv_header first_train train m_train) by (lia || exact Hall1).
  change 187%Z with (Z.of_nat 187).
  unfold bind at 1. unfold lift at 1.
  rewrite (iloc_cols_to_rows 187 train m_train Hr1) by lia.
  unfold bind at 1. unfold lift at 1.
  rewrite (iloc_col_rows 187 train m_train Hr1) by lia.
  unfold bind at 1. unfold read_csv at 1.
  rewrite Hf2, (parse_csv_header first_test test m_test) by (lia || exact Hall2).
  unfold bind at 1. unfold lift at 1.
  rewrite (iloc_cols_to_rows 187 test m_test Hr2) by lia.
  unfold bind at 1. unfold lift at 1.
  rewrite (iloc_col_rows 187 test m_test Hr2) by lia.
  unfold bind at 1. unfold lift at 1.
  unfold float_tensor at 1. rewrite len_cons, (Hlen train Hne1).
  unfold bind at 1. unfold lift at 1.
  rewrite (long_tensor_labels 187 train Hne1 Hl1).
  unfold bind at 1. unfold lift at 1.
  unfold float_tensor at 1. rewrite len_cons, (Hlen test Hne2).
  unfold bind at 1. unfold lift at 1.
  rewrite (long_tensor_labels 187 test Hne2 Hl2).
  unfold unsqueeze2. cbn [shape data length rbind].
  destruct (decide (2 ≤ 2)) as [_|]; [|lia].
  reflexivity.
Qed.

(** The ECG adapter reads its two files with the first line of each as the
    names of the columns: without subsampling and smoothing, a file of a
    first line and [n > 0] further lines, all of [m ≥ 188] values, gives [n]
    samples; a sample is the first 187 values of its line, its label the
    188th, truncated to an integer (a label within the 64 bits of
    [torch.long]). *)
Theorem ecg_setup_reads (dm : Datamodule.t) (w : world) (smooth : bool) (width : R)
    (first_train first_test : list R) (train test : list (list R)) (m_train m_test : nat) :
  fs w !! (Datamodule.data_dir dm ++ ["mitbih_train.csv"])
  = Some (CsvFile (first_train :: train)) →
  fs w !! (Datamodule.data_dir dm ++ ["mitbih_test.csv"])
  = Some (CsvFile (first_test :: test)) →
  Forall (fun l => length l = m_train) (first_train :: train) →
  Forall (fun l => length l = m_test) (first_test :: test) →
  188 ≤ m_train → 188 ≤ m_test →
  train ≠ [] → test ≠ [] →
  Forall (fun l => (- 2 ^ 63 <= trunc (nth 187 l 0%R) < 2 ^ 63)%Z) train →
  Forall (fun l => (- 2 ^ 63 <= trunc (nth 187 l 0%R) < 2 ^ 63)%Z) test →
  smooth && Rltb 0 width = false →
  Datamodule.ecg_setup dm false smooth width w
  = (Ok (Datamodule.with_tensors dm
           (Tensor [length train; 187; 1] (concat (map (take 187) train)))
           (Some (Tensor [length train] (map (fun l => trunc (nth 187 l 0%R)) train)))
           (Tensor [length test; 187; 1] (concat (map (take 187) test)))
           (Some (Tensor [length test] (map (fun l => trunc (nth 187 l 0%R)) test)))),
     w).
Proof.
  intros Hf1 Hf2 Hall1 Hall2 Hm1 Hm2 Hne1 Hne2 Hl1 Hl2 Hsm.
  rewrite (ecg_setup_from_files dm w false smooth width first_train first_test
             train test m_train m_test) by assumption.
  unfold bind, ret. by rewrite Hsm.
Qed.

(** Subsampling by localization keeps at most 1000 training samples, each
    at most once and each with its own label, and leaves the test split as
    it is: the samples and the labels are those of the run without
    subsampling at the same positions, and that run returns too. *)
Theorem ecg_subsample_keeps_labels (dm dm' : Datamodule.t) (w w' : world)
    (smooth : bool) (width : R) :
  smooth && Rltb 0 width = false →
  Datamodule.ecg_setup dm true smooth width w = (Ok dm', w') →
  ∃ dm0 idx y0 y1,
    Datamodule.ecg_setup dm false smooth width w = (Ok dm0, w)
    ∧ NoDup idx ∧ length idx ≤ 1000
    ∧ gather_axis 0 idx (Datamodule.X_train dm0) = Ok (Datamodule.X_train dm')
    ∧ Datamodule.y_train dm0 = Some y0 ∧ Datamodule.y_train dm' = Some y1
    ∧ gather_axis 0 idx y0 = Ok y1
    ∧ Datamodule.X_test dm' = Datamodule.X_test dm0
    ∧ Datamodule.y_test dm' = Datamodule.y_test dm0.
Proof.
  intros Hsm Hs. unfold Datamodule.ecg_setup in Hs. rewrite Hsm in Hs.
  step Hs df_train w1 Hd1. pose proof Hd1 as Hw1. apply read_csv_Ok_inv in Hw1 as [-> _].
  step Hs X_train w2 HX1. lifted HX1.
  step Hs y_train w3 Hy1. lifted Hy1.
  step Hs df_test w4 Hd2. pose proof Hd2 as Hw2. apply read_csv_Ok_inv in Hw2 as [-> _].
  step Hs X_test w5 HX2. lifted HX2.
  step Hs y_test w6 Hy2. lifted Hy2.
  step Hs X_train3 w7 HU1. lifted HU1.
  step Hs y_train3 w7' HL1. lifted HL1.
  step Hs X_test3 w8 HU2. lifted HU2.
  step Hs y_test3 w8' HL2. lifted HL2.
  step Hs sub w9 Hsub.
  destruct sub as [X_sub y_sub]. apply ret_Ok_inv in Hs as [-> ->].
  destruct (localization_metrics X_train3) as [X_loc X_spec_loc].
  step Hsub loc_score w10 Hloc. lifted Hloc.
  step Hsub idx_ranking w11 Hrank. lifted Hrank.
  step Hsub X_s w12 HXs. lifted HXs.
  step Hsub y_s w13 Hys. lifted Hys.
  apply ret_Ok_inv in Hsub as [Hpair ->]. injection Hpair as -> ->.
  exists (Datamodule.with_tensors dm X_train3 (Some y_train3)
            X_test3 (Some y_test3)),
    (slice_to 1000 idx_ranking), y_train3, y_s.
  split.
  { unfold Datamodule.ecg_setup, bind. rewrite Hd1. unfold lift at 1. rewrite HX1.
    unfold lift at 1. rewrite Hy1. rewrite Hd2. unfold lift at 1. rewrite HX2.
    unfold lift at 1. rewrite Hy2. unfold lift at 1. rewrite HU1.
    unfold lift at 1. rewrite HL1. unfold lift at 1. rewrite HU2.
    unfold lift at 1. rewrite HL2. rewrite Hsm. reflexivity. }
  assert (Hnd : NoDup idx_ranking).
  { unfold targsort in Hrank. destruct (shape loc_score) as [|? [|? ?]]; try discriminate.
    injection Hrank as <-. apply argsort_NoDup. }
  split.
  { unfold slice_to. rewrite <- (take_drop (slice_bound (length idx_ranking) 1000) idx_ranking) in Hnd.
    by apply NoDup_app in Hnd as [? _]. }
  split.
  { unfold slice_to. rewrite length_take.
    pose proof (slice_bound_Z (length idx_ranking) 1000) as Hb.
    change (1000 <? 0)%Z with false in Hb. cbn iota in Hb. lia. }
  cbn [Datamodule.X_train Datamodule.y_train Datamodule.X_test Datamodule.y_test
       Datamodule.with_tensors].
  repeat split; try reflexivity; assumption.
Qed.
End Heartbeats.

Ltac labels_in_range :=
  repeat (apply Forall_cons; split);
  lazymatch goal with
  | |- (_ <= trunc ?x < _)%Z =>
      let z := eval cbv [nth heartbeat replicate app] in x in
      change x with z; rewrite trunc_IZR; lia
  | |- Forall _ [] => by apply Forall_nil
  end.

Lemma ecg_setup_reads_witness :
  @Datamodule.ecg_setup flat_fourier ecg_dm false false 0 ecg_world
  = (Ok (Datamodule.with_tensors ecg_dm
           (Tensor [1; 187; 1] (replicate 187 0%R))
           (Some (Tensor [1] [trunc 1]))
           (Tensor [2; 187; 1] (replicate 187 0%R ++ replicate 187 0%R))
           (Some (Tensor [2] [trunc 2; trunc 3]))),
     ecg_world).
Proof.
  apply (@ecg_setup_reads flat_fourier ecg_dm ecg_world false 0%R
           (heartbeat 0) (heartbeat 0) [heartbeat 1] [heartbeat 2; heartbeat 3] 188 188);
    [reflexivity|reflexivity|repeat constructor|repeat constructor|lia|lia
    |discriminate|discriminate|labels_in_range|labels_in_range|reflexivity].
Defined.

Lemma ecg_subsample_keeps_labels_witness :
  ∃ dm' dm0 idx y0 y1,
    @Datamodule.ecg_setup flat_fourier ecg_dm true false 0 ecg_world = (Ok dm', ecg_world)
    ∧ @Datamodule.ecg_setup flat_fourier ecg_dm false false 0 ecg_world = (Ok dm0, ecg_world)
    ∧ NoDup idx ∧ length idx ≤ 1000
    ∧ gather_axis 0 idx (Datamodule.X_train dm0) = Ok (Datamodule.X_train dm')
    ∧ Datamodule.y_train dm0 = Some y0 ∧ Datamodule.y_train dm' = Some y1
    ∧ gather_axis 0 idx y0 = Ok y1
    ∧ Datamodule.X_test dm' = Datamodule.X_test dm0
    ∧ Datamodule.y_test dm' = Datamodule.y_test dm0.
Proof.
  assert (∃ dm', @Datamodule.ecg_setup flat_fourier ecg_dm true false 0 ecg_world
                 = (Ok dm', ecg_world)) as [dm' Hs].
  { rewrite (@ecg_setup_from_files flat_fourier ecg_dm ecg_world true false 0%R
               (heartbeat 0) (heartbeat 0) [heartbeat 1] [heartbeat 2; heartbeat 3]
               188 188);
      [eexists; reflexivity|reflexivity|reflexivity|repeat constructor
      |repeat constructor|lia|lia|discriminate|discriminate
      |labels_in_range|labels_in_range]. }
  exists dm'.
  destruct (@ecg_subsample_keeps_labels flat_fourier ecg_dm dm' ecg_world ecg_world
              false 0%R eq_refl Hs) as (dm0 & idx & y0 & y1 & Hrest).
  exists dm0, idx, y0, y1. split; [exact Hs|exact Hrest].
Defined.

Lemma concat_replicate_singleton {A} (n : nat) (x : A) :
  concat (replicate n [x]) = replicate n x.
Proof. induction n as [|n IH]; simpl; [done|]. by rewrite IH. Qed.

Lemma expand_cons {A} (a b : nat) (s t : list nat) (d : list A) :
  expand (a :: s) (b :: t) d
  = if a =? b then concat (map (expand s t) (chunks a (numel s) d))
    else concat (replicate b (expand s t d)).
Proof. reflexivity. Qed.

Lemma expand_row {A} (l n : nat) (d : list A) :
  length d = l → expand [1; l] [n; l] d = concat (replicate n d).
Proof.
  intros Hd. rewrite expand_cons.
  assert (Hs : expand [l] [l] d = d) by (apply expand_same; simpl; lia).
  destruct (Nat.eqb_spec 1 n) as [<-|_].
  - rewrite chunks_one by (simpl; lia). cbn [map replicate]. by rewrite Hs.
  - by rewrite Hs.
Qed.

Lemma expand_column {A} (l n : nat) (d : list A) :
  length d = n → expand [n; 1] [n; l] d = concat (map (replicate l) d).
Proof.
  intros Hd. rewrite expand_cons, Nat.eqb_refl. cbn [numel foldr].
  rewrite Nat.mul_1_r, <- Hd, chunks_singletons, map_map. f_equal.
  apply map_ext. intros x. rewrite expand_cons. destruct (Nat.eqb_spec 1 l) as [<-|_].
  - reflexivity.
  - apply concat_replicate_singleton.
Qed.

Lemma zip_with_replicate_row {A B C} (g : A → B → C) (r : list A) (x : B) :
  zip_with g r (replicate (length r) x) = map (fun v => g v x) r.
Proof. induction r as [|v r IH]; simpl; [done|]. by rewrite IH. Qed.

Lemma zip_with_rows_column {A B C} (g : A → B → C) (l : nat)
    (rows : list (list A)) (col : list B) :
  Forall (fun r => length r = l) rows → length rows = length col →
  zip_with g (concat rows) (concat (map (replicate l) col))
  = concat (zip_with (fun row x => map (fun v => g v x) row) rows col).
Proof.
  intros Hrows. revert col. induction Hrows as [|r rows Hr _ IH]; intros col Hlen.
  - reflexivity.
  - destruct col as [|x col]; [discriminate|]. cbn [concat map zip_with].
    rewrite zip_with_app by (by rewrite length_replicate).
    rewrite <- Hr at 1. rewrite zip_with_replicate_row. f_equal.
    apply IH. simpl in Hlen. lia.
Qed.

Lemma zip_with_replicate_samples {A B C} (f : A → B → C) (x : A) (g : nat → B) (n : nat) :
  zip_with f (replicate n x) (map g (seq 0 n)) = map (fun i => f x (g i)) (seq 0 n).
Proof.
  generalize 0. induction n as [|n IH]; intros s; simpl; [done|]. by rewrite IH.
Qed.

Lemma zip_with_samples {A B C} (f : A → B → C) (g : nat → A) (h : nat → B) (l : list nat) :
  zip_with f (map g l) (map h l) = map (fun i => f (g i) (h i)) l.
Proof. induction l as [|i l IH]; simpl; [done|]. by rewrite IH. Qed.

(** The rows of a table held row by row. *)
Lemma gather_rows_of {A} (s k : nat) (rows : list (list A)) (l : nat) :
  Forall (fun r => length r = l) rows → s + k ≤ length rows →
  gather_axis 0 (seq s k) (Tensor [length rows; l] (concat rows))
  = Ok (Tensor [k; l] (concat (take k (drop s rows)))).
Proof.
  intros Hrows Hk. unfold gather_axis. cbn [shape data lookup list_lookup].
  assert (Hall : forallb (fun i => i <? length rows) (seq s k) = true).
  { apply forallb_forall. intros i Hi. apply in_seq in Hi. apply Nat.ltb_lt. lia. }
  rewrite Hall. cbn [take drop app numel foldr].
  rewrite chunks_one by (rewrite (concat_length_const l) by exact Hrows; lia).
  cbn [map concat]. rewrite app_nil_r, Nat.mul_1_r, (chunks_concat l rows Hrows).
  rewrite pick_seq_from by exact Hk. by rewrite length_seq.
Qed.

Section Waves.
Context `{Fourier} `{Outside}.

Lemma synthetic_generate_waves (max_len n : nat) :
  (let? a := binop Rmult (Datamodule.arange (Z.of_nat max_len))
               (Datamodule.reshape_column
                  (Tensor [n] (map (beta_draw 2 2) (seq 0 n)))) in
   let? b := binop Rplus a
               (Datamodule.reshape_column (Tensor [n] (map normal_draw (seq 0 n)))) in
   Ok (tmap sin b))
  = Ok (Tensor [n; max_len]
          (concat (map (fun i =>
                          map (fun t => sin (INR t * beta_draw 2 2 i + normal_draw i))
                              (seq 0 max_len))
                       (seq 0 n)))).
Proof.
  destruct (broadcast_row_column max_len n) as [Hb1 Hb2].
  unfold Datamodule.arange, Datamodule.reshape_column.
  cbn [shape data]. rewrite Nat2Z.id, !length_map, !length_seq.
  unfold binop at 1. cbn [shape data]. rewrite Hb1.
  cbn [rbind length]. change (pad_shape 2 [max_len]) with [1; max_len].
  change (pad_shape 2 [n; 1]) with [n; 1].
  rewrite expand_row by (by rewrite length_map, length_seq).
  rewrite expand_column by (by rewrite length_map, length_seq).
  rewrite (zip_with_rows_column Rmult max_len);
    [|apply Forall_replicate; by rewrite length_map, length_seq
     |by rewrite length_replicate, length_map, length_seq].
  rewrite zip_with_replicate_samples.
  unfold binop. cbn [shape data]. rewrite Hb2. cbn [rbind length].
  change (pad_shape 2 [n; max_len]) with [n; max_len].
  change (pad_shape 2 [n; 1]) with [n; 1].
  assert (Hrows : Forall (fun r : list R => length r = max_len)
                    (map (fun i => map (fun v => (v * beta_draw 2 2 i)%R)
                                       (map INR (seq 0 max_len))) (seq 0 n))).
  { apply Forall_map, Forall_forall. intros i _. cbn beta.
    by rewrite !length_map, length_seq. }
  rewrite expand_same
    by (rewrite (concat_length_const max_len) by exact Hrows;
        rewrite length_map, length_seq; simpl; lia).
  rewrite expand_column by (by rewrite length_map, length_seq).
  rewrite (zip_with_rows_column Rplus max_len);
    [|exact Hrows|by rewrite !length_map, !length_seq].
  rewrite zip_with_samples. unfold tmap. cbn [shape data]. do 2 f_equal.
  rewrite concat_map. f_equal.
  rewrite map_map. apply map_ext. intros i. by rewrite !map_map.
Qed.

(** The synthetic dataset, fetched into a fresh directory and set up: the
    sample [i] of the training set is the sinusoid of the [i]-th draws of
    the frequency and the phase, at the time steps [0 .. max_len - 1], and
    the sample [i] of the test set is that of the draws [num_samples + i];
    the two splits share no draw. *)
Theorem synthetic_samples_are_waves (dm : Datamodule.t) (w : world)
    (max_len num_samples : nat) :
  0 < max_len → 0 < num_samples →
  Datamodule.kind dm = Synthetic (Z.of_nat max_len) (Z.of_nat num_samples) →
  fs w !! Datamodule.data_dir dm = Some Directory →
  fs w !! (Datamodule.data_dir dm ++ ["train.csv"]) = None →
  fs w !! (Datamodule.data_dir dm ++ ["test.csv"]) = None →
  let wave i :=
    map (fun t => sin (INR t * beta_draw 2 2 i + normal_draw i)) (seq 0 max_len) in
  ∃ w' dm',
    Datamodule.download_data dm w = (Ok tt, w')
    ∧ Datamodule.setup dm w' = (Ok dm', w')
    ∧ Datamodule.X_train dm'
      = Tensor [num_samples; max_len; 1] (concat (map wave (seq 0 num_samples)))
    ∧ Datamodule.X_test dm'
      = Tensor [num_samples; max_len; 1]
          (concat (map wave (seq num_samples num_samples))).
Proof.
  intros Hl Hn Hk Hdir Htrain Htest wave.
  set (rows := map wave (seq 0 (num_samples + num_samples))).
  set (X := Tensor [num_samples + num_samples; max_len] (concat rows)).
  assert (Hwave : ∀ s k, Forall (fun r : list R => length r = max_len)
                           (map wave (seq s k))).
  { intros s k. apply Forall_map, Forall_forall. intros i _. unfold wave.
    by rewrite length_map, length_seq. }
  assert (Hlen : length rows = num_samples + num_samples).
  { unfold rows. by rewrite length_map, length_seq. }
  destruct (slice_head X num_samples num_samples [max_len] eq_refl) as [Hhead Htail].
  assert (HX : X = Tensor [length rows; max_len] (concat rows)) by (by rewrite Hlen).
  assert (HA : gather_axis 0 (seq 0 num_samples) X
               = Ok (Tensor [num_samples; max_len]
                       (concat (map wave (seq 0 num_samples))))).
  { rewrite HX, (gather_rows_of 0 num_samples rows max_len) by (apply Hwave || lia).
    unfold rows. rewrite drop_0, firstn_map, take_seq, Nat.min_l by lia.
    reflexivity. }
  assert (HB : gather_axis 0 (seq num_samples num_samples) X
               = Ok (Tensor [num_samples; max_len]
                       (concat (map wave (seq num_samples num_samples))))).
  { rewrite HX, (gather_rows_of num_samples num_samples rows max_len)
      by (apply Hwave || lia).
    unfold rows. rewrite skipn_map, drop_seq, firstn_map, take_seq.
    rewrite Nat.min_l by lia. reflexivity. }
  set (train := map wave (seq 0 num_samples)) in *.
  set (test := map wave (seq num_samples num_samples)) in *.
  assert (Hn1 : length train = num_samples) by (unfold train; by rewrite length_map, length_seq).
  assert (Hn2 : length test = num_samples) by (unfold test; by rewrite length_map, length_seq).
  set (w' := World (<[Datamodule.data_dir dm ++ ["test.csv"] := CsvFile test]>
                (<[Datamodule.data_dir dm ++ ["train.csv"] := CsvFile train]> (fs w)))
             (calls w)).
  assert (Hf1 : fs w' !! (Datamodule.data_dir dm ++ ["train.csv"]) = Some (CsvFile train)).
  { simpl. rewrite lookup_insert_ne, lookup_insert_eq; [done|].
    intros Heq. apply app_inv_head in Heq. discriminate. }
  assert (Hf2 : fs w' !! (Datamodule.data_dir dm ++ ["test.csv"]) = Some (CsvFile test)).
  { simpl. by rewrite lookup_insert_eq. }
  assert (Hne1 : train ≠ []) by (intros E; rewrite E in Hn1; simpl in Hn1; lia).
  assert (Hne2 : test ≠ []) by (intros E; rewrite E in Hn2; simpl in Hn2; lia).
  assert (Hc1 : chunks num_samples max_len (concat train) = train).
  { rewrite <- Hn1 at 1. apply chunks_concat, Hwave. }
  assert (Hc2 : chunks num_samples max_len (concat test) = test).
  { rewrite <- Hn2 at 1. apply chunks_concat, Hwave. }
  exists w'. eexists. split; [|split].
  - unfold Datamodule.download_data. rewrite Hk.
    unfold Datamodule.synthetic_download_data, Datamodule.random_normal,
      Datamodule.random_beta.
    destruct (Z.ltb_spec (2 * Z.of_nat num_samples) 0); [lia|].
    replace (Z.to_nat (2 * Z.of_nat num_samples)) with (num_samples + num_samples) by lia.
    unfold bind at 1. unfold lift at 1. unfold bind at 1. unfold lift at 1.
    unfold bind at 1. unfold lift at 1.
    rewrite (synthetic_generate_waves max_len (num_samples + num_samples)).
    fold wave. fold rows. fold X.
    unfold bind at 1. unfold lift at 1. rewrite Hhead, HA.
    unfold bind at 1. unfold lift at 1. rewrite Htail, HB.
    unfold bind.
    rewrite (to_csv_Ok _ _ _ w num_samples max_len) by done.
    rewrite (to_csv_Ok _ _ _ _ num_samples max_len); [| reflexivity | |].
    + cbn [data fs calls]. rewrite Hc1, Hc2. reflexivity.
    + simpl. rewrite lookup_insert_ne; [done|].
      intros Heq. apply (f_equal length) in Heq. rewrite length_app in Heq.
      simpl in Heq. lia.
    + simpl. rewrite lookup_insert_ne; [done|].
      intros Heq. apply app_inv_head in Heq. discriminate.
  - unfold Datamodule.setup. rewrite Hk.
    apply (synthetic_setup_Ok dm w' train test max_len max_len);
      [exact Hf1|exact Hf2|exact Hne1|exact Hl|apply Hwave|exact Hne2|exact Hl|apply Hwave].
  - cbn [Datamodule.X_train Datamodule.X_test Datamodule.with_tensors].
    rewrite Hn1, Hn2. split; reflexivity.
Qed.
End Waves.

Lemma synthetic_samples_are_waves_witness :
  let O := writing_outside three_rows three_rows in
  let wave i :=
    map (fun t => sin (INR t * @beta_draw O 2 2 i + @normal_draw O i)) (seq 0 100) in
  ∃ w' dm',
    @Datamodule.download_data O synthetic_dm fresh_synthetic_world = (Ok tt, w')
    ∧ @Datamodule.setup plain_fourier O synthetic_dm w' = (Ok dm', w')
    ∧ Datamodule.X_train dm'
      = Tensor [1000; 100; 1] (concat (map wave (seq 0 1000)))
    ∧ Datamodule.X_test dm'
      = Tensor [1000; 100; 1] (concat (map wave (seq 1000 1000))).
Proof.
  intros O.
  apply (@synthetic_samples_are_waves plain_fourier O synthetic_dm fresh_synthetic_world
           100 1000); try reflexivity; lia.
Defined.

Section Validation.
Context `{Fourier}.

(** With training and test tensors of the same shape past the samples (and
    a transform that keeps shapes), every validation sample is served, with
    or without standardization, and its ["X"] has that shape. *)
Theorem val_sample_shape (dm : Datamodule.t) (n n_train i : nat) (rest : list nat) :
  (∀ X, shape (dft X) = shape X) →
  shape (Datamodule.X_test dm) = n :: rest →
  shape (Datamodule.X_train dm) = n_train :: rest →
  from_option (fun l => ∃ r, shape l = n :: r) True (Datamodule.y_test dm) →
  i < n →
  ∃ s x,
    DiffusionDataset.getitem (dataset (Datamodule.val_dataloader dm)) (Z.of_nat i) = Ok s
    ∧ s !! "X" = Some (FloatTensor x) ∧ shape x = rest.
Proof.
  intros Hdft Htest Htrain Hy Hi.
  unfold Datamodule.val_dataloader, DiffusionDataset.init, DiffusionDataset.getitem.
  cbn [dataset DiffusionDataset.X DiffusionDataset.y DiffusionDataset.standardize
       DiffusionDataset.feature_mean DiffusionDataset.feature_std].
  set (Xt := if Datamodule.fourier_transform dm then dft (Datamodule.X_test dm)
             else Datamodule.X_test dm).
  set (Xr := if Datamodule.fourier_transform dm then dft (Datamodule.X_train dm)
             else Datamodule.X_train dm).
  assert (HXt : shape Xt = n :: rest).
  { unfold Xt. destruct (Datamodule.fourier_transform dm); [by rewrite Hdft|done]. }
  assert (HXr : shape Xr = n_train :: rest).
  { unfold Xr. destruct (Datamodule.fourier_transform dm); [by rewrite Hdft|done]. }
  rewrite (select0_nat Xt n i rest HXt Hi). cbn [rbind].
  set (row := Tensor rest (take (numel rest) (drop (i * numel rest) (data Xt)))).
  assert (Hst : ∃ x, (if Datamodule.standardize dm
                      then let? d := tsub row (mean_dim0 Xr) in tdiv d (std_dim0 Xr)
                      else Ok row) = Ok x ∧ shape x = rest).
  { destruct (Datamodule.standardize dm); [|by exists row].
    destruct (binop_Ok Rminus row (mean_dim0 Xr) rest) as (d & Hd & Hsd).
    { unfold mean_dim0. rewrite (reduce_dim0_shape mean Xr n_train rest HXr).
      apply broadcast_shapes_refl. }
    destruct (binop_Ok Rdiv d (std_dim0 Xr) rest) as (x & Hx & Hsx).
    { unfold std_dim0. rewrite (reduce_dim0_shape std Xr n_train rest HXr), Hsd.
      apply broadcast_shapes_refl. }
    exists x. unfold tsub, tdiv. rewrite Hd. cbn [rbind]. by rewrite Hx. }
  destruct Hst as (x & -> & Hsx). cbn [rbind].
  destruct (Datamodule.y_test dm) as [labels|]; cbn [from_option] in Hy.
  - destruct Hy as [r Hr]. rewrite (select0_nat labels n i r Hr Hi). cbn [rbind].
    eexists _, x. split; [reflexivity|]. split; [|exact Hsx].
    rewrite lookup_insert_ne by done. by rewrite lookup_insert_eq.
  - eexists _, x. split; [reflexivity|]. split; [|exact Hsx].
    by rewrite lookup_insert_eq.
Qed.

(** With sequence lengths that differ between the two splits, neither of
    them 1, no validation sample can be standardized: the statistics of the
    training tensor do not broadcast against a test sequence, and every
    access in range raises [RuntimeError]. *)
Theorem val_sample_length_mismatch (dm : Datamodule.t)
    (n n_train l l_train c c_train i : nat) :
  (∀ X, shape (dft X) = shape X) →
  Datamodule.standardize dm = true →
  shape (Datamodule.X_test dm) = [n; l; c] →
  shape (Datamodule.X_train dm) = [n_train; l_train; c_train] →
  l ≠ l_train → l ≠ 1 → l_train ≠ 1 → i < n →
  DiffusionDataset.getitem (dataset (Datamodule.val_dataloader dm)) (Z.of_nat i)
  = Raise RuntimeError.
Proof.
  intros Hdft Hstd Htest Htrain Hne Hl Hl' Hi.
  unfold Datamodule.val_dataloader, DiffusionDataset.init, DiffusionDataset.getitem.
  cbn [dataset DiffusionDataset.X DiffusionDataset.y DiffusionDataset.standardize
       DiffusionDataset.feature_mean DiffusionDataset.feature_std].
  set (Xt := if Datamodule.fourier_transform dm then dft (Datamodule.X_test dm)
             else Datamodule.X_test dm).
  set (Xr := if Datamodule.fourier_transform dm then dft (Datamodule.X_train dm)
             else Datamodule.X_train dm).
  assert (HXt : shape Xt = [n; l; c]).
  { unfold Xt. destruct (Datamodule.fourier_transform dm); [by rewrite Hdft|done]. }
  assert (HXr : shape Xr = [n_train; l_train; c_train]).
  { unfold Xr. destruct (Datamodule.fourier_transform dm); [by rewrite Hdft|done]. }
  rewrite (select0_nat Xt n i [l; c] HXt Hi), Hstd. cbn [rbind].
  unfold tsub, binop, mean_dim0. cbn [shape].
  rewrite (reduce_dim0_shape mean Xr n_train [l_train; c_train] HXr).
  assert (Hb : broadcast_shapes [l; c] [l_train; c_train] = None).
  { unfold broadcast_shapes.
    change (reverse [l; c]) with [c; l].
    change (reverse [l_train; c_train]) with [c_train; l_train].
    cbn [broadcast_rev].
    apply Nat.eqb_neq in Hne, Hl, Hl'. rewrite Hne, Hl, Hl'.
    destruct (c =? c_train); [reflexivity|].
    destruct (c =? 1); [reflexivity|]. destruct (c_train =? 1); reflexivity. }
  rewrite Hb. reflexivity.
Qed.
End Validation.

Section Offline.
Context `{Outside}.

(** A download that fails is not tried again: on a machine without the
    directory of the dataset, and with no regular file in the way of it,
    [prepare_data] of an adapter that downloads creates the directory,
    raises the error of the download as it is, and, run again, finds the
    directory and returns without a download. *)
Theorem failed_download_not_retried (dm : Datamodule.t) (w : world) (e : exn) :
  match Datamodule.kind dm with
  | Synthetic _ _ | MIMICIII _ => False
  | _ => True
  end →
  fs w !! Datamodule.data_dir dm = None →
  creatable (Datamodule.data_dir dm) (fs w) = true →
  (∀ name f, (kaggle_download name (Datamodule.data_dir dm) f).1 = Raise e) →
  (∀ name f, is_Some (f !! Datamodule.data_dir dm) →
             is_Some ((kaggle_download name (Datamodule.data_dir dm) f).2
                        !! Datamodule.data_dir dm)) →
  ∃ w',
    Datamodule.prepare_data dm w = (Raise e, w')
    ∧ calls w' = calls w ++ [DownloadData (Datamodule.dataset_name (Datamodule.kind dm))]
    ∧ Datamodule.prepare_data dm w' = (Ok tt, w').
Proof.
  intros Hk Hdir Hcr Hfail Hkeep.
  destruct (prepare_data_absent dm w Hdir Hcr) as (f & _ & Hf & Hrun).
  rewrite Hrun. clear Hrun.
  assert (Hdl : ∀ name,
    on_files (kaggle_download name (Datamodule.data_dir dm))
      (World f (calls w ++ [DownloadData (Datamodule.dataset_name (Datamodule.kind dm))]))
    = (Raise e,
       World (kaggle_download name (Datamodule.data_dir dm) f).2
         (calls w ++ [DownloadData (Datamodule.dataset_name (Datamodule.kind dm))]))).
  { intros name. unfold on_files. cbn [fs calls].
    specialize (Hfail name f).
    destruct (kaggle_download name (Datamodule.data_dir dm) f) as [r f'].
    cbn [fst snd] in *. by rewrite Hfail. }
  assert (Hsome : is_Some (f !! Datamodule.data_dir dm)) by (rewrite Hf; by eexists).
  unfold Datamodule.download_data.
  destruct (Datamodule.kind dm) as [sub sm wd|ml ns|nf| |sd ro|]; try contradiction;
    rewrite Hdl; eexists; (split; [reflexivity|]); (split; [reflexivity|]);
    apply prepare_data_present; cbn [fs]; by apply Hkeep.
Qed.
End Offline.

Lemma val_sample_shape_witness :
  ∃ s x,
    DiffusionDataset.getitem
      (dataset (@Datamodule.val_dataloader plain_fourier dm_standardized)) (Z.of_nat 0)
    = Ok s
    ∧ s !! "X" = Some (FloatTensor x) ∧ shape x = [1; 1].
Proof.
  apply (@val_sample_shape plain_fourier dm_standardized 2 2 0 [1; 1]);
    [reflexivity|reflexivity|reflexivity|exact I|lia].
Defined.

Lemma val_sample_length_mismatch_witness :
  DiffusionDataset.getitem
    (dataset (@Datamodule.val_dataloader plain_fourier uneven_dm)) (Z.of_nat 0)
  = Raise RuntimeError.
Proof.
  apply (@val_sample_length_mismatch plain_fourier uneven_dm 1 1 730 365 5 5 0);
    [reflexivity|reflexivity|reflexivity|reflexivity|lia|lia|lia|lia].
Defined.

Lemma failed_download_not_retried_witness :
  ∃ w',
    @Datamodule.prepare_data offline_outside nasdaq_dm empty_world
    = (Raise RuntimeError, w')
    ∧ calls w' = calls empty_world ++ [DownloadData "nasdaq"]
    ∧ @Datamodule.prepare_data offline_outside nasdaq_dm w' = (Ok tt, w').
Proof.
  apply (@failed_download_not_retried offline_outside nasdaq_dm empty_world RuntimeError);
    [exact I|reflexivity|reflexivity|reflexivity|].
  intros name f Hf. exact Hf.
Defined.
